(** * D4RL experience replay: construction of the transition table

    A shallow embedding of [torchrl/data/datasets/d4rl.py]
    ([D4RLExperienceReplay]) together with the properties of the table it
    hands to the replay storage.

    Tensors are modelled as views (pointer, offset, number of rows) into a
    store of buffers, so that the sharing between a tensordict and the
    tensordicts selected or sliced from it is explicit, and so that
    [clone] is the only way to obtain an independent copy.  A row of a
    tensor is the flattened list of its trailing dimensions; numeric
    elements are integers (the code only copies, zero-fills and converts
    them; boolean tensors hold 0 and 1).  With rows flattened,
    [unsqueeze(-1)] is the identity on contents.

    A nested tensordict is a finite map from key paths to tensors: the
    entry ["next"; "observation"] is the leaf reached by
    [dataset["next", "observation"]]. *)

From stdpp Require Import gmap strings list fin_maps.
From Stdlib Require Import ZArith.

(** ** Exceptions and the store monad *)

Inductive exn : Type :=
| KeyError (msg : string)
| IndexError (msg : string)
| RuntimeError (msg : string)
| ImportError (msg : string).

Inductive result (A : Type) : Type :=
| Ok (a : A)
| Raise (e : exn).

Arguments Ok {A} a.
Arguments Raise {A} e.

Abbreviation key := (list string).
Abbreviation row := (list Z).
Abbreviation buffer := (list (list Z)).
Abbreviation heap := (gmap nat (list (list Z))).

(** A computation reads and extends the store of buffers, or raises. *)
Definition M (A : Type) : Type := heap → result (A * heap).

Definition ret {A} (a : A) : M A := λ h, Ok (a, h).

Definition raise {A} (e : exn) : M A := λ _, Raise e.

Definition bind {A B} (c : M A) (k : A → M B) : M B :=
  λ h, match c h with
       | Ok (a, h') => k a h'
       | Raise e => Raise e
       end.

Definition lift {A} (r : result A) : M A :=
  λ h, match r with
       | Ok a => Ok (a, h)
       | Raise e => Raise e
       end.

Notation "'let*' x ':=' c 'in' k" := (bind c (λ x, k))
  (at level 10, x pattern, c at level 100, k at level 200, only parsing).

Fixpoint for_each {S X} (xs : list X) (body : X → S → M S) (s : S) : M S :=
  match xs with
  | [] => ret s
  | x :: xs' => let* s' := body x s in for_each xs' body s'
  end.

(** ** Tensors *)

Record tensor : Type := Tensor {
  data_ptr : nat;
  storage_offset : nat;
  size0 : nat
}.

(** The rows a tensor denotes in a store, when its storage is there and
    the view lies within it. *)
Definition read (h : heap) (t : tensor) : option buffer :=
  match h !! data_ptr t with
  | Some buf =>
      if decide (storage_offset t + size0 t ≤ length buf)
      then Some (take (size0 t) (drop (storage_offset t) buf))
      else None
  | None => None
  end.

Definition load (t : tensor) : M buffer :=
  λ h, match read h t with
       | Some b => Ok (b, h)
       | None => Raise (RuntimeError "invalid storage")
       end.

(** A new tensor owns a new buffer. *)
Definition alloc (b : buffer) : M tensor :=
  λ h, let p := fresh (dom h) in Ok (Tensor p 0 (length b), <[p := b]> h).

(** [t.clone()] *)
Definition clone (t : tensor) : M tensor :=
  let* b := load t in alloc b.

(** Element-wise operations ([t.to(dtype)], [t.bool()]) give a new tensor. *)
Definition tensor_map (f : Z → Z) (t : tensor) : M tensor :=
  let* b := load t in alloc (map (map f) b).

(** [a | b] on tensors of the same shape. *)
Definition tensor_or (a b : tensor) : M tensor :=
  let* x := load a in
  let* y := load b in
  if decide (length x = length y)
  then alloc (zip_with (zip_with Z.lor) x y)
  else raise (RuntimeError "The size of tensor a must match the size of tensor b").

(** [t[:-1]] and [t[1:]]: views of the same storage. *)
Definition slice_init (t : tensor) : tensor :=
  Tensor (data_ptr t) (storage_offset t) (size0 t - 1).

Definition slice_tail (t : tensor) : tensor :=
  Tensor (data_ptr t) (storage_offset t + Nat.min 1 (size0 t)) (size0 t - 1).

(** Writing rows into the storage a view points to. *)
Definition splice (off : nat) (new old : buffer) : buffer :=
  take off old ++ new ++ drop (off + length new) old.

Definition store (t : tensor) (b : buffer) : M unit :=
  λ h, match h !! data_ptr t with
       | Some buf => Ok ((), <[data_ptr t := splice (storage_offset t) b buf]> h)
       | None => Raise (RuntimeError "invalid storage")
       end.

(** [dst[...] = src] for a source with as many rows as the destination. *)
Definition setitem (dst src : tensor) : M unit :=
  let* v := load src in
  if decide (length v = size0 dst) then store dst v
  else raise (RuntimeError "shape mismatch").

Definition zeros_like (r : row) : row := map (λ _, 0%Z) r.

Definition ones_like (r : row) : row := map (λ _, 1%Z) r.

(** [t[0] = 0] *)
Definition setitem_row0_zero (t : tensor) : M unit :=
  let* v := load t in
  match v with
  | [] => raise (IndexError "index 0 is out of bounds for dimension 0 with size 0")
  | r :: _ => store (Tensor (data_ptr t) (storage_offset t) 1) [zeros_like r]
  end.

Definition to_bool (x : Z) : Z := if (x =? 0)%Z then 0%Z else 1%Z.

(** A flag row of shape [1] read as a boolean (the result of [squeeze()]). *)
Definition row_true (r : row) : bool :=
  match r with
  | [x] => negb (x =? 0)%Z
  | _ => false
  end.

Definition mask_fill (v : buffer) (mask : buffer) : buffer :=
  zip_with (λ r m, if row_true m then zeros_like r else r) v mask.

(** [t[mask.squeeze()] = 0] *)
Definition setitem_mask_zero (t mask : tensor) : M unit :=
  let* m := load mask in
  let* v := load t in
  if decide (length m = length v) then store t (mask_fill v m)
  else raise (IndexError "The shape of the mask does not match the shape of the indexed tensor").

(** ** Tensordicts

    [below p k] holds when the path [k] lies in the sub-tensordict rooted
    at [p] (a leaf lies below itself). *)

Fixpoint below (p k : key) : bool :=
  match p, k with
  | [], _ => true
  | a :: p', b :: k' => String.eqb a b && below p' k'
  | _ :: _, [] => false
  end.

Section tensordict.
Context {A : Type}.

(** [name in d.keys()] *)
Definition td_in (name : string) (d : gmap key A) : bool :=
  bool_decide (map_Exists (λ k _, below [name] k = true) d).

(** [d.exclude(p)] / [d.del_(p)] *)
Definition td_del (p : key) (d : gmap key A) : gmap key A :=
  filter (λ kv, below p kv.1 = false) d.

Definition td_below (p : key) (d : gmap key A) : gmap key A :=
  filter (λ kv, below p kv.1 = true) d.

(** [d.get(p)]: the sub-tensordict rooted at [p], re-rooted at the empty
    path (a leaf is the entry at the empty path). *)
Definition td_get (p : key) (d : gmap key A) : gmap key A :=
  kmap (drop (length p)) (td_below p d).

Definition td_nest (p : key) (s : gmap key A) : gmap key A :=
  kmap (app p) s.

(** [d.set(p, s)]: whatever was stored at [p] is replaced. *)
Definition td_set (p : key) (s d : gmap key A) : gmap key A :=
  td_nest p s ∪ td_del p d.

(** [d[k] = x] for a tensor [x]. *)
Definition td_set_leaf (k : key) (x : A) (d : gmap key A) : gmap key A :=
  <[k := x]> (td_del k d).

(** [d[name]] / [d.get(name)] for a field that holds a tensor. *)
Definition td_leaf (k : key) (d : gmap key A) : result A :=
  match d !! k with
  | Some x => Ok x
  | None => Raise (KeyError ("key " +:+ String.concat "/" k +:+ " not found in TensorDict"))
  end.

(** [d.select(names, strict=False)]: a tensordict with the same tensors. *)
Definition td_select (names : list string) (d : gmap key A) : gmap key A :=
  filter (λ kv, existsb (λ n, below [n] kv.1) names = true) d.

(** [d.rename_key_(old, new)] = [d.set(new, d.get(old)); d.del_(old)] *)
Definition td_rename (old : string) (new : key) (d : gmap key A) : gmap key A :=
  td_del [old] (td_set new (td_get [old] d) d).

Definition td_rename_key_ (old : string) (new : key) (d : gmap key A)
  : result (gmap key A) :=
  if td_in old d
  then Ok (td_rename old new d)
  else Raise (KeyError ("key " +:+ old +:+ " not found in TensorDict")).

(** [d["next"].update(s)] for a tensordict [s] of tensors. *)
Definition td_update_next (s d : gmap key A) : gmap key A :=
  td_nest ["next"] s ∪ d.

End tensordict.

(** [d.clone()]: every tensor gets storage of its own. *)
Definition td_clone (d : gmap key tensor) : M (gmap key tensor) :=
  foldr (λ kt acc, let* d' := acc in
                   let* t' := clone kt.2 in
                   ret (<[kt.1 := t']> d'))
        (ret ∅) (map_to_list d).

(** ** The class [D4RLExperienceReplay] *)

(** The class attribute [D4RL_DATASETS]: dataset name and archive URL. *)
Definition D4RL_DATASETS : list (string * string) := [
  ("maze2d-open-v0",
   "http://rail.eecs.berkeley.edu/datasets/offline_rl/maze2d/maze2d-open-sparse.hdf5");
  ("maze2d-umaze-v1",
   "http://rail.eecs.berkeley.edu/datasets/offline_rl/maze2d/maze2d-umaze-sparse-v1.hdf5");
  ("maze2d-medium-v1",
   "http://rail.eecs.berkeley.edu/datasets/offline_rl/maze2d/maze2d-medium-sparse-v1.hdf5");
  ("maze2d-large-v1",
   "http://rail.eecs.berkeley.edu/datasets/offline_rl/maze2d/maze2d-large-sparse-v1.hdf5");
  ("maze2d-eval-umaze-v1",
   "http://rail.eecs.berkeley.edu/datasets/offline_rl/maze2d/maze2d-eval-umaze-sparse-v1.hdf5");
  ("maze2d-eval-medium-v1",
   "http://rail.eecs.berkeley.edu/datasets/offline_rl/maze2d/maze2d-eval-medium-sparse-v1.hdf5");
  ("maze2d-eval-large-v1",
   "http://rail.eecs.berkeley.edu/datasets/offline_rl/maze2d/maze2d-eval-large-sparse-v1.hdf5");
  ("maze2d-open-dense-v0",
   "http://rail.eecs.berkeley.edu/datasets/offline_rl/maze2d/maze2d-open-dense.hdf5");
  ("maze2d-umaze-dense-v1",
   "http://rail.eecs.berkeley.edu/datasets/offline_rl/maze2d/maze2d-umaze-dense-v1.hdf5");
  ("maze2d-medium-dense-v1",
   "http://rail.eecs.berkeley.edu/datasets/offline_rl/maze2d/maze2d-medium-dense-v1.hdf5");
  ("maze2d-large-dense-v1",
   "http://rail.eecs.berkeley.edu/datasets/offline_rl/maze2d/maze2d-large-dense-v1.hdf5");
  ("maze2d-eval-umaze-dense-v1",
   "http://rail.eecs.berkeley.edu/datasets/offline_rl/maze2d/maze2d-eval-umaze-dense-v1.hdf5");
  ("maze2d-eval-medium-dense-v1",
   "http://rail.eecs.berkeley.edu/datasets/offline_rl/maze2d/maze2d-eval-medium-dense-v1.hdf5");
  ("maze2d-eval-large-dense-v1",
   "http://rail.eecs.berkeley.edu/datasets/offline_rl/maze2d/maze2d-eval-large-dense-v1.hdf5");
  ("minigrid-fourrooms-v0",
   "http://rail.eecs.berkeley.edu/datasets/offline_rl/minigrid/minigrid4rooms.hdf5");
  ("minigrid-fourrooms-random-v0",
   "http://rail.eecs.berkeley.edu/datasets/offline_rl/minigrid/minigrid4rooms_random.hdf5");
  ("pen-human-v0",
   "http://rail.eecs.berkeley.edu/datasets/offline_rl/hand_dapg/pen-v0_demos_clipped.hdf5");
  ("pen-cloned-v0",
   "http://rail.eecs.berkeley.edu/datasets/offline_rl/hand_dapg/pen-demos-v0-bc-combined.hdf5");
  ("pen-expert-v0",
   "http://rail.eecs.berkeley.edu/datasets/offline_rl/hand_dapg/pen-v0_expert_clipped.hdf5");
  ("hammer-human-v0",
   "http://rail.eecs.berkeley.edu/datasets/offline_rl/hand_dapg/hammer-v0_demos_clipped.hdf5");
  ("hammer-cloned-v0",
   "http://rail.eecs.berkeley.edu/datasets/offline_rl/hand_dapg/hammer-demos-v0-bc-combined.hdf5");
  ("hammer-expert-v0",
   "http://rail.eecs.berkeley.edu/datasets/offline_rl/hand_dapg/hammer-v0_expert_clipped.hdf5");
  ("relocate-human-v0",
   "http://rail.eecs.berkeley.edu/datasets/offline_rl/hand_dapg/relocate-v0_demos_clipped.hdf5");
  ("relocate-cloned-v0",
   "http://rail.eecs.berkeley.edu/datasets/offline_rl/hand_dapg/relocate-demos-v0-bc-combined.hdf5");
  ("relocate-expert-v0",
   "http://rail.eecs.berkeley.edu/datasets/offline_rl/hand_dapg/relocate-v0_expert_clipped.hdf5");
  ("door-human-v0",
   "http://rail.eecs.berkeley.edu/datasets/offline_rl/hand_dapg/door-v0_demos_clipped.hdf5");
  ("door-cloned-v0",
   "http://rail.eecs.berkeley.edu/datasets/offline_rl/hand_dapg/door-demos-v0-bc-combined.hdf5");
  ("door-expert-v0",
   "http://rail.eecs.berkeley.edu/datasets/offline_rl/hand_dapg/door-v0_expert_clipped.hdf5");
  ("halfcheetah-random-v0",
   "http://rail.eecs.berkeley.edu/datasets/offline_rl/gym_mujoco/halfcheetah_random.hdf5");
  ("halfcheetah-medium-v0",
   "http://rail.eecs.berkeley.edu/datasets/offline_rl/gym_mujoco/halfcheetah_medium.hdf5");
  ("halfcheetah-expert-v0",
   "http://rail.eecs.berkeley.edu/datasets/offline_rl/gym_mujoco/halfcheetah_expert.hdf5");
  ("halfcheetah-medium-replay-v0",
   "http://rail.eecs.berkeley.edu/datasets/offline_rl/gym_mujoco/halfcheetah_mixed.hdf5");
  ("halfcheetah-medium-expert-v0",
   "http://rail.eecs.berkeley.edu/datasets/offline_rl/gym_mujoco/halfcheetah_medium_expert.hdf5");
  ("walker2d-random-v0",
   "http://rail.eecs.berkeley.edu/datasets/offline_rl/gym_mujoco/walker2d_random.hdf5");
  ("walker2d-medium-v0",
   "http://rail.eecs.berkeley.edu/datasets/offline_rl/gym_mujoco/walker2d_medium.hdf5");
  ("walker2d-expert-v0",
   "http://rail.eecs.berkeley.edu/datasets/offline_rl/gym_mujoco/walker2d_expert.hdf5");
  ("walker2d-medium-replay-v0",
   "http://rail.eecs.berkeley.edu/datasets/offline_rl/gym_mujoco/walker_mixed.hdf5");
  ("walker2d-medium-expert-v0",
   "http://rail.eecs.berkeley.edu/datasets/offline_rl/gym_mujoco/walker2d_medium_expert.hdf5");
  ("hopper-random-v0",
   "http://rail.eecs.berkeley.edu/datasets/offline_rl/gym_mujoco/hopper_random.hdf5");
  ("hopper-medium-v0",
   "http://rail.eecs.berkeley.edu/datasets/offline_rl/gym_mujoco/hopper_medium.hdf5");
  ("hopper-expert-v0",
   "http://rail.eecs.berkeley.edu/datasets/offline_rl/gym_mujoco/hopper_expert.hdf5");
  ("hopper-medium-replay-v0",
   "http://rail.eecs.berkeley.edu/datasets/offline_rl/gym_mujoco/hopper_mixed.hdf5");
  ("hopper-medium-expert-v0",
   "http://rail.eecs.berkeley.edu/datasets/offline_rl/gym_mujoco/hopper_medium_expert.hdf5");
  ("ant-random-v0",
   "http://rail.eecs.berkeley.edu/datasets/offline_rl/gym_mujoco/ant_random.hdf5");
  ("ant-medium-v0",
   "http://rail.eecs.berkeley.edu/datasets/offline_rl/gym_mujoco/ant_medium.hdf5");
  ("ant-expert-v0",
   "http://rail.eecs.berkeley.edu/datasets/offline_rl/gym_mujoco/ant_expert.hdf5");
  ("ant-medium-replay-v0",
   "http://rail.eecs.berkeley.edu/datasets/offline_rl/gym_mujoco/ant_mixed.hdf5");
  ("ant-medium-expert-v0",
   "http://rail.eecs.berkeley.edu/datasets/offline_rl/gym_mujoco/ant_medium_expert.hdf5");
  ("ant-random-expert-v0",
   "http://rail.eecs.berkeley.edu/datasets/offline_rl/gym_mujoco/ant_random_expert.hdf5");
  ("antmaze-umaze-v0",
   "http://rail.eecs.berkeley.edu/datasets/offline_rl/ant_maze_new/Ant_maze_u-maze_noisy_multistart_False_multigoal_False_sparse.hdf5");
  ("antmaze-umaze-diverse-v0",
   "http://rail.eecs.berkeley.edu/datasets/offline_rl/ant_maze_new/Ant_maze_u-maze_noisy_multistart_True_multigoal_True_sparse.hdf5");
  ("antmaze-medium-play-v0",
   "http://rail.eecs.berkeley.edu/datasets/offline_rl/ant_maze_new/Ant_maze_big-maze_noisy_multistart_True_multigoal_False_sparse.hdf5");
  ("antmaze-medium-diverse-v0",
   "http://rail.eecs.berkeley.edu/datasets/offline_rl/ant_maze_new/Ant_maze_big-maze_noisy_multistart_True_multigoal_True_sparse.hdf5");
  ("antmaze-large-play-v0",
   "http://rail.eecs.berkeley.edu/datasets/offline_rl/ant_maze_new/Ant_maze_hardest-maze_noisy_multistart_True_multigoal_False_sparse.hdf5");
  ("antmaze-large-diverse-v0",
   "http://rail.eecs.berkeley.edu/datasets/offline_rl/ant_maze_new/Ant_maze_hardest-maze_noisy_multistart_True_multigoal_True_sparse.hdf5");
  ("antmaze-umaze-v2",
   "http://rail.eecs.berkeley.edu/datasets/offline_rl/ant_maze_v2/Ant_maze_u-maze_noisy_multistart_False_multigoal_False_sparse_fixed.hdf5");
  ("antmaze-umaze-diverse-v2",
   "http://rail.eecs.berkeley.edu/datasets/offline_rl/ant_maze_v2/Ant_maze_u-maze_noisy_multistart_True_multigoal_True_sparse_fixed.hdf5");
  ("antmaze-medium-play-v2",
   "http://rail.eecs.berkeley.edu/datasets/offline_rl/ant_maze_v2/Ant_maze_big-maze_noisy_multistart_True_multigoal_False_sparse_fixed.hdf5");
  ("antmaze-medium-diverse-v2",
   "http://rail.eecs.berkeley.edu/datasets/offline_rl/ant_maze_v2/Ant_maze_big-maze_noisy_multistart_True_multigoal_True_sparse_fixed.hdf5");
  ("antmaze-large-play-v2",
   "http://rail.eecs.berkeley.edu/datasets/offline_rl/ant_maze_v2/Ant_maze_hardest-maze_noisy_multistart_True_multigoal_False_sparse_fixed.hdf5");
  ("antmaze-large-diverse-v2",
   "http://rail.eecs.berkeley.edu/datasets/offline_rl/ant_maze_v2/Ant_maze_hardest-maze_noisy_multistart_True_multigoal_True_sparse_fixed.hdf5");
  ("flow-ring-random-v0",
   "http://rail.eecs.berkeley.edu/datasets/offline_rl/flow/flow-ring-v0-random.hdf5");
  ("flow-ring-controller-v0",
   "http://rail.eecs.berkeley.edu/datasets/offline_rl/flow/flow-ring-v0-idm.hdf5");
  ("flow-merge-random-v0",
   "http://rail.eecs.berkeley.edu/datasets/offline_rl/flow/flow-merge-v0-random.hdf5");
  ("flow-merge-controller-v0",
   "http://rail.eecs.berkeley.edu/datasets/offline_rl/flow/flow-merge-v0-idm.hdf5");
  ("kitchen-complete-v0",
   "http://rail.eecs.berkeley.edu/datasets/offline_rl/kitchen/mini_kitchen_microwave_kettle_light_slider-v0.hdf5");
  ("kitchen-partial-v0",
   "http://rail.eecs.berkeley.edu/datasets/offline_rl/kitchen/kitchen_microwave_kettle_light_slider-v0.hdf5");
  ("kitchen-mixed-v0",
   "http://rail.eecs.berkeley.edu/datasets/offline_rl/kitchen/kitchen_microwave_kettle_bottomburner_light-v0.hdf5");
  ("carla-lane-v0",
   "http://rail.eecs.berkeley.edu/datasets/offline_rl/carla/carla_lane_follow_flat-v0.hdf5");
  ("carla-town-v0",
   "http://rail.eecs.berkeley.edu/datasets/offline_rl/carla/carla_town_subsamp_flat-v0.hdf5");
  ("carla-town-full-v0",
   "http://rail.eecs.berkeley.edu/datasets/offline_rl/carla/carla_town_flat-v0.hdf5");
  ("bullet-halfcheetah-random-v0",
   "http://rail.eecs.berkeley.edu/datasets/offline_rl/bullet/bullet-halfcheetah_random.hdf5");
  ("bullet-halfcheetah-medium-v0",
   "http://rail.eecs.berkeley.edu/datasets/offline_rl/bullet/bullet-halfcheetah_medium.hdf5");
  ("bullet-halfcheetah-expert-v0",
   "http://rail.eecs.berkeley.edu/datasets/offline_rl/bullet/bullet-halfcheetah_expert.hdf5");
  ("bullet-halfcheetah-medium-expert-v0",
   "http://rail.eecs.berkeley.edu/datasets/offline_rl/bullet/bullet-halfcheetah_medium_expert.hdf5");
  ("bullet-halfcheetah-medium-replay-v0",
   "http://rail.eecs.berkeley.edu/datasets/offline_rl/bullet/bullet-halfcheetah_medium_replay.hdf5");
  ("bullet-hopper-random-v0",
   "http://rail.eecs.berkeley.edu/datasets/offline_rl/bullet/bullet-hopper_random.hdf5");
  ("bullet-hopper-medium-v0",
   "http://rail.eecs.berkeley.edu/datasets/offline_rl/bullet/bullet-hopper_medium.hdf5");
  ("bullet-hopper-expert-v0",
   "http://rail.eecs.berkeley.edu/datasets/offline_rl/bullet/bullet-hopper_expert.hdf5");
  ("bullet-hopper-medium-expert-v0",
   "http://rail.eecs.berkeley.edu/datasets/offline_rl/bullet/bullet-hopper_medium_expert.hdf5");
  ("bullet-hopper-medium-replay-v0",
   "http://rail.eecs.berkeley.edu/datasets/offline_rl/bullet/bullet-hopper_medium_replay.hdf5");
  ("bullet-ant-random-v0",
   "http://rail.eecs.berkeley.edu/datasets/offline_rl/bullet/bullet-ant_random.hdf5");
  ("bullet-ant-medium-v0",
   "http://rail.eecs.berkeley.edu/datasets/offline_rl/bullet/bullet-ant_medium.hdf5");
  ("bullet-ant-expert-v0",
   "http://rail.eecs.berkeley.edu/datasets/offline_rl/bullet/bullet-ant_expert.hdf5");
  ("bullet-ant-medium-expert-v0",
   "http://rail.eecs.berkeley.edu/datasets/offline_rl/bullet/bullet-ant_medium_expert.hdf5");
  ("bullet-ant-medium-replay-v0",
   "http://rail.eecs.berkeley.edu/datasets/offline_rl/bullet/bullet-ant_medium_replay.hdf5");
  ("bullet-walker2d-random-v0",
   "http://rail.eecs.berkeley.edu/datasets/offline_rl/bullet/bullet-walker2d_random.hdf5");
  ("bullet-walker2d-medium-v0",
   "http://rail.eecs.berkeley.edu/datasets/offline_rl/bullet/bullet-walker2d_medium.hdf5");
  ("bullet-walker2d-expert-v0",
   "http://rail.eecs.berkeley.edu/datasets/offline_rl/bullet/bullet-walker2d_expert.hdf5");
  ("bullet-walker2d-medium-expert-v0",
   "http://rail.eecs.berkeley.edu/datasets/offline_rl/bullet/bullet-walker2d_medium_expert.hdf5");
  ("bullet-walker2d-medium-replay-v0",
   "http://rail.eecs.berkeley.edu/datasets/offline_rl/bullet/bullet-walker2d_medium_replay.hdf5");
  ("bullet-maze2d-open-v0",
   "http://rail.eecs.berkeley.edu/datasets/offline_rl/bullet/bullet-maze2d-open-sparse.hdf5");
  ("bullet-maze2d-umaze-v0",
   "http://rail.eecs.berkeley.edu/datasets/offline_rl/bullet/bullet-maze2d-umaze-sparse.hdf5");
  ("bullet-maze2d-medium-v0",
   "http://rail.eecs.berkeley.edu/datasets/offline_rl/bullet/bullet-maze2d-medium-sparse.hdf5");
  ("bullet-maze2d-large-v0",
   "http://rail.eecs.berkeley.edu/datasets/offline_rl/bullet/bullet-maze2d-large-sparse.hdf5");
  ("halfcheetah-random-v1",
   "http://rail.eecs.berkeley.edu/datasets/offline_rl/gym_mujoco_v1/halfcheetah_random-v1.hdf5");
  ("halfcheetah-random-v2",
   "http://rail.eecs.berkeley.edu/datasets/offline_rl/gym_mujoco_v2/halfcheetah_random-v2.hdf5");
  ("halfcheetah-medium-v1",
   "http://rail.eecs.berkeley.edu/datasets/offline_rl/gym_mujoco_v1/halfcheetah_medium-v1.hdf5");
  ("halfcheetah-medium-v2",
   "http://rail.eecs.berkeley.edu/datasets/offline_rl/gym_mujoco_v2/halfcheetah_medium-v2.hdf5");
  ("halfcheetah-expert-v1",
   "http://rail.eecs.berkeley.edu/datasets/offline_rl/gym_mujoco_v1/halfcheetah_expert-v1.hdf5");
  ("halfcheetah-expert-v2",
   "http://rail.eecs.berkeley.edu/datasets/offline_rl/gym_mujoco_v2/halfcheetah_expert-v2.hdf5");
  ("halfcheetah-medium-replay-v1",
   "http://rail.eecs.berkeley.edu/datasets/offline_rl/gym_mujoco_v1/halfcheetah_medium_replay-v1.hdf5");
  ("halfcheetah-medium-replay-v2",
   "http://rail.eecs.berkeley.edu/datasets/offline_rl/gym_mujoco_v2/halfcheetah_medium_replay-v2.hdf5");
  ("halfcheetah-full-replay-v1",
   "http://rail.eecs.berkeley.edu/datasets/offline_rl/gym_mujoco_v1/halfcheetah_full_replay-v1.hdf5");
  ("halfcheetah-full-replay-v2",
   "http://rail.eecs.berkeley.edu/datasets/offline_rl/gym_mujoco_v2/halfcheetah_full_replay-v2.hdf5");
  ("halfcheetah-medium-expert-v1",
   "http://rail.eecs.berkeley.edu/datasets/offline_rl/gym_mujoco_v1/halfcheetah_medium_expert-v1.hdf5");
  ("halfcheetah-medium-expert-v2",
   "http://rail.eecs.berkeley.edu/datasets/offline_rl/gym_mujoco_v2/halfcheetah_medium_expert-v2.hdf5");
  ("hopper-random-v1",
   "http://rail.eecs.berkeley.edu/datasets/offline_rl/gym_mujoco_v1/hopper_random-v1.hdf5");
  ("hopper-random-v2",
   "http://rail.eecs.berkeley.edu/datasets/offline_rl/gym_mujoco_v2/hopper_random-v2.hdf5");
  ("hopper-medium-v1",
   "http://rail.eecs.berkeley.edu/datasets/offline_rl/gym_mujoco_v1/hopper_medium-v1.hdf5");
  ("hopper-medium-v2",
   "http://rail.eecs.berkeley.edu/datasets/offline_rl/gym_mujoco_v2/hopper_medium-v2.hdf5");
  ("hopper-expert-v1",
   "http://rail.eecs.berkeley.edu/datasets/offline_rl/gym_mujoco_v1/hopper_expert-v1.hdf5");
  ("hopper-expert-v2",
   "http://rail.eecs.berkeley.edu/datasets/offline_rl/gym_mujoco_v2/hopper_expert-v2.hdf5");
  ("hopper-medium-replay-v1",
   "http://rail.eecs.berkeley.edu/datasets/offline_rl/gym_mujoco_v1/hopper_medium_replay-v1.hdf5");
  ("hopper-medium-replay-v2",
   "http://rail.eecs.berkeley.edu/datasets/offline_rl/gym_mujoco_v2/hopper_medium_replay-v2.hdf5");
  ("hopper-full-replay-v1",
   "http://rail.eecs.berkeley.edu/datasets/offline_rl/gym_mujoco_v1/hopper_full_replay-v1.hdf5");
  ("hopper-full-replay-v2",
   "http://rail.eecs.berkeley.edu/datasets/offline_rl/gym_mujoco_v2/hopper_full_replay-v2.hdf5");
  ("hopper-medium-expert-v1",
   "http://rail.eecs.berkeley.edu/datasets/offline_rl/gym_mujoco_v1/hopper_medium_expert-v1.hdf5");
  ("hopper-medium-expert-v2",
   "http://rail.eecs.berkeley.edu/datasets/offline_rl/gym_mujoco_v2/hopper_medium_expert-v2.hdf5");
  ("walker2d-random-v1",
   "http://rail.eecs.berkeley.edu/datasets/offline_rl/gym_mujoco_v1/walker2d_random-v1.hdf5");
  ("walker2d-random-v2",
   "http://rail.eecs.berkeley.edu/datasets/offline_rl/gym_mujoco_v2/walker2d_random-v2.hdf5");
  ("walker2d-medium-v1",
   "http://rail.eecs.berkeley.edu/datasets/offline_rl/gym_mujoco_v1/walker2d_medium-v1.hdf5");
  ("walker2d-medium-v2",
   "http://rail.eecs.berkeley.edu/datasets/offline_rl/gym_mujoco_v2/walker2d_medium-v2.hdf5");
  ("walker2d-expert-v1",
   "http://rail.eecs.berkeley.edu/datasets/offline_rl/gym_mujoco_v1/walker2d_expert-v1.hdf5");
  ("walker2d-expert-v2",
   "http://rail.eecs.berkeley.edu/datasets/offline_rl/gym_mujoco_v2/walker2d_expert-v2.hdf5");
  ("walker2d-medium-replay-v1",
   "http://rail.eecs.berkeley.edu/datasets/offline_rl/gym_mujoco_v1/walker2d_medium_replay-v1.hdf5");
  ("walker2d-medium-replay-v2",
   "http://rail.eecs.berkeley.edu/datasets/offline_rl/gym_mujoco_v2/walker2d_medium_replay-v2.hdf5");
  ("walker2d-full-replay-v1",
   "http://rail.eecs.berkeley.edu/datasets/offline_rl/gym_mujoco_v1/walker2d_full_replay-v1.hdf5");
  ("walker2d-full-replay-v2",
   "http://rail.eecs.berkeley.edu/datasets/offline_rl/gym_mujoco_v2/walker2d_full_replay-v2.hdf5");
  ("walker2d-medium-expert-v1",
   "http://rail.eecs.berkeley.edu/datasets/offline_rl/gym_mujoco_v1/walker2d_medium_expert-v1.hdf5");
  ("walker2d-medium-expert-v2",
   "http://rail.eecs.berkeley.edu/datasets/offline_rl/gym_mujoco_v2/walker2d_medium_expert-v2.hdf5");
  ("ant-random-v1",
   "http://rail.eecs.berkeley.edu/datasets/offline_rl/gym_mujoco_v1/ant_random-v1.hdf5");
  ("ant-random-v2",
   "http://rail.eecs.berkeley.edu/datasets/offline_rl/gym_mujoco_v2/ant_random-v2.hdf5");
  ("ant-medium-v1",
   "http://rail.eecs.berkeley.edu/datasets/offline_rl/gym_mujoco_v1/ant_medium-v1.hdf5");
  ("ant-medium-v2",
   "http://rail.eecs.berkeley.edu/datasets/offline_rl/gym_mujoco_v2/ant_medium-v2.hdf5");
  ("ant-expert-v1",
   "http://rail.eecs.berkeley.edu/datasets/offline_rl/gym_mujoco_v1/ant_expert-v1.hdf5");
  ("ant-expert-v2",
   "http://rail.eecs.berkeley.edu/datasets/offline_rl/gym_mujoco_v2/ant_expert-v2.hdf5");
  ("ant-medium-replay-v1",
   "http://rail.eecs.berkeley.edu/datasets/offline_rl/gym_mujoco_v1/ant_medium_replay-v1.hdf5");
  ("ant-medium-replay-v2",
   "http://rail.eecs.berkeley.edu/datasets/offline_rl/gym_mujoco_v2/ant_medium_replay-v2.hdf5");
  ("ant-full-replay-v1",
   "http://rail.eecs.berkeley.edu/datasets/offline_rl/gym_mujoco_v1/ant_full_replay-v1.hdf5");
  ("ant-full-replay-v2",
   "http://rail.eecs.berkeley.edu/datasets/offline_rl/gym_mujoco_v2/ant_full_replay-v2.hdf5");
  ("ant-medium-expert-v1",
   "http://rail.eecs.berkeley.edu/datasets/offline_rl/gym_mujoco_v1/ant_medium_expert-v1.hdf5");
  ("ant-medium-expert-v2",
   "http://rail.eecs.berkeley.edu/datasets/offline_rl/gym_mujoco_v2/ant_medium_expert-v2.hdf5");
  ("hammer-human-v1",
   "http://rail.eecs.berkeley.edu/datasets/offline_rl/hand_dapg_v1/hammer-human-v1.hdf5");
  ("hammer-expert-v1",
   "http://rail.eecs.berkeley.edu/datasets/offline_rl/hand_dapg_v1/hammer-expert-v1.hdf5");
  ("hammer-cloned-v1",
   "http://rail.eecs.berkeley.edu/datasets/offline_rl/hand_dapg_v1/hammer-cloned-v1.hdf5");
  ("pen-human-v1",
   "http://rail.eecs.berkeley.edu/datasets/offline_rl/hand_dapg_v1/pen-human-v1.hdf5");
  ("pen-expert-v1",
   "http://rail.eecs.berkeley.edu/datasets/offline_rl/hand_dapg_v1/pen-expert-v1.hdf5");
  ("pen-cloned-v1",
   "http://rail.eecs.berkeley.edu/datasets/offline_rl/hand_dapg_v1/pen-cloned-v1.hdf5");
  ("relocate-human-v1",
   "http://rail.eecs.berkeley.edu/datasets/offline_rl/hand_dapg_v1/relocate-human-v1.hdf5");
  ("relocate-expert-v1",
   "http://rail.eecs.berkeley.edu/datasets/offline_rl/hand_dapg_v1/relocate-expert-v1.hdf5");
  ("relocate-cloned-v1",
   "http://rail.eecs.berkeley.edu/datasets/offline_rl/hand_dapg_v1/relocate-cloned-v1.hdf5");
  ("door-human-v1",
   "http://rail.eecs.berkeley.edu/datasets/offline_rl/hand_dapg_v1/door-human-v1.hdf5");
  ("door-expert-v1",
   "http://rail.eecs.berkeley.edu/datasets/offline_rl/hand_dapg_v1/door-expert-v1.hdf5");
  ("door-cloned-v1",
   "http://rail.eecs.berkeley.edu/datasets/offline_rl/hand_dapg_v1/door-cloned-v1.hdf5");
  ("antmaze-umaze-v1",
   "http://rail.eecs.berkeley.edu/datasets/offline_rl/ant_maze_v1/Ant_maze_umaze_noisy_multistart_False_multigoal_False_sparse.hdf5");
  ("antmaze-umaze-diverse-v1",
   "http://rail.eecs.berkeley.edu/datasets/offline_rl/ant_maze_v1/Ant_maze_umaze_noisy_multistart_True_multigoal_True_sparse.hdf5");
  ("antmaze-medium-play-v1",
   "http://rail.eecs.berkeley.edu/datasets/offline_rl/ant_maze_v1/Ant_maze_medium_noisy_multistart_True_multigoal_False_sparse.hdf5");
  ("antmaze-medium-diverse-v1",
   "http://rail.eecs.berkeley.edu/datasets/offline_rl/ant_maze_v1/Ant_maze_medium_noisy_multistart_True_multigoal_True_sparse.hdf5");
  ("antmaze-large-diverse-v1",
   "http://rail.eecs.berkeley.edu/datasets/offline_rl/ant_maze_v1/Ant_maze_large_noisy_multistart_True_multigoal_True_sparse.hdf5");
  ("antmaze-large-play-v1",
   "http://rail.eecs.berkeley.edu/datasets/offline_rl/ant_maze_v1/Ant_maze_large_noisy_multistart_True_multigoal_False_sparse.hdf5");
  ("antmaze-eval-umaze-v0",
   "http://rail.eecs.berkeley.edu/datasets/offline_rl/ant_maze_new/Ant_maze_umaze_eval_noisy_multistart_True_multigoal_False_sparse.hdf5");
  ("antmaze-eval-umaze-diverse-v0",
   "http://rail.eecs.berkeley.edu/datasets/offline_rl/ant_maze_new/Ant_maze_umaze_eval_noisy_multistart_True_multigoal_True_sparse.hdf5");
  ("antmaze-eval-medium-play-v0",
   "http://rail.eecs.berkeley.edu/datasets/offline_rl/ant_maze_new/Ant_maze_medium_eval_noisy_multistart_True_multigoal_True_sparse.hdf5");
  ("antmaze-eval-medium-diverse-v0",
   "http://rail.eecs.berkeley.edu/datasets/offline_rl/ant_maze_new/Ant_maze_medium_eval_noisy_multistart_True_multigoal_False_sparse.hdf5");
  ("antmaze-eval-large-diverse-v0",
   "http://rail.eecs.berkeley.edu/datasets/offline_rl/ant_maze_new/Ant_maze_large_eval_noisy_multistart_True_multigoal_False_sparse.hdf5");
  ("antmaze-eval-large-play-v0",
   "http://rail.eecs.berkeley.edu/datasets/offline_rl/ant_maze_new/Ant_maze_large_eval_noisy_multistart_True_multigoal_True_sparse.hdf5");
  ("door-human-longhorizon-v0",
   "http://rail.eecs.berkeley.edu/datasets/offline_rl/hand_dapg/door-v0_demos_clipped.hdf5");
  ("hammer-human-longhorizon-v0",
   "http://rail.eecs.berkeley.edu/datasets/offline_rl/hand_dapg/hammer-v0_demos_clipped.hdf5");
  ("pen-human-longhorizon-v0",
   "http://rail.eecs.berkeley.edu/datasets/offline_rl/hand_dapg/pen-v0_demos_clipped.hdf5");
  ("relocate-human-longhorizon-v0",
   "http://rail.eecs.berkeley.edu/datasets/offline_rl/hand_dapg/relocate-v0_demos_clipped.hdf5");
  ("maze2d-umaze-v0",
   "http://rail.eecs.berkeley.edu/datasets/offline_rl/maze2d/maze2d-umaze-sparse.hdf5");
  ("maze2d-medium-v0",
   "http://rail.eecs.berkeley.edu/datasets/offline_rl/maze2d/maze2d-medium-sparse.hdf5");
  ("maze2d-large-v0",
   "http://rail.eecs.berkeley.edu/datasets/offline_rl/maze2d/maze2d-large-sparse.hdf5");
  ("maze2d-umaze-dense-v0",
   "http://rail.eecs.berkeley.edu/datasets/offline_rl/maze2d/maze2d-umaze-dense.hdf5");
  ("maze2d-medium-dense-v0",
   "http://rail.eecs.berkeley.edu/datasets/offline_rl/maze2d/maze2d-medium-dense.hdf5");
  ("maze2d-large-dense-v0",
   "http://rail.eecs.berkeley.edu/datasets/offline_rl/maze2d/maze2d-large-dense.hdf5");
  ("carla-lane-render-v0",
   "http://rail.eecs.berkeley.edu/datasets/offline_rl/carla/carla_lane_follow-v0.hdf5");
  ("carla-town-render-v0",
   "http://rail.eecs.berkeley.edu/datasets/offline_rl/carla/carla_town_flat-v0.hdf5")
].

(** [D4RL_DATASETS.get(name, None)] *)
Fixpoint dict_get (name : string) (table : list (string * string)) : option string :=
  match table with
  | [] => None
  | (k, v) :: table' => if String.eqb name k then Some v else dict_get name table'
  end.

(** What the constructor obtains from its collaborators: the wrapped gym
    environment (its specs, as the conversions to their dtypes), and the
    raw tables of the three sources, loaded as tensordicts whose nested
    keys are already unflattened. *)
Record GymEnv : Type := {
  observation_spec : list (key * (Z → Z));
  action_spec : Z → Z;
  reward_spec : Z → Z
}.

Record World : Type := {
  has_d4rl : bool;
  gym_make : string → GymEnv;
  env_get_dataset : string → M (gmap key tensor);
  qlearning_dataset : string → list (string * Z) → M (gmap key tensor);
  from_h5 : string → M (gmap key tensor)
}.

(** The rows of [dataset[key]] are shifted one position down and row 0 is
    zeroed, on a clone of the tensor. *)
Definition shift_key (name : string) (dataset : gmap key tensor)
  : M (gmap key tensor) :=
  let* t := lift (td_leaf [name] dataset) in
  let* t := clone t in
  let dataset := td_set_leaf [name] t dataset in
  let* src := clone (slice_init t) in
  let* _ := setitem (slice_tail t) src in
  let* _ := setitem_row0_zero t in
  ret dataset.

Definition _shift_reward_done (dataset : gmap key tensor) : M (gmap key tensor) :=
  let* dataset := shift_key "reward" dataset in
  for_each ["done"; "terminated"; "truncated"]
    (λ name dataset, if td_in name dataset
                     then shift_key name dataset
                     else ret dataset)
    dataset.

(** The metadata block goes to [self.metadata] and leaves the dataset.
    Key components hold no separator, so rebuilding the tensordict from
    its flattened keys keeps the entries. *)
Definition extract_metadata (dataset : gmap key tensor)
  : gmap key tensor * gmap key tensor :=
  if td_in "metadata" dataset
  then (td_del ["metadata"] dataset, td_get ["metadata"] dataset)
  else (dataset, ∅).

Definition rename_timeouts (dataset : gmap key tensor) : result (gmap key tensor) :=
  if td_in "timeouts" dataset
  then td_rename_key_ "timeouts" ["truncated"] dataset
  else Ok dataset.

(** [done = terminated | truncated], or [terminated] itself. *)
Definition set_done (use_truncated_as_done : bool) (dataset : gmap key tensor)
  : M (gmap key tensor) :=
  let* terminated := lift (td_leaf ["terminated"] dataset) in
  if use_truncated_as_done then
    let* done := match dataset !! ["truncated"] with
                 | Some truncated => tensor_or terminated truncated
                 | None => tensor_map (λ x, Z.lor x 0) terminated
                 end in
    ret (td_set_leaf ["done"] done dataset)
  else ret (td_set_leaf ["done"] terminated dataset).

(** [dataset[k] = dataset[k].to(dtype)] and [dataset[k] = dataset[k].bool()] *)
Definition convert (k : key) (f : Z → Z) (dataset : gmap key tensor)
  : M (gmap key tensor) :=
  let* t := lift (td_leaf k dataset) in
  let* t' := tensor_map f t in
  ret (td_set_leaf k t' dataset).

(** [dataset[k] = dataset[k].unsqueeze(-1)] *)
Definition unsqueeze (k : key) (dataset : gmap key tensor) : M (gmap key tensor) :=
  let* t := lift (td_leaf k dataset) in
  ret (td_set_leaf k t dataset).

Definition format_done (dataset : gmap key tensor) : M (gmap key tensor) :=
  let* dataset := convert ["done"] to_bool dataset in
  let* dataset := convert ["terminated"] to_bool dataset in
  if td_in "truncated" dataset
  then convert ["truncated"] to_bool dataset
  else ret dataset.

(** The columns are converted to the dtypes of the environment's specs. *)
Definition match_dtypes (env : option GymEnv) (dataset : gmap key tensor)
  : M (gmap key tensor) :=
  match env with
  | Some env =>
      let* dataset := for_each (observation_spec env)
                        (λ ks dataset, convert ks.1 ks.2 dataset) dataset in
      let* dataset := convert ["action"] (action_spec env) dataset in
      convert ["reward"] (reward_spec env) dataset
  | None => ret dataset
  end.

Definition match_dtypes_direct (env : GymEnv) (dataset : gmap key tensor)
  : M (gmap key tensor) :=
  let* dataset :=
    for_each (observation_spec env)
      (λ ks dataset, let* dataset := convert ks.1 ks.2 dataset in
                     convert ("next" :: ks.1) ks.2 dataset) dataset in
  let* dataset := convert ["action"] (action_spec env) dataset in
  convert ["reward"] (reward_spec env) dataset.

(** [dataset[:-1].set("next", dataset.select("observation", "info")[1:])] *)
Definition derive_next (dataset : gmap key tensor) : gmap key tensor :=
  td_set ["next"] (slice_tail <$> td_select ["observation"; "info"] dataset)
         (slice_init <$> dataset).

(** [dataset["next"].update(dataset.select("reward", "done", "terminated",
    "truncated"))] *)
Definition attach_next (dataset : gmap key tensor) : gmap key tensor :=
  td_update_next
    (td_select ["reward"; "done"; "terminated"; "truncated"] dataset) dataset.

Definition _process_data_from_env (use_truncated_as_done : bool)
    (dataset : gmap key tensor) (env : option GymEnv)
  : M (gmap key tensor * gmap key tensor * option GymEnv) :=
  let '(dataset, metadata) := extract_metadata dataset in
  let* dataset := lift (td_rename_key_ "observations" ["observation"] dataset) in
  let* dataset := lift (td_rename_key_ "terminals" ["terminated"] dataset) in
  let* dataset := lift (rename_timeouts dataset) in
  let* dataset := set_done use_truncated_as_done dataset in
  let* dataset := lift (td_rename_key_ "rewards" ["reward"] dataset) in
  let* dataset := lift (td_rename_key_ "actions" ["action"] dataset) in
  let dataset := match td_rename_key_ "infos" ["info"] dataset with
                 | Ok renamed => renamed
                 | Raise _ => dataset
                 end in
  let* dataset := match_dtypes env dataset in
  let* dataset := format_done dataset in
  let* dataset := unsqueeze ["reward"] dataset in
  let dataset := derive_next dataset in
  let dataset := attach_next dataset in
  let* dataset := td_clone dataset in
  let* dataset := _shift_reward_done dataset in
  ret (dataset, metadata, env).

Definition _get_dataset_direct (w : World) (use_truncated_as_done : bool)
    (name : string) (env_kwargs : list (string * Z))
  : M (gmap key tensor * gmap key tensor * option GymEnv) :=
  if negb (has_d4rl w) then raise (ImportError "Could not import d4rl") else
  let env := gym_make w name in
  let* dataset := qlearning_dataset w name env_kwargs in
  let '(dataset, metadata) := extract_metadata dataset in
  let* dataset := lift (td_rename_key_ "observations" ["observation"] dataset) in
  let dataset := td_set ["next"] (td_select [] dataset) dataset in
  let* dataset :=
    lift (td_rename_key_ "next_observations" ["next"; "observation"] dataset) in
  let* dataset := lift (td_rename_key_ "terminals" ["terminated"] dataset) in
  let* dataset := lift (rename_timeouts dataset) in
  let* dataset := set_done use_truncated_as_done dataset in
  let* dataset := lift (td_rename_key_ "rewards" ["reward"] dataset) in
  let* dataset := lift (td_rename_key_ "actions" ["action"] dataset) in
  let* dataset := match_dtypes_direct env dataset in
  let* dataset := format_done dataset in
  let* dataset := unsqueeze ["reward"] dataset in
  let dataset := attach_next dataset in
  let* dataset := td_clone dataset in
  let* dataset := _shift_reward_done dataset in
  ret (dataset, metadata, Some env).

Definition _get_dataset_from_env (w : World) (use_truncated_as_done : bool)
    (name : string) (env_kwargs : list (string * Z))
  : M (gmap key tensor * gmap key tensor * option GymEnv) :=
  match env_kwargs with
  | _ :: _ => raise (RuntimeError "env_kwargs cannot be passed with using from_env=True")
  | [] =>
      let env := gym_make w name in
      let* dataset := env_get_dataset w name in
      _process_data_from_env use_truncated_as_done dataset (Some env)
  end.

Definition _get_dataset_direct_download (w : World) (use_truncated_as_done : bool)
    (name : string) (env_kwargs : list (string * Z))
  : M (gmap key tensor * gmap key tensor * option GymEnv) :=
  match env_kwargs with
  | _ :: _ => raise (RuntimeError "Cannot pass env_kwargs when `direct_download=True`.")
  | [] =>
      match dict_get name D4RL_DATASETS with
      | None => raise (KeyError ("Env " +:+ name +:+ " not found."))
      | Some url =>
          let* dataset := from_h5 w url in
          _process_data_from_env use_truncated_as_done dataset None
      end
  end.

(** [dataset["next", "observation"][dataset["next", "done"].squeeze()] = 0] *)
Definition fill_unknown_next_states (dataset : gmap key tensor) : M unit :=
  let* obs := lift (td_leaf ["next"; "observation"] dataset) in
  let* done := lift (td_leaf ["next"; "done"] dataset) in
  setitem_mask_zero obs done.

(** ** Trajectory splitting *)

(** The contents of every tensor of a tensordict. *)
Definition td_load (d : gmap key tensor) : M (gmap key buffer) :=
  λ h, if bool_decide (map_Forall (λ _ t, is_Some (read h t)) d)
       then Ok (omap (read h) d, h)
       else Raise (RuntimeError "invalid storage").

(** Modelled from the spec: [split_trajectories] of
    [torchrl.collectors.utils] is not among the sources.  A true flag marks
    the last row of an episode; contiguous runs between boundaries, and
    the run at the very end of the table, are the episodes. *)
Fixpoint runs {X} (dones : list bool) (xs : list X) : list (list X) :=
  match dones, xs with
  | b :: dones', x :: xs' =>
      if b then [x] :: runs dones' xs'
      else match runs dones' xs' with
           | [] => [[x]]
           | r :: rs => (x :: r) :: rs
           end
  | _, _ => []
  end.

(** Modelled from the spec: every episode is padded to the maximum
    episode length with zero-valued rows. *)
Definition pad_run (T : nat) (run : buffer) : buffer :=
  run ++ replicate (T - length run) (zeros_like (default [] (head run))).

Definition split_column (dones : list bool) (col : buffer) : list buffer :=
  let rs := runs dones col in
  pad_run (max_list (length <$> rs)) <$> rs.

(** Modelled from the spec: the split table has one entry per field, a
    batch of padded episodes, and the validity mask of the padding. *)
Definition split_trajectories (dataset : gmap key tensor)
  : M (gmap key (list buffer)) :=
  let* done := lift (td_leaf ["next"; "done"] dataset) in
  let* done := load done in
  let* columns := td_load dataset in
  let dones := row_true <$> done in
  ret (<[["mask"] := split_column dones ((λ _, [1%Z]) <$> done)]>
         (split_column dones <$> columns)).

(** [episode[-1] = True] *)
Definition set_last_true (episode : buffer) : result buffer :=
  match episode with
  | [] => Raise (IndexError "index -1 is out of bounds for dimension 1 with size 0")
  | _ => Ok (alter ones_like (length episode - 1) episode)
  end.

Fixpoint map_result {X Y} (f : X → result Y) (xs : list X) : result (list Y) :=
  match xs with
  | [] => Ok []
  | x :: xs' =>
      match f x with
      | Ok y => match map_result f xs' with
                | Ok ys => Ok (y :: ys)
                | Raise e => Raise e
                end
      | Raise e => Raise e
      end
  end.

(** [dataset["next", "done"][:, -1] = True] *)
Definition set_last_done (dataset : gmap key (list buffer))
  : result (gmap key (list buffer)) :=
  match td_leaf ["next"; "done"] dataset with
  | Ok episodes =>
      match map_result set_last_true episodes with
      | Ok episodes' => Ok (<[["next"; "done"] := episodes']> dataset)
      | Raise e => Raise e
      end
  | Raise e => Raise e
  end.

(** ** The constructor *)

Inductive Storage : Type :=
| Flat (dataset : gmap key tensor)
| Split (dataset : gmap key (list buffer)).

Record Replay : Type := {
  storage : Storage;
  metadata : gmap key tensor;
  specs : option GymEnv
}.

Definition __init__ (w : World) (name : string)
    (split_trajs from_env use_truncated_as_done direct_download : bool)
    (env_kwargs : list (string * Z)) : M Replay :=
  let* (dataset, metadata, specs) :=
    (if negb direct_download then
       if negb (has_d4rl w) then raise (ImportError "Could not import d4rl")
       else if from_env
            then _get_dataset_from_env w use_truncated_as_done name env_kwargs
            else _get_dataset_direct w use_truncated_as_done name env_kwargs
     else _get_dataset_direct_download w use_truncated_as_done name env_kwargs) in
  let* _ := fill_unknown_next_states dataset in
  if split_trajs then
    let* episodes := split_trajectories dataset in
    let* episodes := lift (set_last_done episodes) in
    ret {| storage := Split episodes; metadata := metadata; specs := specs |}
  else
    ret {| storage := Flat dataset; metadata := metadata; specs := specs |}.

(** ** The contents of the tables

    [rep h d m]: in the store [h], every tensor of the tensordict [d] is
    a valid view and [m] maps each key to the rows it denotes.  The
    functions below are the steps of the construction on contents. *)

Definition rep (h : heap) (d : gmap key tensor) (m : gmap key buffer) : Prop :=
  read h <$> d = Some <$> m.

Definition col (k : key) (m : gmap key buffer) : buffer := default [] (m !! k).

Definition init_rows (b : buffer) : buffer := take (length b - 1) b.

Definition shift_rows (b : buffer) : buffer :=
  match b with
  | [] => []
  | r :: _ => zeros_like r :: init_rows b
  end.

Definition rename_timeouts_contents (m : gmap key buffer) : gmap key buffer :=
  if td_in "timeouts" m then td_rename "timeouts" ["truncated"] m else m.

Definition rename_infos {A} (d : gmap key A) : gmap key A :=
  if td_in "infos" d then td_rename "infos" ["info"] d else d.

Definition raw_done (use_truncated_as_done : bool) (terminated : buffer)
    (truncated : option buffer) : buffer :=
  if use_truncated_as_done then
    match truncated with
    | Some truncated => zip_with (zip_with Z.lor) terminated truncated
    | None => map (map (λ x, Z.lor x 0)) terminated
    end
  else terminated.

Definition done_rows (use_truncated_as_done : bool) (m : gmap key buffer) : buffer :=
  raw_done use_truncated_as_done (col ["terminated"] m) (m !! ["truncated"]).

Definition set_done_contents (use_truncated_as_done : bool)
    (m : gmap key buffer) : gmap key buffer :=
  td_set_leaf ["done"] (done_rows use_truncated_as_done m) m.

Definition convert_contents (k : key) (f : Z → Z) (m : gmap key buffer)
  : gmap key buffer :=
  td_set_leaf k (map (map f) (col k m)) m.

Definition format_done_contents (m : gmap key buffer) : gmap key buffer :=
  let m := convert_contents ["done"] to_bool m in
  let m := convert_contents ["terminated"] to_bool m in
  if td_in "truncated" m then convert_contents ["truncated"] to_bool m else m.

Definition unsqueeze_contents (k : key) (m : gmap key buffer) : gmap key buffer :=
  td_set_leaf k (col k m) m.

Definition shift_contents (name : string) (m : gmap key buffer) : gmap key buffer :=
  td_set_leaf [name] (shift_rows (col [name] m)) m.

Definition shift_reward_done_contents (m : gmap key buffer) : gmap key buffer :=
  foldl (λ m name, if td_in name m then shift_contents name m else m)
        (shift_contents "reward" m) ["done"; "terminated"; "truncated"].

Definition attach_next_contents (m : gmap key buffer) : gmap key buffer :=
  td_update_next (td_select ["reward"; "done"; "terminated"; "truncated"] m) m.

Definition derive_next_contents (m : gmap key buffer) : gmap key buffer :=
  td_set ["next"] (drop 1 <$> td_select ["observation"; "info"] m)
         (init_rows <$> m).

Definition env_contents (env : option GymEnv) (m : gmap key buffer)
  : gmap key buffer :=
  match env with
  | Some env =>
      convert_contents ["reward"] (reward_spec env)
        (convert_contents ["action"] (action_spec env)
           (foldl (λ m ks, convert_contents ks.1 ks.2 m) m (observation_spec env)))
  | None => m
  end.

Definition direct_env_contents (env : GymEnv) (m : gmap key buffer)
  : gmap key buffer :=
  convert_contents ["reward"] (reward_spec env)
    (convert_contents ["action"] (action_spec env)
       (foldl (λ m ks, convert_contents ("next" :: ks.1) ks.2
                         (convert_contents ks.1 ks.2 m)) m
              (observation_spec env))).

Definition clear_next_contents (m : gmap key buffer) : gmap key buffer :=
  td_set ["next"] (td_select [] m) m.

(** The schema normalisation of [_process_data_from_env], then the
    construction of the transitions. *)
Definition normalize_contents (use_truncated_as_done : bool) (env : option GymEnv)
    (m : gmap key buffer) : gmap key buffer :=
  let m := td_del ["metadata"] m in
  let m := td_rename "observations" ["observation"] m in
  let m := td_rename "terminals" ["terminated"] m in
  let m := rename_timeouts_contents m in
  let m := set_done_contents use_truncated_as_done m in
  let m := td_rename "rewards" ["reward"] m in
  let m := td_rename "actions" ["action"] m in
  let m := rename_infos m in
  let m := env_contents env m in
  let m := format_done_contents m in
  unsqueeze_contents ["reward"] m.

Definition process_contents (use_truncated_as_done : bool) (env : option GymEnv)
    (m : gmap key buffer) : gmap key buffer :=
  shift_reward_done_contents
    (attach_next_contents
       (derive_next_contents (normalize_contents use_truncated_as_done env m))).

(** The same for [_get_dataset_direct]. *)
Definition direct_normalize_contents (use_truncated_as_done : bool) (env : GymEnv)
    (m : gmap key buffer) : gmap key buffer :=
  let m := td_del ["metadata"] m in
  let m := td_rename "observations" ["observation"] m in
  let m := clear_next_contents m in
  let m := td_rename "next_observations" ["next"; "observation"] m in
  let m := td_rename "terminals" ["terminated"] m in
  let m := rename_timeouts_contents m in
  let m := set_done_contents use_truncated_as_done m in
  let m := td_rename "rewards" ["reward"] m in
  let m := td_rename "actions" ["action"] m in
  let m := direct_env_contents env m in
  let m := format_done_contents m in
  unsqueeze_contents ["reward"] m.

Definition direct_contents (use_truncated_as_done : bool) (env : GymEnv)
    (m : gmap key buffer) : gmap key buffer :=
  shift_reward_done_contents
    (attach_next_contents (direct_normalize_contents use_truncated_as_done env m)).

(** The truncation flags of a raw table, and the conversion of a column
    to the dtype of the environment's spec. *)
Definition raw_truncated (m : gmap key buffer) : option buffer :=
  if td_in "timeouts" m then m !! ["timeouts"] else m !! ["truncated"].

Definition obs_dtype (env : GymEnv) : Z → Z :=
  match observation_spec env with
  | (_, f) :: _ => f
  | [] => id
  end.

Definition to_dtype (f : option (Z → Z)) (b : buffer) : buffer :=
  match f with
  | Some f => map (map f) b
  | None => b
  end.

Definition fill_contents (m : gmap key buffer) : gmap key buffer :=
  <[["next"; "observation"] :=
      mask_fill (col ["next"; "observation"] m) (col ["next"; "done"] m)]> m.

(** Every column has [N] rows. *)
Definition rows (N : nat) (m : gmap key buffer) : Prop :=
  map_Forall (λ _ b, length b = N) m.

(** Raw tables: the mandatory fields are tensors, the optional flag is a
    tensor when it is there, and every column outside the metadata block
    has [N] rows. *)
Definition has_leaf (k : key) (m : gmap key buffer) : bool :=
  bool_decide (is_Some (m !! k)).

Definition leaf_or_absent (name : string) (m : gmap key buffer) : bool :=
  implb (td_in name m) (has_leaf [name] m).

Definition raw_rows (N : nat) (m : gmap key buffer) : bool :=
  bool_decide (map_Forall (λ k b, below ["metadata"] k = false → length b = N) m).

Definition flat_table (N : nat) (m : gmap key buffer) : bool :=
  raw_rows N m
  && has_leaf ["observations"] m && has_leaf ["actions"] m
  && has_leaf ["rewards"] m && has_leaf ["terminals"] m
  && leaf_or_absent "timeouts" m && leaf_or_absent "truncated" m.

Definition transition_table (N : nat) (m : gmap key buffer) : bool :=
  flat_table N m && has_leaf ["next_observations"] m.

(** The wrapped environment has one observation entry, [observation]. *)
Definition env_ok (env : GymEnv) : bool :=
  bool_decide ((observation_spec env).*1 = [["observation"]]).

Definition shiftable (name : string) (m : gmap key buffer) : Prop :=
  td_in name m = true → ∃ b, m !! [name] = Some b ∧ b ≠ [].

(** The fields of a normalised table. *)
Definition canonical (m : gmap key buffer)
    (observation action reward terminated done : buffer)
    (truncated : option buffer) : Prop :=
  m !! ["observation"] = Some observation
  ∧ m !! ["action"] = Some action
  ∧ m !! ["reward"] = Some reward
  ∧ m !! ["terminated"] = Some terminated
  ∧ m !! ["done"] = Some done
  ∧ m !! ["truncated"] = truncated
  ∧ td_in "truncated" m = match truncated with Some _ => true | None => false end.

(** The fields of a table of transitions before the shift, and of the
    finished table. *)
Definition transitions (m : gmap key buffer)
    (observation next_observation action reward terminated done : buffer)
    (truncated : option buffer) : Prop :=
  canonical m observation action reward terminated done truncated
  ∧ m !! ["next"; "observation"] = Some next_observation
  ∧ m !! ["next"; "reward"] = Some reward
  ∧ m !! ["next"; "terminated"] = Some terminated
  ∧ m !! ["next"; "done"] = Some done
  ∧ m !! ["next"; "truncated"] = truncated.

Definition finished (m : gmap key buffer)
    (observation next_observation action reward terminated done : buffer)
    (truncated : option buffer) : Prop :=
  m !! ["observation"] = Some observation
  ∧ m !! ["action"] = Some action
  ∧ m !! ["reward"] = Some (shift_rows reward)
  ∧ m !! ["terminated"] = Some (shift_rows terminated)
  ∧ m !! ["done"] = Some (shift_rows done)
  ∧ m !! ["truncated"] = shift_rows <$> truncated
  ∧ m !! ["next"; "observation"] = Some (mask_fill next_observation done)
  ∧ m !! ["next"; "reward"] = Some reward
  ∧ m !! ["next"; "terminated"] = Some terminated
  ∧ m !! ["next"; "done"] = Some done
  ∧ m !! ["next"; "truncated"] = truncated.

Definition env_wf (env : option GymEnv) : Prop :=
  match env with
  | Some env => env_ok env = true
  | None => True
  end.

(** [returns c h Q]: run in the store [h], the computation [c] returns a
    value and a store that satisfy [Q]. *)
Definition returns {A} (c : M A) (h : heap) (Q : A → heap → Prop) : Prop :=
  ∃ a h', c h = Ok (a, h') ∧ Q a h'.

(** No two entries share storage. *)
Definition separated (d : gmap key tensor) : Prop :=
  ∀ k1 k2 t1 t2,
    d !! k1 = Some t1 → d !! k2 = Some t2 → data_ptr t1 = data_ptr t2 → k1 = k2.

(** No entry points into the storage of [h0]. *)
Definition disjoint_from (h0 : heap) (d : gmap key tensor) : Prop :=
  ∀ k t, d !! k = Some t → data_ptr t ∉ dom h0.

(** The store [h] still holds the buffers of [h0] unchanged, and the
    table [d] has contents [m] in it. *)
Definition table (h0 h : heap) (d : gmap key tensor) (m : gmap key buffer) : Prop :=
  h0 ⊆ h ∧ rep h d m.

(** Moreover [d] owns its storage. *)
Definition own_table (h0 h : heap) (d : gmap key tensor) (m : gmap key buffer)
  : Prop :=
  table h0 h d m ∧ separated d ∧ disjoint_from h0 d.

(** ** The ways the constructor obtains a raw table

    [Derived]: a flat sequence of steps, from which [next] is derived
    ([_process_data_from_env]); [Prebuilt]: a dataset of transitions that
    ships [next_observations] ([_get_dataset_direct]). *)
Inductive mode : Type := Derived | Prebuilt.

Inductive loads (w : World) (name : string) (env_kwargs : list (string * Z))
    (h0 : heap) (d : gmap key tensor) (h : heap)
  : bool → bool → mode → option GymEnv → Prop :=
| loads_download (from_env : bool) (url : string) :
    env_kwargs = [] →
    dict_get name D4RL_DATASETS = Some url →
    from_h5 w url h0 = Ok (d, h) →
    loads w name env_kwargs h0 d h true from_env Derived None
| loads_from_env :
    has_d4rl w = true →
    env_kwargs = [] →
    env_get_dataset w name h0 = Ok (d, h) →
    loads w name env_kwargs h0 d h false true Derived (Some (gym_make w name))
| loads_direct :
    has_d4rl w = true →
    qlearning_dataset w name env_kwargs h0 = Ok (d, h) →
    loads w name env_kwargs h0 d h false false Prebuilt (Some (gym_make w name)).

Definition raw_ok (md : mode) (N : nat) (m : gmap key buffer) : bool :=
  match md with
  | Derived => flat_table N m && bool_decide (2 ≤ N)
  | Prebuilt => transition_table N m && bool_decide (1 ≤ N)
  end.

Definition env_of (env : option GymEnv) : GymEnv :=
  default {| observation_spec := []; action_spec := id; reward_spec := id |} env.

(** The contents of the finished table. *)
Definition final_contents (md : mode) (use_truncated_as_done : bool)
    (env : option GymEnv) (m : gmap key buffer) : gmap key buffer :=
  fill_contents
    match md with
    | Derived => process_contents use_truncated_as_done env m
    | Prebuilt => direct_contents use_truncated_as_done (env_of env) m
    end.

(** The rows of a raw column that the construction keeps, and the number
    of rows of the finished table. *)
Definition kept (md : mode) (b : buffer) : buffer :=
  match md with
  | Derived => init_rows b
  | Prebuilt => b
  end.

Definition rows_out (md : mode) (N : nat) : nat :=
  match md with
  | Derived => N - 1
  | Prebuilt => N
  end.

(** The columns of a raw table, converted to their dtypes: the values of
    the current step before the shift. *)
Definition pre_observation (env : option GymEnv) (m : gmap key buffer) : buffer :=
  to_dtype (obs_dtype <$> env) (col ["observations"] m).

Definition pre_action (env : option GymEnv) (m : gmap key buffer) : buffer :=
  to_dtype (action_spec <$> env) (col ["actions"] m).

Definition pre_reward (env : option GymEnv) (m : gmap key buffer) : buffer :=
  to_dtype (reward_spec <$> env) (col ["rewards"] m).

Definition pre_terminated (m : gmap key buffer) : buffer :=
  map (map to_bool) (col ["terminals"] m).

Definition pre_truncated (m : gmap key buffer) : option buffer :=
  map (map to_bool) <$> raw_truncated m.

Definition pre_done (use_truncated_as_done : bool) (m : gmap key buffer) : buffer :=
  map (map to_bool)
      (raw_done use_truncated_as_done (col ["terminals"] m) (raw_truncated m)).

(** The next observation of every kept row, before terminal steps are
    zeroed: the observation of the following row, or the column that the
    dataset ships. *)
Definition pre_next_observation (md : mode) (env : option GymEnv)
    (m : gmap key buffer) : buffer :=
  match md with
  | Derived => drop 1 (pre_observation env m)
  | Prebuilt => to_dtype (obs_dtype <$> env) (col ["next_observations"] m)
  end.

(** The rows of the field [k] of a table. *)
Definition column (h : heap) (d : gmap key tensor) (k : key) : option buffer :=
  d !! k ≫= read h.

(** ** A small archive, for examples *)

Definition ex_heap : heap :=
  list_to_map [
    (0, [[1;2]; [3;4]; [5;6]; [7;8]; [9;10]]%Z);
    (1, [[0]; [1]; [0]; [1]; [0]]%Z);
    (2, [[10]; [20]; [30]; [40]; [50]]%Z);
    (3, [[0]; [0]; [1]; [0]; [0]]%Z);
    (4, [[0]; [0]; [0]; [0]; [0]]%Z);
    (5, [[7]; [7]; [7]; [7]; [7]]%Z);
    (6, [[42]; [43]]%Z)
  ].

Definition ex_raw : gmap key tensor :=
  list_to_map [
    (["observations"], Tensor 0 0 5);
    (["actions"], Tensor 1 0 5);
    (["rewards"], Tensor 2 0 5);
    (["terminals"], Tensor 3 0 5);
    (["timeouts"], Tensor 4 0 5);
    (["infos"; "goal"], Tensor 5 0 5);
    (["metadata"; "algorithm"], Tensor 6 0 2)
  ].

Definition ex_world : World := {|
  has_d4rl := true;
  gym_make := λ _, {| observation_spec := [(["observation"], id)];
                      action_spec := id; reward_spec := id |};
  env_get_dataset := λ _ _, Ok (ex_raw, ex_heap);
  qlearning_dataset := λ _ _ _, Ok (ex_raw, ex_heap);
  from_h5 := λ _ _, Ok (ex_raw, ex_heap)
|}.

Definition contents (r : result (Replay * heap)) : list (key * option buffer) :=
  match r with
  | Ok (rb, h) =>
      match storage rb with
      | Flat d => map_to_list (read h <$> d)
      | Split _ => []
      end
  | Raise _ => []
  end.

(** The table of transitions before the shift. *)
Definition unshifted (md : mode) (utd : bool) (env : option GymEnv)
    (m : gmap key buffer) : gmap key buffer :=
  match md with
  | Derived =>
      attach_next_contents (derive_next_contents (normalize_contents utd env m))
  | Prebuilt =>
      attach_next_contents (direct_normalize_contents utd (env_of env) m)
  end.

(** The rows of a field of the constructed table, when it is flat. *)
Definition result_column (r : result (Replay * heap)) (k : key) : option buffer :=
  match r with
  | Ok (rb, h) =>
      match storage rb with
      | Flat d => column h d k
      | Split _ => None
      end
  | Raise _ => None
  end.

(** The episodes of a field of the constructed table, when it is split. *)
Definition result_episodes (r : result (Replay * heap)) (k : key)
  : option (list buffer) :=
  match r with
  | Ok (rb, h) =>
      match storage rb with
      | Flat _ => None
      | Split d => d !! k
      end
  | Raise _ => None
  end.

(** Flags hold 0 or 1. *)
Definition is_flag (x : Z) : Prop := x = 0%Z ∨ x = 1%Z.

(** [done] from [terminated] and [truncated], row by row. *)
Definition or_rows (use_truncated_as_done : bool) (terminated : option row)
    (truncated : option (option row)) : option row :=
  match (if use_truncated_as_done then truncated else None) with
  | Some u => tm ← terminated; tr ← u; Some (zip_with Z.lor tm tr)
  | None => terminated
  end.

(** The contents of the example archive, a dataset of transitions over
    the same steps, and an archive with a single step. *)
Definition ex_contents : gmap key buffer := omap (read ex_heap) ex_raw.

Definition ex_heap_q : heap := <[7 := [[3;4]; [5;6]; [7;8]; [9;10]; [11;12]]%Z]> ex_heap.

Definition ex_raw_q : gmap key tensor :=
  list_to_map [
    (["observations"], Tensor 0 0 5);
    (["actions"], Tensor 1 0 5);
    (["rewards"], Tensor 2 0 5);
    (["terminals"], Tensor 3 0 5);
    (["next_observations"], Tensor 7 0 5)
  ].

Definition ex_contents_q : gmap key buffer := omap (read ex_heap_q) ex_raw_q.

Definition ex_world_q : World := {|
  has_d4rl := true;
  gym_make := λ _, {| observation_spec := [(["observation"], id)];
                      action_spec := id; reward_spec := id |};
  env_get_dataset := λ _ _, Ok (ex_raw, ex_heap);
  qlearning_dataset := λ _ _ _, Ok (ex_raw_q, ex_heap_q);
  from_h5 := λ _ _, Ok (ex_raw, ex_heap)
|}.

Definition ex_heap1 : heap :=
  list_to_map [ (0, [[1;2]]%Z); (1, [[0]]%Z); (2, [[10]]%Z); (3, [[0]]%Z) ].

Definition ex_raw1 : gmap key tensor :=
  list_to_map [
    (["observations"], Tensor 0 0 1);
    (["actions"], Tensor 1 0 1);
    (["rewards"], Tensor 2 0 1);
    (["terminals"], Tensor 3 0 1)
  ].

Definition ex_world1 : World := {|
  has_d4rl := true;
  gym_make := λ _, {| observation_spec := [(["observation"], id)];
                      action_spec := id; reward_spec := id |};
  env_get_dataset := λ _ _, Ok (ex_raw1, ex_heap1);
  qlearning_dataset := λ _ _ _, Ok (ex_raw1, ex_heap1);
  from_h5 := λ _ _, Ok (ex_raw1, ex_heap1)
|}.

(** A table of steps, for the shift alone. *)
Definition ex_steps : gmap key tensor :=
  list_to_map [
    (["observation"], Tensor 0 0 5);
    (["reward"], Tensor 2 0 5);
    (["done"], Tensor 3 0 5);
    (["terminated"], Tensor 3 0 5)
  ].

Definition ex_steps_contents : gmap key buffer := omap (read ex_heap) ex_steps.

(** A table of steps in the sense of the shift: [reward] is a tensor, the
    flags are tensors when they are there, and these columns have [N]
    rows. *)
Definition step_table (N : nat) (m : gmap key buffer) : bool :=
  has_leaf ["reward"] m
  && forallb (λ name, leaf_or_absent name m) ["done"; "terminated"; "truncated"]
  && forallb (λ name, match m !! [name] with
                      | Some b => bool_decide (length b = N)
                      | None => true
                      end)
             ["reward"; "done"; "terminated"; "truncated"].

(** Two columns agree on their first [n] rows. *)
Definition agree (n : nat) (a b : buffer) : Prop :=
  ∀ t, t < n → a !! t = b !! t.

(** [top] is [next] shifted one row down, with a zero first row. *)
Definition shifted_down (top next : buffer) : Prop :=
  length top = length next
  ∧ top !! 0 = zeros_like <$> next !! 0
  ∧ ∀ t, 1 ≤ t < length next → top !! t = next !! (t - 1).

(** The value of the field [k] at row [t]. *)
Definition cell (h : heap) (d : gmap key tensor) (k : key) (t : nat) : option row :=
  column h d k ≫= (.!! t).

Definition result_cell (r : result (Replay * heap)) (k : key) (t : nat)
  : option row :=
  result_column r k ≫= (.!! t).

(** Wherever [next.done] is true, [next.observation] is the zero value of
    the shape of what the source supplied there. *)
Definition terminal_rows_zeroed (supplied : buffer) (h : heap)
    (ds : gmap key tensor) : Prop :=
  ∀ t flag, cell h ds ["next"; "done"] t = Some flag → row_true flag = true →
    ∃ x, supplied !! t = Some x
         ∧ cell h ds ["next"; "observation"] t = Some (zeros_like x).

(** The first [n] rows of the field [k] are those of [b]. *)
Definition holds_rows (n : nat) (h : heap) (ds : gmap key tensor) (k : key)
    (b : buffer) : Prop :=
  ∀ t, t < n → ∃ r, b !! t = Some r ∧ cell h ds k t = Some r.

(** The top-level field [name] is [next.name] moved one row down, with a
    zero first row. *)
Definition shifted_field (n : nat) (h : heap) (ds : gmap key tensor)
    (name : string) : Prop :=
  cell h ds [name] 0 = zeros_like <$> cell h ds ["next"; name] 0
  ∧ ∀ t, 1 ≤ t < n → cell h ds [name] t = cell h ds ["next"; name] (t - 1).

(** At the rows where [next.done] is false, [next.observation] is what
    the source supplied: derived from the flat sequence it is the raw
    observation of the following row, which is [observation[t+1]] of the
    finished table unless [t] is its last row; pre-built it is row [t] of
    [next_observations], in the dtype of the observation spec. *)
Definition next_observation_kept (md : mode) (env : option GymEnv)
    (m : gmap key buffer) (N : nat) (h : heap) (ds : gmap key tensor) : Prop :=
  ∀ t flag, cell h ds ["next"; "done"] t = Some flag → row_true flag = false →
    ∃ x, cell h ds ["next"; "observation"] t = Some x
         ∧ match md with
           | Derived =>
               pre_observation env m !! S t = Some x
               ∧ (S t < N - 1 → cell h ds ["observation"] (S t) = Some x)
           | Prebuilt =>
               to_dtype (obs_dtype <$> env) (col ["next_observations"] m) !! t
               = Some x
           end.

(** [done] follows the policy on the first [n] rows of the fields under
    the prefix [pfx]. *)
Definition done_policy (use_truncated_as_done : bool) (n : nat) (h : heap)
    (ds : gmap key tensor) (pfx : key) : Prop :=
  ∀ t, t < n →
    is_Some (cell h ds (pfx ++ ["done"]) t)
    ∧ cell h ds (pfx ++ ["done"]) t
      = or_rows use_truncated_as_done
          (cell h ds (pfx ++ ["terminated"]) t)
          ((.!! t) <$> column h ds (pfx ++ ["truncated"])).

(** An environment whose observations are stored in eight bits, and a
    dataset of transitions whose first next observation does not fit. *)
Definition ex_heap_c : heap :=
  <[7 := [[259;4]; [5;6]; [7;8]; [9;10]; [11;12]]%Z]> ex_heap.

Definition ex_world_c : World := {|
  has_d4rl := true;
  gym_make := λ _, {| observation_spec := [(["observation"], λ x, (x mod 256)%Z)];
                      action_spec := id; reward_spec := id |};
  env_get_dataset := λ _ _, Ok (ex_raw, ex_heap);
  qlearning_dataset := λ _ _ _, Ok (ex_raw_q, ex_heap_c);
  from_h5 := λ _ _, Ok (ex_raw, ex_heap)
|}.

(** The number of valid (non-padding) steps of an episode, from its mask,
    and the index of the last of them. *)
Fixpoint count_true (mask : buffer) : nat :=
  match mask with
  | [] => 0
  | r :: mask' => (if row_true r then 1 else 0) + count_true mask'
  end.

Definition final_valid (mask : buffer) : nat := count_true mask - 1.

(** A row of a flag that is true everywhere. *)
Definition all_true (flag : row) : Prop := Forall (λ x, x = 1%Z) flag.

(** What holds of [next.done] in the split table: every episode ends (at
    the last position of the padded batch) with a true flag; the final
    valid step of an episode has a true flag when the episode is not the
    trailing one, or has the maximum length. *)
Definition episodes_closed (eps : gmap key (list buffer)) : Prop :=
  ∃ nd mask,
    eps !! ["next"; "done"] = Some nd ∧ eps !! ["mask"] = Some mask
    ∧ length nd = length mask
    ∧ ∀ i ep mk, nd !! i = Some ep → mask !! i = Some mk →
        length ep = length mk
        ∧ (∃ flag, last ep = Some flag ∧ all_true flag)
        ∧ (S i < length nd →
           ∃ flag, ep !! final_valid mk = Some flag ∧ row_true flag = true)
        ∧ (count_true mk = length mk →
           ∃ flag, ep !! final_valid mk = Some flag ∧ all_true flag).

(** What a shift leaves of the table it started from: the shifted field is
    in new storage, the other fields are the tensors they were. *)
Definition shifted_from (h : heap) (name : string) (d d' : gmap key tensor) : Prop :=
  (∀ t, d' !! [name] = Some t → data_ptr t ∉ dom h)
  ∧ ∀ n rest, String.eqb name n = false → d' !! (n :: rest) = d !! (n :: rest).

(** After [_shift_reward_done], the four fields are in storage that the
    store did not hold before. *)
Definition fresh_fields (h : heap) (d' : gmap key tensor) : Prop :=
  ∀ name t, name ∈ ["reward"; "done"; "terminated"; "truncated"] →
            d' !! [name] = Some t → data_ptr t ∉ dom h.

(** ** Further examples *)

(** A machine without the d4rl package. *)
Definition ex_world_bare : World := {|
  has_d4rl := false;
  gym_make := λ _, {| observation_spec := [(["observation"], id)];
                      action_spec := id; reward_spec := id |};
  env_get_dataset := λ _ _, Ok (ex_raw, ex_heap);
  qlearning_dataset := λ _ _ _, Ok (ex_raw, ex_heap);
  from_h5 := λ _ _, Ok (ex_raw, ex_heap)
|}.

(** A table of steps without rows. *)
Definition ex_heap_empty : heap := {[ 0 := [] ]}.

Definition ex_steps_empty : gmap key tensor := {[ ["reward"] := Tensor 0 0 0 ]}.

(** The computation [c], run in the store [h], raises [e]. *)
Definition raises {A : Type} (c : M A) (h : heap) (e : exn) : Prop :=
  c h = Raise e.

(** The exception of an index into an empty tensor. *)
Definition index_error_empty : exn :=
  IndexError "index 0 is out of bounds for dimension 0 with size 0".

(** The fields that [_shift_reward_done] rewrites. *)
Definition shifted_names : list string :=
  ["reward"; "done"; "terminated"; "truncated"].

(** Every entry of a column is 0 or 1. *)
Definition flag_column (b : buffer) : Prop := Forall (Forall is_flag) b.

(** ** The cache of downloaded archives

    The module-level functions work on the file system: [DATASET_PATH] is
    the module's global, [files] the paths that exist and [stdout] what
    has been printed.  [urlretrieve] is the network: it may create files
    or fail. *)

Inductive os_exn : Type :=
| IOError (msg : string)
| URLError (msg : string).

Inductive outcome (A : Type) : Type :=
| Done (a : A)
| Failed (e : os_exn).

Arguments Done {A} a.
Arguments Failed {A} e.

Record Disk : Type := {
  DATASET_PATH : string;
  files : gset string;
  stdout : list string
}.

Definition is_slash (c : Ascii.ascii) : bool :=
  String.eqb (String c EmptyString) "/".

(** [p.rfind("/")], [None] for -1. *)
Fixpoint rfind_slash (p : string) : option nat :=
  match p with
  | EmptyString => None
  | String c p' =>
      match rfind_slash p' with
      | Some i => Some (S i)
      | None => if is_slash c then Some 0 else None
      end
  end.

Fixpoint all_slashes (s : string) : bool :=
  match s with
  | EmptyString => true
  | String c s' => is_slash c && all_slashes s'
  end.

(** [s.rstrip("/")] *)
Fixpoint rstrip_slash (s : string) : string :=
  match s with
  | EmptyString => EmptyString
  | String c s' =>
      match rstrip_slash s' with
      | EmptyString => if is_slash c then EmptyString else String c EmptyString
      | r => String c r
      end
  end.

(** [os.path.split(p)] (posixpath): the path is cut after its last
    slash, and the head loses its trailing slashes unless it is made of
    slashes. *)
Definition os_path_split (p : string) : string * string :=
  let i := match rfind_slash p with Some j => S j | None => 0 end in
  let head := String.substring 0 i p in
  let tail := String.substring i (String.length p - i) p in
  let head := if negb (String.eqb head "") && negb (all_slashes head)
              then rstrip_slash head else head in
  (head, tail).

Definition startswith_slash (s : string) : bool :=
  match s with
  | String c _ => is_slash c
  | EmptyString => false
  end.

Fixpoint endswith_slash (s : string) : bool :=
  match s with
  | EmptyString => false
  | String c EmptyString => is_slash c
  | String _ s' => endswith_slash s'
  end.

(** [os.path.join(a, b)] (posixpath) *)
Definition os_path_join (a b : string) : string :=
  if startswith_slash b then b
  else if String.eqb a "" || endswith_slash a then a +:+ b
  else a +:+ "/" +:+ b.

Definition _filepath_from_url (dataset_path dataset_url : string) : string :=
  let '(_, dataset_name) := os_path_split dataset_url in
  os_path_join dataset_path dataset_name.

Definition _download_dataset_from_url
    (urlretrieve : string → string → gset string → outcome (gset string))
    (dataset_url : string) (disk : Disk) : outcome (string * Disk) :=
  let dataset_filepath := _filepath_from_url (DATASET_PATH disk) dataset_url in
  let fetched :=
    if bool_decide (dataset_filepath ∈ files disk) then Done disk
    else
      let out := stdout disk ++ ["Downloading dataset: " +:+ dataset_url
                                 +:+ " to " +:+ dataset_filepath] in
      match urlretrieve dataset_url dataset_filepath (files disk) with
      | Done fs => Done {| DATASET_PATH := DATASET_PATH disk;
                           files := fs; stdout := out |}
      | Failed e => Failed e
      end in
  match fetched with
  | Done disk' =>
      if bool_decide (dataset_filepath ∈ files disk')
      then Done (dataset_filepath, disk')
      else Failed (IOError ("Failed to download dataset from " +:+ dataset_url))
  | Failed e => Failed e
  end.

(** A string without a slash. *)
Fixpoint no_slash (s : string) : bool :=
  match s with
  | EmptyString => true
  | String c s' => negb (is_slash c) && no_slash s'
  end.

(** A disk with one cached archive, a network that stores what it is
    asked for, and one that is down. *)
Definition ex_disk : Disk := {|
  DATASET_PATH := "/cache";
  files := {[ "/cache/maze2d-open-sparse.hdf5" ]};
  stdout := []
|}.

Definition ex_net (url path : string) (fs : gset string) : outcome (gset string) :=
  Done ({[ path ]} ∪ fs).

Definition ex_net_down (url path : string) (fs : gset string)
  : outcome (gset string) :=
  Done fs.

(** A dataset of transitions without any transition. *)
Definition ex_heap_none : heap :=
  list_to_map [ (0, []); (1, []); (2, []); (3, []); (4, []) ].

Definition ex_raw_none : gmap key tensor :=
  list_to_map [
    (["observations"], Tensor 0 0 0);
    (["actions"], Tensor 1 0 0);
    (["rewards"], Tensor 2 0 0);
    (["terminals"], Tensor 3 0 0);
    (["next_observations"], Tensor 4 0 0)
  ].

Definition ex_world_none : World := {|
  has_d4rl := true;
  gym_make := λ _, {| observation_spec := [(["observation"], id)];
                      action_spec := id; reward_spec := id |};
  env_get_dataset := λ _ _, Ok (ex_raw_none, ex_heap_none);
  qlearning_dataset := λ _ _ _, Ok (ex_raw_none, ex_heap_none);
  from_h5 := λ _ _, Ok (ex_raw_none, ex_heap_none)
|}.

(** The names of the raw fields that both construction modes rename. *)
Definition raw_names : list string :=
  ["observations"; "actions"; "rewards"; "terminals"; "timeouts"].

(** * Lemmas and theorems *)

(** ** Key paths *)

Lemma below_spec (p k : key) : below p k = true ↔ ∃ s, k = p ++ s.
Proof.
  revert k. induction p as [|a p IH]; intros k; simpl.
  - split; [eauto|done].
  - destruct k as [|b k].
    + split; [done|]. intros [s Hs]. discriminate.
    + rewrite andb_true_iff, String.eqb_eq, IH. split.
      * intros [-> [s ->]]. eauto.
      * intros [s Hs]. injection Hs as -> ->. eauto.
Qed.

Lemma below_app (p s : key) : below p (p ++ s) = true.
Proof. apply below_spec. eauto. Qed.

Lemma below_refl (p : key) : below p p = true.
Proof. apply below_spec. exists []. by rewrite app_nil_r. Qed.

Lemma below_drop (p k : key) : below p k = true → p ++ drop (length p) k = k.
Proof. intros [s ->]%below_spec. by rewrite drop_app_length. Qed.

Lemma below_antisym (p k : key) : below p k = true → below k p = true → p = k.
Proof.
  intros [s ->]%below_spec [s' Hs']%below_spec.
  rewrite <- app_assoc in Hs'.
  rewrite <- (app_nil_r p) in Hs' at 1.
  apply app_inv_head in Hs'. symmetry in Hs'.
  apply app_eq_nil in Hs' as [-> _]. by rewrite app_nil_r.
Qed.

(** ** Lookups in the tensordict operations *)

Section td_lookup.
Context {A : Type}.
Implicit Types (d s : gmap key A) (p k : key).

Lemma lookup_td_del p d k :
  td_del p d !! k = if below p k then None else d !! k.
Proof.
  unfold td_del. destruct (below p k) eqn:Hb.
  - apply map_lookup_filter_None. right. intros x _. simpl. congruence.
  - destruct (d !! k) as [x|] eqn:Hk.
    + by apply map_lookup_filter_Some.
    + apply map_lookup_filter_None. by left.
Qed.

Lemma lookup_td_below p d k :
  td_below p d !! k = if below p k then d !! k else None.
Proof.
  unfold td_below. destruct (below p k) eqn:Hb.
  - destruct (d !! k) as [x|] eqn:Hk.
    + by apply map_lookup_filter_Some.
    + apply map_lookup_filter_None. by left.
  - apply map_lookup_filter_None. right. intros x _. simpl. congruence.
Qed.

Lemma lookup_td_select names d k :
  td_select names d !! k
  = if existsb (λ n, below [n] k) names then d !! k else None.
Proof.
  unfold td_select. destruct (existsb _ names) eqn:Hb.
  - destruct (d !! k) as [x|] eqn:Hk.
    + by apply map_lookup_filter_Some.
    + apply map_lookup_filter_None. by left.
  - apply map_lookup_filter_None. right. intros x _. cbn [fst]. by rewrite Hb.
Qed.

Lemma lookup_td_get p d k : td_get p d !! k = d !! (p ++ k).
Proof.
  unfold td_get, kmap.
  set (l := prod_map (drop (length p)) id <$> map_to_list (td_below p d)).
  assert (Hel : ∀ k' x, (k', x) ∈ l ↔ d !! (p ++ k') = Some x).
  { intros k' x. unfold l. rewrite list_elem_of_fmap. split.
    - intros [[k0 x0] [Heq Hin]]. simpl in Heq. injection Heq as -> ->.
      apply elem_of_map_to_list in Hin. rewrite lookup_td_below in Hin.
      destruct (below p k0) eqn:Hb; [|done]. by rewrite (below_drop _ _ Hb).
    - intros Hk. exists (p ++ k', x). split.
      + simpl. by rewrite drop_app_length.
      + apply elem_of_map_to_list. by rewrite lookup_td_below, below_app. }
  assert (Hnd : NoDup l.*1).
  { unfold l. rewrite <- list_fmap_compose.
    apply NoDup_fmap_2_strong; [|apply NoDup_map_to_list].
    intros [k1 x1] [k2 x2] H1 H2 Heq. simpl in Heq.
    apply elem_of_map_to_list in H1, H2.
    rewrite lookup_td_below in H1, H2.
    destruct (below p k1) eqn:Hb1; [|done].
    destruct (below p k2) eqn:Hb2; [|done].
    assert (k1 = k2) as ->.
    { rewrite <- (below_drop _ _ Hb1), <- (below_drop _ _ Hb2). by f_equal. }
    congruence. }
  apply option_eq. intros x.
  rewrite <- (elem_of_list_to_map _ _ _ Hnd). apply Hel.
Qed.

Lemma lookup_td_nest p s k :
  td_nest p s !! k = if below p k then s !! drop (length p) k else None.
Proof.
  unfold td_nest. destruct (below p k) eqn:Hb.
  - rewrite <- (below_drop _ _ Hb) at 1.
    apply (lookup_kmap (app p)).
  - apply (lookup_kmap_None (app p)). intros k' ->.
    by rewrite below_app in Hb.
Qed.

Lemma lookup_td_set p s d k :
  td_set p s d !! k = if below p k then s !! drop (length p) k else d !! k.
Proof.
  unfold td_set. rewrite lookup_union, lookup_td_nest, lookup_td_del.
  destruct (below p k); [|by rewrite (left_id None _)].
  by destruct (s !! _).
Qed.

Lemma lookup_td_set_leaf p (x : A) d k :
  td_set_leaf p x d !! k
  = if below p k then (if below k p then Some x else None) else d !! k.
Proof.
  unfold td_set_leaf. destruct (below p k) eqn:Hb.
  - destruct (below k p) eqn:Hb'.
    + rewrite (below_antisym _ _ Hb Hb'). apply lookup_insert_eq.
    + rewrite lookup_insert_ne, lookup_td_del, Hb; [done|].
      intros ->. by rewrite below_refl in Hb'.
  - rewrite lookup_insert_ne, lookup_td_del, Hb; [done|].
    intros ->. by rewrite below_refl in Hb.
Qed.

Lemma lookup_td_update_next s d k :
  td_update_next s d !! k
  = if below ["next"] k
    then match s !! drop 1 k with Some x => Some x | None => d !! k end
    else d !! k.
Proof.
  unfold td_update_next. rewrite lookup_union, lookup_td_nest. simpl length.
  destruct (below ["next"] k); [|by rewrite (left_id None _)].
  destruct (s !! _), (d !! k); done.
Qed.

Lemma td_in_true name d :
  td_in name d = true ↔ ∃ k x, d !! k = Some x ∧ below [name] k = true.
Proof.
  unfold td_in. rewrite bool_decide_eq_true. unfold map_Exists. naive_solver.
Qed.

Lemma td_in_false name d :
  td_in name d = false ↔ ∀ k, below [name] k = true → d !! k = None.
Proof.
  unfold td_in. rewrite bool_decide_eq_false. unfold map_Exists. split.
  - intros Hn k Hb. destruct (d !! k) eqn:Hk; [|done]. destruct Hn. eauto.
  - intros Hn (k & x & Hk & Hb). rewrite (Hn k Hb) in Hk. done.
Qed.

Lemma td_in_leaf name d x : d !! [name] = Some x → td_in name d = true.
Proof. intros Hk. apply td_in_true. exists [name], x. by rewrite below_refl. Qed.

End td_lookup.

Lemma lookup_td_rename {A} (old : string) (new : key) (d : gmap key A) (k : key) :
  td_rename old new d !! k
  = if below [old] k then None
    else if below new k then d !! (old :: drop (length new) k)
    else d !! k.
Proof.
  unfold td_rename. rewrite lookup_td_del, lookup_td_set, lookup_td_get.
  done.
Qed.

(** ** The operations commute with a change of values *)

Section td_fmap.
Context {A B : Type} (g : A → B).
Implicit Types (d s : gmap key A) (p k : key).

Lemma td_in_fmap name d : td_in name (g <$> d) = td_in name d.
Proof.
  destruct (td_in name d) eqn:Hin.
  - apply td_in_true in Hin as (k & x & Hk & Hb). apply td_in_true.
    exists k, (g x). by rewrite lookup_fmap, Hk.
  - apply td_in_false. intros k Hb.
    rewrite lookup_fmap, (proj1 (td_in_false name d) Hin k Hb). done.
Qed.

Lemma td_del_fmap p d : td_del p (g <$> d) = g <$> td_del p d.
Proof.
  apply map_eq. intros k.
  rewrite lookup_fmap, !lookup_td_del, lookup_fmap. by destruct (below p k).
Qed.

Lemma td_get_fmap p d : td_get p (g <$> d) = g <$> td_get p d.
Proof.
  apply map_eq. intros k. by rewrite lookup_fmap, !lookup_td_get, lookup_fmap.
Qed.

Lemma td_set_fmap p s d : td_set p (g <$> s) (g <$> d) = g <$> td_set p s d.
Proof.
  apply map_eq. intros k.
  rewrite lookup_fmap, !lookup_td_set, !lookup_fmap. by destruct (below p k).
Qed.

Lemma td_set_leaf_fmap p x d :
  td_set_leaf p (g x) (g <$> d) = g <$> td_set_leaf p x d.
Proof.
  apply map_eq. intros k.
  rewrite lookup_fmap, !lookup_td_set_leaf, !lookup_fmap.
  by destruct (below p k), (below k p).
Qed.

Lemma td_select_fmap names d : td_select names (g <$> d) = g <$> td_select names d.
Proof.
  apply map_eq. intros k.
  rewrite lookup_fmap, !lookup_td_select, lookup_fmap. by destruct (existsb _ _).
Qed.

Lemma td_update_next_fmap s d :
  td_update_next (g <$> s) (g <$> d) = g <$> td_update_next s d.
Proof.
  apply map_eq. intros k.
  rewrite lookup_fmap, !lookup_td_update_next, !lookup_fmap.
  destruct (below ["next"] k); [|done]. by destruct (s !! _).
Qed.

Lemma td_rename_fmap (old : string) (new : key) d :
  td_rename old new (g <$> d) = g <$> td_rename old new d.
Proof.
  unfold td_rename. by rewrite td_get_fmap, td_set_fmap, td_del_fmap.
Qed.

Lemma rename_infos_fmap d : rename_infos (g <$> d) = g <$> rename_infos d.
Proof.
  unfold rename_infos. rewrite td_in_fmap, td_rename_fmap.
  by destruct (td_in "infos" d).
Qed.

End td_fmap.

(** ** Reading tensors *)

Lemma read_Some h t b :
  read h t = Some b ↔
  ∃ buf, h !! data_ptr t = Some buf
         ∧ storage_offset t + size0 t ≤ length buf
         ∧ b = take (size0 t) (drop (storage_offset t) buf).
Proof.
  unfold read. destruct (h !! data_ptr t) as [buf|]; [|naive_solver].
  destruct (decide _); naive_solver.
Qed.

Lemma read_length h t b : read h t = Some b → length b = size0 t.
Proof.
  intros (buf & _ & Hle & ->)%read_Some.
  rewrite length_take, length_drop. lia.
Qed.

Lemma read_weaken h h' t b : h ⊆ h' → read h t = Some b → read h' t = Some b.
Proof.
  intros Hsub (buf & Hp & Hle & ->)%read_Some. apply read_Some.
  exists buf. split; [|done]. by eapply lookup_weaken.
Qed.

Lemma read_dom h t b : read h t = Some b → data_ptr t ∈ dom h.
Proof. intros (buf & Hp & _)%read_Some. apply elem_of_dom. eauto. Qed.

Lemma read_insert_ne h t p buf :
  data_ptr t ≠ p → read (<[p := buf]> h) t = read h t.
Proof. intros Hne. unfold read. by rewrite lookup_insert_ne. Qed.

Lemma read_slice_init h t b :
  read h t = Some b → read h (slice_init t) = Some (init_rows b).
Proof.
  intros (buf & Hp & Hle & ->)%read_Some. apply read_Some. exists buf.
  unfold slice_init, init_rows. cbn [data_ptr storage_offset size0].
  split; [done|]. split; [lia|].
  rewrite length_take, length_drop, take_take. f_equal. lia.
Qed.

Lemma read_slice_tail h t b :
  read h t = Some b → read h (slice_tail t) = Some (drop 1 b).
Proof.
  intros (buf & Hp & Hle & ->)%read_Some. apply read_Some. exists buf.
  unfold slice_tail. cbn [data_ptr storage_offset size0].
  split; [done|]. split.
  { destruct (size0 t); simpl; lia. }
  destruct (size0 t) as [|n].
  - by rewrite !take_0.
  - replace (storage_offset t + Nat.min 1 (S n)) with (storage_offset t + 1) by lia.
    replace (S n - 1) with n by lia.
    rewrite <- drop_drop. generalize (drop (storage_offset t) buf). intros l.
    destruct l; simpl; [by rewrite ?take_nil|by rewrite ?drop_0].
Qed.

(** ** Running computations *)

Lemma returns_ret {A} (a : A) h (Q : A → heap → Prop) :
  Q a h → returns (ret a) h Q.
Proof. intros HQ. by exists a, h. Qed.

Lemma returns_bind {A B} (c : M A) (k : A → M B) h
    (Q : A → heap → Prop) (R : B → heap → Prop) :
  returns c h Q →
  (∀ a h', Q a h' → returns (k a) h' R) →
  returns (bind c k) h R.
Proof.
  intros (a & h' & Hc & HQ) Hk.
  destruct (Hk a h' HQ) as (b & h'' & Hkb & HR).
  exists b, h''. split; [|done]. unfold bind. by rewrite Hc.
Qed.

Lemma returns_lift {A} (r : result A) (a : A) h (Q : A → heap → Prop) :
  r = Ok a → Q a h → returns (lift r) h Q.
Proof. intros -> HQ. by exists a, h. Qed.

Lemma returns_mono {A} (c : M A) h (Q R : A → heap → Prop) :
  returns c h Q → (∀ a h', Q a h' → R a h') → returns c h R.
Proof. intros (a & h' & Hc & HQ) HQR. exists a, h'. eauto. Qed.

(** ** Allocation and copies *)

Lemma read_alloc h b :
  read (<[fresh (dom h) := b]> h) (Tensor (fresh (dom h)) 0 (length b)) = Some b.
Proof.
  apply read_Some. exists b. simpl. rewrite lookup_insert_eq.
  split; [done|]. split; [lia|]. by rewrite drop_0, firstn_all.
Qed.

Lemma alloc_returns h0 h b :
  h0 ⊆ h →
  returns (alloc b) h (λ t h',
    h ⊆ h' ∧ h0 ⊆ h' ∧ read h' t = Some b ∧ data_ptr t ∉ dom h).
Proof.
  intros H0. eexists _, _. split; [reflexivity|].
  assert (Hfr : h !! fresh (dom h) = None).
  { apply not_elem_of_dom, is_fresh. }
  assert (h ⊆ <[fresh (dom h) := b]> h) by by apply insert_subseteq.
  split_and!; [done|by etrans|apply read_alloc|apply is_fresh].
Qed.

Lemma load_returns h t b (Q : buffer → heap → Prop) :
  read h t = Some b → Q b h → returns (load t) h Q.
Proof. intros Hr HQ. exists b, h. unfold load. by rewrite Hr. Qed.

Lemma clone_returns h0 h t b :
  h0 ⊆ h → read h t = Some b →
  returns (clone t) h (λ t' h',
    h ⊆ h' ∧ h0 ⊆ h' ∧ read h' t' = Some b ∧ data_ptr t' ∉ dom h).
Proof.
  intros H0 Hr. eapply returns_bind.
  - by apply (load_returns h t b (λ b' h', b' = b ∧ h' = h)).
  - intros ? ?; cbv beta; intros [-> ->]. by apply alloc_returns.
Qed.

Lemma tensor_map_returns h0 h f t b :
  h0 ⊆ h → read h t = Some b →
  returns (tensor_map f t) h (λ t' h',
    h ⊆ h' ∧ h0 ⊆ h' ∧ read h' t' = Some (map (map f) b) ∧ data_ptr t' ∉ dom h).
Proof.
  intros H0 Hr. eapply returns_bind.
  - by apply (load_returns h t b (λ b' h', b' = b ∧ h' = h)).
  - intros ? ?; cbv beta; intros [-> ->]. by apply alloc_returns.
Qed.

Lemma tensor_or_returns h0 h a b x y :
  h0 ⊆ h → read h a = Some x → read h b = Some y → length x = length y →
  returns (tensor_or a b) h (λ t' h',
    h ⊆ h' ∧ h0 ⊆ h' ∧ read h' t' = Some (zip_with (zip_with Z.lor) x y)
    ∧ data_ptr t' ∉ dom h).
Proof.
  intros H0 Ha Hb Hlen. eapply returns_bind.
  { by apply (load_returns h a x (λ b' h', b' = x ∧ h' = h)). }
  intros ? ?; cbv beta; intros [-> ->]. eapply returns_bind.
  { by apply (load_returns h b y (λ b' h', b' = y ∧ h' = h)). }
  intros ? ?; cbv beta; intros [-> ->]. rewrite decide_True by done. by apply alloc_returns.
Qed.

(** ** Writing through a view *)

Lemma read_splice h t old b :
  read h t = Some old → length b = size0 t →
  ∃ buf, h !! data_ptr t = Some buf
    ∧ read (<[data_ptr t := splice (storage_offset t) b buf]> h) t = Some b.
Proof.
  intros (buf & Hp & Hle & _)%read_Some Hlen. exists buf. split; [done|].
  apply read_Some. eexists. rewrite lookup_insert_eq. split; [done|].
  unfold splice.
  assert (Hoff : length (take (storage_offset t) buf) = storage_offset t).
  { rewrite length_take. lia. }
  split.
  - rewrite !length_app, length_drop, Hoff. lia.
  - rewrite drop_app_length'; [|done].
    rewrite take_app_length'; done.
Qed.

Lemma store_returns h t old b :
  read h t = Some old → length b = size0 t →
  returns (store t b) h (λ _ h',
    read h' t = Some b ∧ ∃ buf', h' = <[data_ptr t := buf']> h).
Proof.
  intros Hr Hlen. destruct (read_splice h t old b Hr Hlen) as (buf & Hp & Hr').
  exists (), (<[data_ptr t := splice (storage_offset t) b buf]> h).
  unfold store. rewrite Hp. eauto.
Qed.

(** ** Tables and their contents *)

Lemma rep_lookup h d m k b :
  rep h d m → m !! k = Some b → ∃ t, d !! k = Some t ∧ read h t = Some b.
Proof.
  intros Hrep Hk. assert (Hl := f_equal (.!! k) Hrep). simpl in Hl.
  rewrite !lookup_fmap, Hk in Hl. destruct (d !! k) as [t|]; [|done].
  exists t. simpl in Hl. by injection Hl as ->.
Qed.

Lemma rep_lookup_None h d m k : rep h d m → m !! k = None → d !! k = None.
Proof.
  intros Hrep Hk. assert (Hl := f_equal (.!! k) Hrep). simpl in Hl.
  rewrite !lookup_fmap, Hk in Hl. by destruct (d !! k).
Qed.

Lemma rep_lookup_tensor h d m k t :
  rep h d m → d !! k = Some t → ∃ b, m !! k = Some b ∧ read h t = Some b.
Proof.
  intros Hrep Hk. assert (Hl := f_equal (.!! k) Hrep). simpl in Hl.
  rewrite !lookup_fmap, Hk in Hl. destruct (m !! k) as [b|]; [|done].
  exists b. simpl in Hl. by injection Hl as ->.
Qed.

Lemma rep_intro h d m :
  (∀ k, read h <$> d !! k = Some <$> m !! k) → rep h d m.
Proof. intros H. apply map_eq. intros k. by rewrite !lookup_fmap. Qed.

Lemma rep_weaken h h' d m : h ⊆ h' → rep h d m → rep h' d m.
Proof.
  intros Hsub Hrep. apply rep_intro. intros k.
  destruct (d !! k) as [t|] eqn:Hk.
  - destruct (rep_lookup_tensor _ _ _ _ _ Hrep Hk) as (b & -> & Hr).
    simpl. by rewrite (read_weaken _ _ _ _ Hsub Hr).
  - destruct (m !! k) as [b|] eqn:Hm; [|done].
    destruct (rep_lookup _ _ _ _ _ Hrep Hm) as (t & Ht & _). congruence.
Qed.

Lemma rep_dom h d m k t : rep h d m → d !! k = Some t → data_ptr t ∈ dom h.
Proof.
  intros Hrep Hk. destruct (rep_lookup_tensor _ _ _ _ _ Hrep Hk) as (b & _ & Hr).
  by eapply read_dom.
Qed.

Lemma rep_td_in h d m name : rep h d m → td_in name d = td_in name m.
Proof.
  intros Hrep. rewrite <- (td_in_fmap (read h) name d), Hrep. apply td_in_fmap.
Qed.

Lemma rep_td_del h d m p : rep h d m → rep h (td_del p d) (td_del p m).
Proof. unfold rep. intros Hrep. by rewrite <- !td_del_fmap, Hrep. Qed.

Lemma rep_td_get h d m p : rep h d m → rep h (td_get p d) (td_get p m).
Proof. unfold rep. intros Hrep. by rewrite <- !td_get_fmap, Hrep. Qed.

Lemma rep_td_select h d m names :
  rep h d m → rep h (td_select names d) (td_select names m).
Proof. unfold rep. intros Hrep. by rewrite <- !td_select_fmap, Hrep. Qed.

Lemma rep_td_set h s ms d m p :
  rep h s ms → rep h d m → rep h (td_set p s d) (td_set p ms m).
Proof. unfold rep. intros Hs Hd. by rewrite <- !td_set_fmap, Hs, Hd. Qed.

Lemma rep_td_update_next h s ms d m :
  rep h s ms → rep h d m → rep h (td_update_next s d) (td_update_next ms m).
Proof. unfold rep. intros Hs Hd. by rewrite <- !td_update_next_fmap, Hs, Hd. Qed.

Lemma rep_td_rename h d m (old : string) (new : key) :
  rep h d m → rep h (td_rename old new d) (td_rename old new m).
Proof. unfold rep. intros Hrep. by rewrite <- !td_rename_fmap, Hrep. Qed.

Lemma rep_td_set_leaf h d m k t b :
  rep h d m → read h t = Some b → rep h (td_set_leaf k t d) (td_set_leaf k b m).
Proof.
  unfold rep. intros Hrep Hr.
  by rewrite <- !td_set_leaf_fmap, Hrep, Hr.
Qed.

Lemma rep_slice_init h d m : rep h d m → rep h (slice_init <$> d) (init_rows <$> m).
Proof.
  intros Hrep. apply rep_intro. intros k. rewrite !lookup_fmap.
  destruct (d !! k) as [t|] eqn:Hk.
  - destruct (rep_lookup_tensor _ _ _ _ _ Hrep Hk) as (b & -> & Hr).
    simpl. by rewrite (read_slice_init _ _ _ Hr).
  - destruct (m !! k) as [b|] eqn:Hm; [|done].
    destruct (rep_lookup _ _ _ _ _ Hrep Hm) as (t & Ht & _). congruence.
Qed.

Lemma rep_slice_tail h d m : rep h d m → rep h (slice_tail <$> d) (drop 1 <$> m).
Proof.
  intros Hrep. apply rep_intro. intros k. rewrite !lookup_fmap.
  destruct (d !! k) as [t|] eqn:Hk.
  - destruct (rep_lookup_tensor _ _ _ _ _ Hrep Hk) as (b & -> & Hr).
    simpl. by rewrite (read_slice_tail _ _ _ Hr).
  - destruct (m !! k) as [b|] eqn:Hm; [|done].
    destruct (rep_lookup _ _ _ _ _ Hrep Hm) as (t & Ht & _). congruence.
Qed.

Lemma col_lookup m k b : m !! k = Some b → col k m = b.
Proof. unfold col. by intros ->. Qed.

(** ** The steps that normalise the schema *)

Lemma rename_returns h0 h d m (old : string) (new : key) :
  table h0 h d m → td_in old m = true →
  returns (lift (td_rename_key_ old new d)) h
    (λ d' h', table h0 h' d' (td_rename old new m)).
Proof.
  intros [H0 Hrep] Hin. eapply returns_lift.
  - unfold td_rename_key_. by rewrite (rep_td_in _ _ _ _ Hrep), Hin.
  - split; [done|]. by apply rep_td_rename.
Qed.

Lemma rename_timeouts_returns h0 h d m :
  table h0 h d m →
  returns (lift (rename_timeouts d)) h
    (λ d' h', table h0 h' d' (rename_timeouts_contents m)).
Proof.
  intros [H0 Hrep]. unfold rename_timeouts, rename_timeouts_contents.
  rewrite (rep_td_in _ _ _ _ Hrep).
  destruct (td_in "timeouts" m) eqn:Hin.
  - by apply rename_returns.
  - by eapply returns_lift.
Qed.

Lemma rename_infos_table h0 h d m :
  table h0 h d m →
  table h0 h (match td_rename_key_ "infos" ["info"] d with
              | Ok renamed => renamed
              | Raise _ => d
              end) (rename_infos m).
Proof.
  intros [H0 Hrep]. unfold td_rename_key_, rename_infos.
  rewrite (rep_td_in _ _ _ _ Hrep).
  destruct (td_in "infos" m); simpl.
  - split; [done|]. by apply rep_td_rename.
  - by split.
Qed.

Lemma set_leaf_returns h0 h d m k b (c : M tensor) :
  table h0 h d m →
  returns c h (λ t h', h ⊆ h' ∧ h0 ⊆ h' ∧ read h' t = Some b ∧ data_ptr t ∉ dom h) →
  returns (let* t := c in ret (td_set_leaf k t d)) h
    (λ d' h', table h0 h' d' (td_set_leaf k b m)).
Proof.
  intros [H0 Hrep] Hc. eapply returns_bind; [exact Hc|].
  intros t h'; cbv beta; intros (Hsub & H0' & Hr & Hfr). apply returns_ret; cbv beta. split; [done|].
  apply rep_td_set_leaf; [|done]. by apply (rep_weaken h).
Qed.

Lemma convert_returns h0 h d m k f b :
  table h0 h d m → m !! k = Some b →
  returns (convert k f d) h (λ d' h', table h0 h' d' (convert_contents k f m)).
Proof.
  intros Ht Hk. destruct (Ht) as [H0 Hrep].
  destruct (rep_lookup _ _ _ _ _ Hrep Hk) as (t & Hd & Hr).
  unfold convert, convert_contents. rewrite (col_lookup _ _ _ Hk).
  eapply returns_bind.
  { eapply returns_lift with (Q := λ t' h', t' = t ∧ h' = h); [|done].
    unfold td_leaf. by rewrite Hd. }
  intros ? ?; cbv beta; intros [-> ->]. apply set_leaf_returns; [done|].
  by apply tensor_map_returns.
Qed.

Lemma unsqueeze_returns h0 h d m k b :
  table h0 h d m → m !! k = Some b →
  returns (unsqueeze k d) h (λ d' h', table h0 h' d' (unsqueeze_contents k m)).
Proof.
  intros [H0 Hrep] Hk.
  destruct (rep_lookup _ _ _ _ _ Hrep Hk) as (t & Hd & Hr).
  unfold unsqueeze, unsqueeze_contents. rewrite (col_lookup _ _ _ Hk).
  eapply returns_bind.
  { eapply returns_lift with (Q := λ t' h', t' = t ∧ h' = h); [|done].
    unfold td_leaf. by rewrite Hd. }
  intros ? ?; cbv beta; intros [-> ->]. apply returns_ret; cbv beta. split; [done|].
  by apply rep_td_set_leaf.
Qed.

Lemma set_done_returns h0 h d m utd T :
  table h0 h d m → m !! ["terminated"] = Some T →
  (∀ U, m !! ["truncated"] = Some U → length T = length U) →
  returns (set_done utd d) h (λ d' h', table h0 h' d' (set_done_contents utd m)).
Proof.
  intros Ht HT HU. destruct (Ht) as [H0 Hrep].
  destruct (rep_lookup _ _ _ _ _ Hrep HT) as (t & Hd & Hr).
  unfold set_done, set_done_contents, done_rows.
  rewrite (col_lookup _ _ _ HT).
  eapply returns_bind.
  { eapply returns_lift with (Q := λ t' h', t' = t ∧ h' = h); [|done].
    unfold td_leaf. by rewrite Hd. }
  intros ? ?; cbv beta; intros [-> ->]. destruct utd.
  - apply set_leaf_returns; [done|].
    destruct (m !! ["truncated"]) as [U|] eqn:HmU.
    + destruct (rep_lookup _ _ _ _ _ Hrep HmU) as (u & -> & Hru).
      apply tensor_or_returns; auto.
    + rewrite (rep_lookup_None _ _ _ _ Hrep HmU).
      by apply tensor_map_returns.
  - apply returns_ret; cbv beta. split; [done|]. by apply rep_td_set_leaf.
Qed.

(** ** Field presence after an assignment *)

Lemma below_cons_inv (name : string) (k : key) :
  below [name] k = true → ∃ rest, k = name :: rest.
Proof. intros [s ->]%below_spec. eauto. Qed.

Lemma below_single (a b : string) (rest : key) :
  below [a] (b :: rest) = String.eqb a b.
Proof. simpl. by rewrite andb_true_r. Qed.

Lemma td_in_set_leaf {A} (name k0 : string) (x : A) (m : gmap key A) :
  td_in name (td_set_leaf [k0] x m) = String.eqb k0 name || td_in name m.
Proof.
  destruct (String.eqb k0 name) eqn:Heq; simpl.
  - apply String.eqb_eq in Heq as ->. apply (td_in_leaf _ _ x).
    by rewrite lookup_td_set_leaf, below_refl.
  - destruct (td_in name m) eqn:Hin.
    + apply td_in_true in Hin as (k & y & Hk & Hb). apply td_in_true.
      exists k, y. split; [|done].
      destruct (below_cons_inv _ _ Hb) as [rest ->].
      by rewrite lookup_td_set_leaf, below_single, Heq.
    + apply td_in_false. intros k Hb.
      destruct (below_cons_inv _ _ Hb) as [rest ->].
      rewrite lookup_td_set_leaf, below_single, Heq.
      by apply (proj1 (td_in_false name m) Hin).
Qed.

Lemma lookup_td_set_leaf_ne {A} (k0 name : string) (x : A) (m : gmap key A) rest :
  String.eqb k0 name = false →
  td_set_leaf [k0] x m !! (name :: rest) = m !! (name :: rest).
Proof. intros Hne. by rewrite lookup_td_set_leaf, below_single, Hne. Qed.

Lemma format_done_returns h0 h d m D T :
  table h0 h d m →
  m !! ["done"] = Some D → m !! ["terminated"] = Some T →
  (td_in "truncated" m = true → is_Some (m !! ["truncated"])) →
  returns (format_done d) h (λ d' h', table h0 h' d' (format_done_contents m)).
Proof.
  intros Ht HD HT HU. unfold format_done, format_done_contents.
  eapply returns_bind; [by eapply convert_returns|].
  intros d1 h1; cbv beta; intros Ht1.
  eapply returns_bind.
  { eapply convert_returns; [done|].
    unfold convert_contents. rewrite lookup_td_set_leaf_ne; done. }
  intros d2 h2; cbv beta; intros Ht2.
  rewrite (rep_td_in _ _ _ _ (proj2 Ht2)).
  set (m2 := convert_contents ["terminated"] to_bool
               (convert_contents ["done"] to_bool m)).
  assert (Hin : td_in "truncated" m2 = td_in "truncated" m).
  { unfold m2, convert_contents. by rewrite !td_in_set_leaf. }
  rewrite Hin. destruct (td_in "truncated" m) eqn:Hm; [|by apply returns_ret].
  destruct (HU eq_refl) as [U HmU].
  eapply convert_returns; [done|].
  unfold m2, convert_contents. rewrite !lookup_td_set_leaf_ne; done.
Qed.

(** ** Cloning a tensordict *)

Lemma separated_insert (h : heap) (d : gmap key tensor) (k : key) (t : tensor) :
  separated d → (∀ k' t', d !! k' = Some t' → data_ptr t' ∈ dom h) →
  data_ptr t ∉ dom h → separated (<[k := t]> d).
Proof.
  intros Hsep Hdom Hfr k1 k2 t1 t2 H1 H2 Heq.
  rewrite lookup_insert in H1, H2.
  destruct (decide (k = k1)) as [E1|E1], (decide (k = k2)) as [E2|E2].
  - congruence.
  - injection H1 as <-. apply Hdom in H2. by rewrite <- Heq in H2.
  - injection H2 as <-. apply Hdom in H1. by rewrite Heq in H1.
  - eauto.
Qed.

Lemma clone_list_returns (h : heap) (l : list (key * tensor)) :
  (∀ kt, kt ∈ l → is_Some (read h kt.2)) →
  returns (foldr (λ kt acc, let* d' := acc in
                            let* t' := clone kt.2 in
                            ret (<[kt.1 := t']> d'))
                 (ret ∅) l) h
    (λ d' h', h ⊆ h'
              ∧ read h' <$> d' = read h <$> list_to_map l
              ∧ separated d' ∧ disjoint_from h d'
              ∧ ∀ k t, d' !! k = Some t → is_Some (read h' t)).
Proof.
  induction l as [|[k t] l IH]; intros Hl; simpl.
  - apply returns_ret. split; [done|]. split; [by rewrite !fmap_empty|].
    split; [by intros ? ? ? ? ?%lookup_empty_Some|].
    split; intros ? ? ?%lookup_empty_Some; done.
  - eapply returns_bind.
    { apply IH. intros kt Hin. apply Hl. by right. }
    intros d1 h1; cbv beta; intros (Hsub & Hrep & Hsep & Hdis & Hsome).
    destruct (Hl (k, t)) as [b Hb]; [by left|]. simpl in Hb.
    eapply returns_bind.
    { apply (clone_returns h h1 t b); [done|]. by eapply read_weaken. }
    intros t' h2; cbv beta; intros (Hsub2 & Hsub02 & Hr' & Hfr').
    apply returns_ret; cbv beta.
    assert (Hdom1 : ∀ k' t1, d1 !! k' = Some t1 → data_ptr t1 ∈ dom h1).
    { intros k' t1 H1. destruct (Hsome _ _ H1) as [b1 Hb1]. by eapply read_dom. }
    split; [done|]. split; [|split; [|split]].
    + rewrite !fmap_insert, Hr', Hb. f_equal. rewrite <- Hrep.
      apply map_eq. intros k'. rewrite !lookup_fmap.
      destruct (d1 !! k') as [t1|] eqn:H1; [|done]. simpl.
      destruct (Hsome _ _ H1) as [b1 Hb1].
      by rewrite Hb1, (read_weaken _ _ _ _ Hsub2 Hb1).
    + by eapply separated_insert.
    + intros k' t1. rewrite lookup_insert. case_decide.
      * intros [= <-]. intros Hin. apply Hfr'.
        by apply (subseteq_dom h h1).
      * apply Hdis.
    + intros k' t1. rewrite lookup_insert. case_decide.
      * intros [= <-]. eauto.
      * intros H1. destruct (Hsome _ _ H1) as [b1 Hb1].
        exists b1. by apply (read_weaken h1).
Qed.

Lemma disjoint_from_weaken (h0 h : heap) (d : gmap key tensor) :
  h0 ⊆ h → disjoint_from h d → disjoint_from h0 d.
Proof.
  intros Hsub Hd k t Hk Hin. apply (Hd k t Hk). by apply (subseteq_dom h0 h).
Qed.

Lemma td_clone_returns h0 h d m :
  table h0 h d m →
  returns (td_clone d) h (λ d' h', own_table h0 h' d' m).
Proof.
  intros [H0 Hrep]. unfold td_clone. eapply returns_mono.
  - apply clone_list_returns. intros [k t] Hin%elem_of_map_to_list. simpl.
    destruct (rep_lookup_tensor _ _ _ _ _ Hrep Hin) as (b & _ & Hr). eauto.
  - cbv beta. intros d' h' (Hsub & Hrep' & Hsep & Hdis & _).
    rewrite list_to_map_to_list in Hrep'.
    split; [split|split].
    + by etrans.
    + unfold rep. by rewrite Hrep'.
    + done.
    + by eapply disjoint_from_weaken.
Qed.

(** ** The shift of one field *)

Lemma bind_ok {A B} (c : M A) (k : A → M B) (h : heap) (a : A) (h' : heap) :
  c h = Ok (a, h') → bind c k h = k a h'.
Proof. intros Hc. unfold bind. by rewrite Hc. Qed.

Lemma clone_eq (h : heap) (t : tensor) (b : buffer) :
  read h t = Some b →
  clone t h = Ok (Tensor (fresh (dom h)) 0 (length b), <[fresh (dom h) := b]> h).
Proof. intros Hr. unfold clone, bind, load, alloc. by rewrite Hr. Qed.

Lemma setitem_eq (h : heap) (dst src : tensor) (v buf : buffer) :
  read h src = Some v → length v = size0 dst → h !! data_ptr dst = Some buf →
  setitem dst src h
  = Ok ((), <[data_ptr dst := splice (storage_offset dst) v buf]> h).
Proof.
  intros Hr Hlen Hp. unfold setitem, bind, load. rewrite Hr.
  rewrite decide_True by done. unfold store. by rewrite Hp.
Qed.

Lemma setitem_row0_zero_eq (h : heap) (t : tensor) (r : row) (v buf : buffer) :
  read h t = Some (r :: v) → h !! data_ptr t = Some buf →
  setitem_row0_zero t h
  = Ok ((), <[data_ptr t := splice (storage_offset t) [zeros_like r] buf]> h).
Proof.
  intros Hr Hp. unfold setitem_row0_zero, bind, load. rewrite Hr.
  unfold store. simpl. by rewrite Hp.
Qed.

Lemma init_rows_cons_length (r : row) (rest : buffer) :
  length (init_rows (r :: rest)) = length rest.
Proof. unfold init_rows. rewrite length_take. simpl. lia. Qed.

Lemma splice_tail (r : row) (rest v : buffer) :
  length v = length rest → splice 1 v (r :: rest) = r :: v.
Proof.
  intros Hlen. unfold splice. simpl. rewrite Hlen, drop_all.
  by rewrite app_nil_r.
Qed.

Lemma splice_head (z r : row) (v : buffer) : splice 0 [z] (r :: v) = z :: v.
Proof. unfold splice. simpl. by rewrite drop_0. Qed.

Lemma read_whole (h : heap) (p : nat) (b : buffer) :
  h !! p = Some b → read h (Tensor p 0 (length b)) = Some b.
Proof.
  intros Hp. apply read_Some. exists b. simpl.
  split; [done|]. split; [lia|]. by rewrite drop_0, firstn_all.
Qed.

Lemma shift_key_eq (h : heap) (d : gmap key tensor) (name : string)
    (t0 : tensor) (r : row) (rest : buffer) :
  d !! [name] = Some t0 → read h t0 = Some (r :: rest) →
  let p := fresh (dom h) in
  let q := fresh (dom (<[p := r :: rest]> h)) in
  let t := Tensor p 0 (S (length rest)) in
  ∃ h', shift_key name d h = Ok (td_set_leaf [name] t d, h')
        ∧ h ⊆ h' ∧ read h' t = Some (shift_rows (r :: rest)).
Proof.
  intros Hd Hr p q t.
  set (b := r :: rest). set (v := init_rows b).
  set (h1 := <[p := b]> h). set (h2 := <[q := v]> h1).
  set (h3 := <[p := r :: v]> h2). set (h4 := <[p := zeros_like r :: v]> h3).
  assert (Hp : h !! p = None) by apply not_elem_of_dom, is_fresh.
  assert (Hq : h1 !! q = None) by apply not_elem_of_dom, is_fresh.
  assert (Hqp : q ≠ p).
  { intros E. unfold h1 in Hq. by rewrite E, lookup_insert_eq in Hq. }
  assert (Hv : length v = length rest) by apply init_rows_cons_length.
  assert (Ht1 : read h1 t = Some b).
  { apply (read_whole h1 p b). apply lookup_insert_eq. }
  exists h4. split; [|split].
  - unfold shift_key.
    rewrite (bind_ok _ _ h t0 h) by (unfold lift, td_leaf; by rewrite Hd).
    rewrite (bind_ok _ _ h t h1) by apply (clone_eq h t0 b Hr).
    cbv zeta.
    rewrite (bind_ok _ _ h1 (Tensor q 0 (length v)) h2)
      by apply clone_eq, read_slice_init, Ht1.
    rewrite (bind_ok _ _ h2 () h3).
    2:{ rewrite (setitem_eq h2 (slice_tail t) (Tensor q 0 (length v)) v b).
        - change (data_ptr (slice_tail t)) with p.
          change (storage_offset (slice_tail t)) with 1.
          unfold b. by rewrite (splice_tail r rest v Hv).
        - apply read_whole. apply lookup_insert_eq.
        - simpl. lia.
        - unfold h2. rewrite lookup_insert_ne by done. apply lookup_insert_eq. }
    rewrite (bind_ok _ _ h3 () h4); [done|].
    rewrite (setitem_row0_zero_eq h3 t r v (r :: v)).
    + change (data_ptr t) with p. change (storage_offset t) with 0.
      by rewrite splice_head.
    + unfold t. rewrite <- Hv.
      apply (read_whole h3 p (r :: v)), lookup_insert_eq.
    + apply lookup_insert_eq.
  - apply map_subseteq_spec. intros i x Hi.
    assert (i ≠ p) by congruence.
    assert (i ≠ q).
    { intros ->. unfold h1 in Hq. rewrite lookup_insert_ne in Hq by done.
      congruence. }
    unfold h4, h3, h2, h1. by rewrite !lookup_insert_ne.
  - unfold t. rewrite <- Hv.
    apply (read_whole h4 p (zeros_like r :: v)), lookup_insert_eq.
Qed.

Lemma separated_set_leaf (h : heap) (d : gmap key tensor) (k : key) (t : tensor) :
  separated d → (∀ k' t', d !! k' = Some t' → data_ptr t' ∈ dom h) →
  data_ptr t ∉ dom h → separated (td_set_leaf k t d).
Proof.
  intros Hsep Hdom Hfr. unfold td_set_leaf.
  apply (separated_insert h); [| |done].
  - intros k1 k2 t1 t2. rewrite !lookup_td_del.
    destruct (below k k1), (below k k2); try done. apply Hsep.
  - intros k' t'. rewrite lookup_td_del. destruct (below k k'); [done|]. apply Hdom.
Qed.

Lemma disjoint_set_leaf (h0 : heap) (d : gmap key tensor) (k : key) (t : tensor) :
  disjoint_from h0 d → data_ptr t ∉ dom h0 → disjoint_from h0 (td_set_leaf k t d).
Proof.
  intros Hdis Hfr k' t'. rewrite lookup_td_set_leaf.
  destruct (below k k').
  - destruct (below k' k); [|done]. by intros [= <-].
  - apply Hdis.
Qed.

Lemma shift_key_returns h0 h d m name b :
  table h0 h d m → m !! [name] = Some b → b ≠ [] →
  returns (shift_key name d) h (λ d' h',
    table h0 h' d' (shift_contents name m) ∧ h ⊆ h'
    ∧ (separated d → separated d')
    ∧ (disjoint_from h0 d → disjoint_from h0 d')
    ∧ ∃ t', d' = td_set_leaf [name] t' d ∧ data_ptr t' ∉ dom h).
Proof.
  intros [H0 Hrep] Hm Hne. destruct b as [|r rest]; [done|].
  destruct (rep_lookup _ _ _ _ _ Hrep Hm) as (t0 & Hd & Hr).
  destruct (shift_key_eq h d name t0 r rest Hd Hr) as (h' & Heq & Hsub & Hr').
  eexists _, h'. split; [exact Heq|]. cbv beta.
  assert (Hfr : fresh (dom h) ∉ dom h) by apply is_fresh.
  split; [split|split; [done|split; [|split]]].
  - by etrans.
  - unfold shift_contents. rewrite (col_lookup _ _ _ Hm).
    apply rep_td_set_leaf; [|done]. by apply (rep_weaken h).
  - intros Hsep. apply (separated_set_leaf h); [done| |done].
    intros k' t' Hk'. by eapply rep_dom.
  - intros Hdis. apply disjoint_set_leaf; [done|]. simpl.
    intros Hin. apply Hfr. by apply (subseteq_dom h0 h).
  - eexists. split; [reflexivity|]. exact Hfr.
Qed.

(** ** The shift of reward, done, terminated and truncated *)

Lemma shiftable_shift (name k0 : string) (m : gmap key buffer) :
  String.eqb k0 name = false →
  shiftable name m → shiftable name (shift_contents k0 m).
Proof.
  intros Hne Hs. unfold shiftable, shift_contents.
  rewrite td_in_set_leaf, Hne, lookup_td_set_leaf_ne by done. exact Hs.
Qed.

Lemma shift_step_returns h0 h d m name :
  table h0 h d m → shiftable name m →
  returns (if td_in name d then shift_key name d else ret d) h (λ d' h',
    table h0 h' d' (if td_in name m then shift_contents name m else m) ∧ h ⊆ h'
    ∧ (separated d → separated d')
    ∧ (disjoint_from h0 d → disjoint_from h0 d')
    ∧ shifted_from h name d d').
Proof.
  intros Ht Hs. rewrite (rep_td_in _ _ _ _ (proj2 Ht)).
  destruct (td_in name m) eqn:Hin.
  - destruct (Hs Hin) as (b & Hb & Hne).
    eapply returns_mono; [by eapply shift_key_returns|].
    cbv beta. intros d' h' (Ht' & Hsub & Hsep & Hdis & t' & -> & Hfr).
    do 4 (split; [done|]). split.
    + intros t. rewrite lookup_td_set_leaf, below_refl. by intros [= <-].
    + intros n rest Hne'. by apply lookup_td_set_leaf_ne.
  - apply returns_ret; cbv beta. do 4 (split; [done|]). split; [|done].
    intros t Hd. destruct (rep_lookup_tensor _ _ _ _ _ (proj2 Ht) Hd) as (b & Hb & _).
    by rewrite (td_in_leaf _ _ _ Hb) in Hin.
Qed.

Lemma _shift_reward_done_returns h0 h d m R :
  table h0 h d m → m !! ["reward"] = Some R → R ≠ [] →
  shiftable "done" m → shiftable "terminated" m → shiftable "truncated" m →
  returns (_shift_reward_done d) h (λ d' h',
    table h0 h' d' (shift_reward_done_contents m) ∧ h ⊆ h'
    ∧ (separated d → separated d')
    ∧ (disjoint_from h0 d → disjoint_from h0 d')
    ∧ fresh_fields h d').
Proof.
  intros Ht HR HRne Hdone Hterm Htrunc.
  unfold _shift_reward_done, shift_reward_done_contents. simpl.
  eapply returns_bind; [by eapply shift_key_returns|].
  intros d1 h1; cbv beta; intros (Ht1 & Hs1 & Hsep1 & Hdis1 & t1 & Hd1 & Hfr1).
  eapply returns_bind.
  { apply shift_step_returns; [done|]. by apply shiftable_shift. }
  intros d2 h2; cbv beta; intros (Ht2 & Hs2 & Hsep2 & Hdis2 & Hf2 & Ho2).
  eapply returns_bind.
  { apply shift_step_returns; [done|].
    destruct (td_in "done" (shift_contents "reward" m));
      repeat (apply shiftable_shift; [done|]); done. }
  intros d3 h3; cbv beta; intros (Ht3 & Hs3 & Hsep3 & Hdis3 & Hf3 & Ho3).
  eapply returns_bind.
  { apply shift_step_returns; [done|].
    destruct (td_in "done" (shift_contents "reward" m)),
             (td_in "terminated" _);
      repeat (apply shiftable_shift; [done|]); done. }
  intros d4 h4; cbv beta; intros (Ht4 & Hs4 & Hsep4 & Hdis4 & Hf4 & Ho4).
  apply returns_ret. split; [done|]. split; [by repeat (etrans; [eassumption|])|].
  split; [eauto|]. split; [eauto|].
  assert (Hdom1 : dom h ⊆ dom h1) by by apply subseteq_dom.
  assert (Hdom2 : dom h1 ⊆ dom h2) by by apply subseteq_dom.
  assert (Hdom3 : dom h2 ⊆ dom h3) by by apply subseteq_dom.
  intros name t Hel Hd.
  apply list_elem_of_In in Hel. simpl in Hel.
  destruct Hel as [<-|[<-|[<-|[<-|[]]]]].
  - rewrite (Ho4 "reward" []), (Ho3 "reward" []), (Ho2 "reward" []) in Hd by done.
    rewrite Hd1, lookup_td_set_leaf, below_refl in Hd. by injection Hd as <-.
  - rewrite (Ho4 "done" []), (Ho3 "done" []) in Hd by done.
    apply Hf2 in Hd. set_solver.
  - rewrite (Ho4 "terminated" []) in Hd by done.
    apply Hf3 in Hd. set_solver.
  - apply Hf4 in Hd. set_solver.
Qed.

(** ** Lookups in the contents of each step *)

Lemma td_in_ext {A B : Type} (name : string) (m1 : gmap key A) (m2 : gmap key B) :
  (∀ rest, m1 !! (name :: rest) = None ↔ m2 !! (name :: rest) = None) →
  td_in name m1 = td_in name m2.
Proof.
  intros Hext. destruct (td_in name m2) eqn:H2.
  - apply td_in_true in H2 as (k & x & Hk & Hb). apply td_in_true.
    destruct (below_cons_inv _ _ Hb) as [rest ->].
    destruct (m1 !! (name :: rest)) as [y|] eqn:H1.
    + by exists (name :: rest), y.
    + apply Hext in H1. congruence.
  - apply td_in_false. intros k Hb.
    destruct (below_cons_inv _ _ Hb) as [rest ->].
    apply Hext. by apply (proj1 (td_in_false name m2) H2).
Qed.

Lemma td_in_false_lookup {A : Type} (name : string) (m : gmap key A) (rest : key) :
  td_in name m = false → m !! (name :: rest) = None.
Proof.
  intros Hin. apply (proj1 (td_in_false name m) Hin).
  by rewrite below_single, String.eqb_refl.
Qed.

Lemma lookup_rename_timeouts_contents (m : gmap key buffer) (k : key) :
  rename_timeouts_contents m !! k
  = if below ["timeouts"] k then None
    else if below ["truncated"] k
         then (if td_in "timeouts" m then m !! ("timeouts" :: drop 1 k) else m !! k)
         else m !! k.
Proof.
  unfold rename_timeouts_contents. destruct (td_in "timeouts" m) eqn:Hin.
  - by rewrite lookup_td_rename.
  - destruct (below ["timeouts"] k) eqn:Hb; [|by destruct (below ["truncated"] k)].
    by apply (proj1 (td_in_false _ m) Hin).
Qed.

Lemma lookup_rename_infos {A : Type} (m : gmap key A) (k : key) :
  rename_infos m !! k
  = if below ["infos"] k then None
    else if below ["info"] k
         then (if td_in "infos" m then m !! ("infos" :: drop 1 k) else m !! k)
         else m !! k.
Proof.
  unfold rename_infos. destruct (td_in "infos" m) eqn:Hin.
  - by rewrite lookup_td_rename.
  - destruct (below ["infos"] k) eqn:Hb; [|by destruct (below ["info"] k)].
    by apply (proj1 (td_in_false _ m) Hin).
Qed.

Lemma lookup_format_done_contents (m : gmap key buffer) (k : key) :
  format_done_contents m !! k
  = if below ["truncated"] k
    then (if td_in "truncated" m
          then (if below k ["truncated"]
                then Some (map (map to_bool) (col ["truncated"] m))
                else None)
          else None)
    else convert_contents ["terminated"] to_bool
           (convert_contents ["done"] to_bool m) !! k.
Proof.
  unfold format_done_contents.
  set (m2 := convert_contents ["terminated"] to_bool
               (convert_contents ["done"] to_bool m)).
  assert (Hin : td_in "truncated" m2 = td_in "truncated" m).
  { unfold m2, convert_contents. by rewrite !td_in_set_leaf. }
  assert (Hcol : col ["truncated"] m2 = col ["truncated"] m).
  { unfold col, m2, convert_contents. by rewrite !lookup_td_set_leaf_ne. }
  rewrite Hin. destruct (td_in "truncated" m) eqn:Hm.
  - unfold convert_contents at 1. rewrite lookup_td_set_leaf, Hcol.
    by destruct (below ["truncated"] k).
  - destruct (below ["truncated"] k) eqn:Hb; [|done].
    by apply (proj1 (td_in_false _ m2) Hin).
Qed.

Lemma td_in_shift_contents (name k0 : string) (m : gmap key buffer) :
  td_in name (shift_contents k0 m) = String.eqb k0 name || td_in name m.
Proof. apply td_in_set_leaf. Qed.

Lemma lookup_shift_step (name : string) (m : gmap key buffer) (k : key) :
  (if td_in name m then shift_contents name m else m) !! k
  = if below [name] k
    then (if td_in name m
          then (if below k [name] then Some (shift_rows (col [name] m)) else None)
          else None)
    else m !! k.
Proof.
  destruct (td_in name m) eqn:Hin.
  - unfold shift_contents. rewrite lookup_td_set_leaf. done.
  - destruct (below [name] k) eqn:Hb; [|done].
    by apply (proj1 (td_in_false _ m) Hin).
Qed.

Lemma lookup_shift_reward_done_contents (m : gmap key buffer) (k : key) :
  shift_reward_done_contents m !! k
  = if below ["truncated"] k
    then (if td_in "truncated" m
          then (if below k ["truncated"]
                then Some (shift_rows (col ["truncated"] m)) else None)
          else None)
    else if below ["terminated"] k
    then (if td_in "terminated" m
          then (if below k ["terminated"]
                then Some (shift_rows (col ["terminated"] m)) else None)
          else None)
    else if below ["done"] k
    then (if td_in "done" m
          then (if below k ["done"]
                then Some (shift_rows (col ["done"] m)) else None)
          else None)
    else if below ["reward"] k
    then (if below k ["reward"]
          then Some (shift_rows (col ["reward"] m)) else None)
    else m !! k.
Proof.
  unfold shift_reward_done_contents. simpl foldl.
  set (m1 := shift_contents "reward" m).
  set (m2 := if td_in "done" m1 then shift_contents "done" m1 else m1).
  set (m3 := if td_in "terminated" m2 then shift_contents "terminated" m2 else m2).
  assert (H1 : ∀ name, String.eqb "reward" name = false →
            td_in name m1 = td_in name m ∧ col [name] m1 = col [name] m).
  { intros name Hne. unfold m1. rewrite td_in_shift_contents, Hne.
    split; [done|]. unfold col, shift_contents.
    by rewrite lookup_td_set_leaf_ne. }
  assert (H2 : ∀ name, String.eqb "done" name = false →
            td_in name m2 = td_in name m1 ∧ col [name] m2 = col [name] m1).
  { intros name Hne. unfold m2. destruct (td_in "done" m1); [|done].
    rewrite td_in_shift_contents, Hne. split; [done|].
    unfold col, shift_contents. by rewrite lookup_td_set_leaf_ne. }
  assert (H3 : ∀ name, String.eqb "terminated" name = false →
            td_in name m3 = td_in name m2 ∧ col [name] m3 = col [name] m2).
  { intros name Hne. unfold m3. destruct (td_in "terminated" m2); [|done].
    rewrite td_in_shift_contents, Hne. split; [done|].
    unfold col, shift_contents. by rewrite lookup_td_set_leaf_ne. }
  rewrite (lookup_shift_step "truncated" m3).
  destruct (H3 "truncated" eq_refl) as [-> ->].
  destruct (H2 "truncated" eq_refl) as [-> ->].
  destruct (H1 "truncated" eq_refl) as [-> ->].
  destruct (below ["truncated"] k); [done|].
  unfold m3. rewrite (lookup_shift_step "terminated" m2).
  destruct (H2 "terminated" eq_refl) as [-> ->].
  destruct (H1 "terminated" eq_refl) as [-> ->].
  destruct (below ["terminated"] k); [done|].
  unfold m2. rewrite (lookup_shift_step "done" m1).
  destruct (H1 "done" eq_refl) as [-> ->].
  destruct (below ["done"] k); [done|].
  unfold m1, shift_contents. by rewrite lookup_td_set_leaf.
Qed.

Lemma lookup_fill_contents (m : gmap key buffer) (k : key) :
  fill_contents m !! k
  = if below ["next"; "observation"] k && below k ["next"; "observation"]
    then Some (mask_fill (col ["next"; "observation"] m) (col ["next"; "done"] m))
    else m !! k.
Proof.
  unfold fill_contents. destruct (below _ k && below k _) eqn:Hb.
  - apply andb_true_iff in Hb as [Hb1 Hb2].
    rewrite <- (below_antisym _ _ Hb1 Hb2). apply lookup_insert_eq.
  - apply lookup_insert_ne. intros <-. by rewrite below_refl in Hb.
Qed.

Ltac td_lookup_step :=
  first
    [ rewrite lookup_fill_contents
    | rewrite lookup_shift_reward_done_contents
    | rewrite lookup_format_done_contents
    | rewrite lookup_rename_infos
    | rewrite lookup_rename_timeouts_contents
    | rewrite lookup_td_rename
    | rewrite lookup_td_update_next
    | rewrite lookup_td_select
    | rewrite lookup_td_set_leaf
    | rewrite lookup_td_set
    | rewrite lookup_td_del
    | rewrite lookup_fmap
    | progress unfold attach_next_contents, derive_next_contents,
        clear_next_contents, unsqueeze_contents, convert_contents,
        set_done_contents, shift_contents, col ].

Ltac td_lookup :=
  repeat (td_lookup_step;
          cbn [below String.eqb Ascii.eqb Bool.eqb andb orb existsb
               length drop app]).

(** ** Field presence through the steps *)

Lemma td_in_set_leaf_cons {A : Type} (name k0 : string) (r : key) (x : A)
    (m : gmap key A) :
  td_in name (td_set_leaf (k0 :: r) x m) = String.eqb k0 name || td_in name m.
Proof.
  destruct (String.eqb k0 name) eqn:Heq; simpl.
  - apply String.eqb_eq in Heq as ->. apply td_in_true.
    exists (name :: r), x. rewrite lookup_td_set_leaf, below_refl.
    by rewrite below_single, String.eqb_refl.
  - apply td_in_ext. intros rest. rewrite lookup_td_set_leaf.
    cbn [below]. by rewrite Heq.
Qed.

Lemma td_in_td_del {A : Type} (name p : string) (m : gmap key A) :
  td_in name (td_del [p] m) = if String.eqb p name then false else td_in name m.
Proof.
  destruct (String.eqb p name) eqn:Heq.
  - apply td_in_false. intros k Hb. destruct (below_cons_inv _ _ Hb) as [rest ->].
    by rewrite lookup_td_del, below_single, Heq.
  - apply td_in_ext. intros rest. by rewrite lookup_td_del, below_single, Heq.
Qed.

Lemma td_in_td_rename_other {A : Type} (name old n1 : string) (r : key)
    (m : gmap key A) :
  String.eqb old name = false → String.eqb n1 name = false →
  td_in name (td_rename old (n1 :: r) m) = td_in name m.
Proof.
  intros Ho Hn. apply td_in_ext. intros rest.
  rewrite lookup_td_rename, below_single, Ho. cbn [below]. by rewrite Hn.
Qed.

Lemma td_in_td_rename_old {A : Type} (old : string) (new : key) (m : gmap key A) :
  td_in old (td_rename old new m) = false.
Proof.
  apply td_in_false. intros k Hb. by rewrite lookup_td_rename, Hb.
Qed.

Lemma td_in_td_rename_new {A : Type} (old new : string) (m : gmap key A) :
  String.eqb old new = false →
  td_in new (td_rename old [new] m) = td_in old m.
Proof.
  intros Hne.
  assert (Hl : ∀ rest, td_rename old [new] m !! (new :: rest) = m !! (old :: rest)).
  { intros rest. by rewrite lookup_td_rename, !below_single, Hne, String.eqb_refl. }
  destruct (td_in old m) eqn:Hin.
  - apply td_in_true in Hin as (k & x & Hk & Hb).
    destruct (below_cons_inv _ _ Hb) as [rest ->]. apply td_in_true.
    exists (new :: rest), x. by rewrite Hl, below_single, String.eqb_refl.
  - apply td_in_false. intros k Hb.
    destruct (below_cons_inv _ _ Hb) as [rest ->].
    rewrite Hl. by apply td_in_false_lookup.
Qed.

Lemma td_in_rename_infos {A : Type} (name : string) (m : gmap key A) :
  String.eqb "infos" name = false → String.eqb "info" name = false →
  td_in name (rename_infos m) = td_in name m.
Proof.
  intros H1 H2. unfold rename_infos. destruct (td_in "infos" m); [|done].
  by apply td_in_td_rename_other.
Qed.

Lemma td_in_td_set_other {A : Type} (name p0 : string) (r : key)
    (s m : gmap key A) :
  String.eqb p0 name = false →
  td_in name (td_set (p0 :: r) s m) = td_in name m.
Proof.
  intros Hne. apply td_in_ext. intros rest.
  rewrite lookup_td_set. cbn [below]. by rewrite Hne.
Qed.

Lemma td_in_td_update_next {A : Type} (name : string) (s m : gmap key A) :
  String.eqb "next" name = false →
  td_in name (td_update_next s m) = td_in name m.
Proof.
  intros Hne. apply td_in_ext. intros rest.
  by rewrite lookup_td_update_next, below_single, Hne.
Qed.

Lemma td_in_format_done_contents (name : string) (m : gmap key buffer) :
  td_in name (format_done_contents m)
  = String.eqb "terminated" name || (String.eqb "done" name || td_in name m).
Proof.
  unfold format_done_contents.
  set (m2 := convert_contents ["terminated"] to_bool
               (convert_contents ["done"] to_bool m)).
  assert (H2 : ∀ n, td_in n m2
                    = String.eqb "terminated" n || (String.eqb "done" n || td_in n m)).
  { intros n. unfold m2, convert_contents. by rewrite !td_in_set_leaf_cons. }
  destruct (td_in "truncated" m2) eqn:Hin; [|apply H2].
  unfold convert_contents. rewrite td_in_set_leaf_cons, H2.
  destruct (String.eqb "truncated" name) eqn:Heq; [|done].
  apply String.eqb_eq in Heq as <-. by rewrite <- H2, Hin.
Qed.

Lemma td_in_shift_reward_done_contents (name : string) (m : gmap key buffer) :
  td_in name (shift_reward_done_contents m)
  = String.eqb "reward" name || td_in name m.
Proof.
  unfold shift_reward_done_contents. simpl foldl.
  set (m1 := shift_contents "reward" m).
  assert (Hstep : ∀ k0 (x : gmap key buffer),
            td_in name (if td_in k0 x then shift_contents k0 x else x) = td_in name x).
  { intros k0 x. destruct (td_in k0 x) eqn:Hin; [|done].
    rewrite td_in_shift_contents.
    destruct (String.eqb k0 name) eqn:Heq; [|done].
    apply String.eqb_eq in Heq as <-. by rewrite Hin. }
  rewrite !Hstep. apply td_in_shift_contents.
Qed.

Lemma td_in_rename_timeouts_contents (m : gmap key buffer) :
  td_in "truncated" (rename_timeouts_contents m)
  = td_in "timeouts" m || td_in "truncated" m.
Proof.
  unfold rename_timeouts_contents. destruct (td_in "timeouts" m) eqn:Hin; [|done].
  by rewrite td_in_td_rename_new.
Qed.

Lemma td_in_rename_timeouts_other (name : string) (m : gmap key buffer) :
  String.eqb "timeouts" name = false → String.eqb "truncated" name = false →
  td_in name (rename_timeouts_contents m) = td_in name m.
Proof.
  intros H1 H2. unfold rename_timeouts_contents.
  destruct (td_in "timeouts" m); [|done]. by apply td_in_td_rename_other.
Qed.

Ltac td_in_step :=
  first
    [ rewrite td_in_set_leaf_cons
    | rewrite td_in_td_del
    | rewrite td_in_td_rename_old
    | rewrite td_in_td_rename_new by reflexivity
    | rewrite td_in_td_rename_other by reflexivity
    | rewrite td_in_rename_infos by reflexivity
    | rewrite td_in_rename_timeouts_contents
    | rewrite td_in_rename_timeouts_other by reflexivity
    | rewrite td_in_format_done_contents
    | rewrite td_in_shift_reward_done_contents
    | rewrite td_in_td_set_other by reflexivity
    | rewrite td_in_td_update_next by reflexivity
    | rewrite td_in_fmap
    | progress unfold attach_next_contents, derive_next_contents,
        clear_next_contents, unsqueeze_contents, convert_contents,
        set_done_contents, shift_contents ].

Ltac td_in_simpl :=
  repeat (td_in_step; cbn [String.eqb Ascii.eqb Bool.eqb andb orb]).

(** ** Raw tables *)

Lemma has_leaf_true (k : key) (m : gmap key buffer) :
  has_leaf k m = true → ∃ b, m !! k = Some b.
Proof. unfold has_leaf. by intros ?%bool_decide_eq_true. Qed.

Lemma leaf_or_absent_true (name : string) (m : gmap key buffer) :
  leaf_or_absent name m = true →
  td_in name m = true → ∃ b, m !! [name] = Some b.
Proof.
  unfold leaf_or_absent. intros H Hin. rewrite Hin in H. by apply has_leaf_true.
Qed.

Lemma raw_rows_lookup (N : nat) (m : gmap key buffer) (k : key) (b : buffer) :
  raw_rows N m = true → m !! k = Some b → below ["metadata"] k = false →
  length b = N.
Proof.
  unfold raw_rows. intros H%bool_decide_eq_true Hk Hb. by apply (H k b).
Qed.

Lemma raw_truncated_cases (N : nat) (m : gmap key buffer) :
  raw_rows N m = true →
  leaf_or_absent "timeouts" m = true → leaf_or_absent "truncated" m = true →
  td_in "timeouts" m || td_in "truncated" m
  = match raw_truncated m with Some _ => true | None => false end
  ∧ ∀ U, raw_truncated m = Some U → length U = N.
Proof.
  intros Hrows H1 H2. unfold raw_truncated.
  destruct (td_in "timeouts" m) eqn:Hin1; simpl.
  - destruct (leaf_or_absent_true _ _ H1 Hin1) as [b Hb]. rewrite Hb.
    split; [done|]. intros U [= <-]. by eapply raw_rows_lookup.
  - destruct (td_in "truncated" m) eqn:Hin2.
    + destruct (leaf_or_absent_true _ _ H2 Hin2) as [b Hb]. rewrite Hb.
      split; [done|]. intros U [= <-]. by eapply raw_rows_lookup.
    + by rewrite (td_in_false_lookup _ _ [] Hin2).
Qed.

Lemma flat_table_inv (N : nat) (m : gmap key buffer) :
  flat_table N m = true →
  ∃ O A R T,
    m !! ["observations"] = Some O ∧ m !! ["actions"] = Some A
    ∧ m !! ["rewards"] = Some R ∧ m !! ["terminals"] = Some T
    ∧ length O = N ∧ length A = N ∧ length R = N ∧ length T = N
    ∧ raw_rows N m = true
    ∧ td_in "timeouts" m || td_in "truncated" m
      = match raw_truncated m with Some _ => true | None => false end
    ∧ ∀ U, raw_truncated m = Some U → length U = N.
Proof.
  unfold flat_table. rewrite !andb_true_iff.
  intros [[[[[[Hrows HO] HA] HR] HT] H1] H2].
  apply has_leaf_true in HO as [O HO], HA as [A HA], HR as [R HR], HT as [T HT].
  destruct (raw_truncated_cases N m Hrows H1 H2) as [Hin HU].
  exists O, A, R, T.
  split_and!; try done; by eapply raw_rows_lookup.
Qed.

Lemma env_ok_spec (env : GymEnv) :
  env_ok env = true → observation_spec env = [(["observation"], obs_dtype env)].
Proof.
  unfold env_ok, obs_dtype. intros H%bool_decide_eq_true.
  destruct (observation_spec env) as [|[k f] [|? ?]]; simpl in H; try done.
  by injection H as ->.
Qed.

(** ** The normalised table *)

Lemma normalize_canonical (utd : bool) (env : option GymEnv) (m : gmap key buffer)
    (N : nat) (O A R T : buffer) :
  flat_table N m = true → env_wf env →
  m !! ["observations"] = Some O → m !! ["actions"] = Some A →
  m !! ["rewards"] = Some R → m !! ["terminals"] = Some T →
  canonical (normalize_contents utd env m)
    (to_dtype (obs_dtype <$> env) O)
    (to_dtype (action_spec <$> env) A)
    (to_dtype (reward_spec <$> env) R)
    (map (map to_bool) T)
    (map (map to_bool) (raw_done utd T (raw_truncated m)))
    (map (map to_bool) <$> raw_truncated m).
Proof.
  intros Hflat Henv HO HA HR HT.
  destruct (flat_table_inv N m Hflat)
    as (O' & A' & R' & T' & _ & _ & _ & _ & _ & _ & _ & _ & Hrows & Hin & HU).
  assert (Htr : ∀ x : gmap key buffer,
            td_in "timeouts" (td_rename "terminals" ["terminated"]
              (td_rename "observations" ["observation"] (td_del ["metadata"] m)))
            = td_in "timeouts" m).
  { intros _. by td_in_simpl. }
  assert (Htrunc : rename_timeouts_contents
            (td_rename "terminals" ["terminated"]
              (td_rename "observations" ["observation"] (td_del ["metadata"] m)))
            !! ["truncated"] = raw_truncated m).
  { rewrite lookup_rename_timeouts_contents. cbn [below String.eqb Ascii.eqb Bool.eqb andb drop].
    rewrite (Htr ∅). unfold raw_truncated. destruct (td_in "timeouts" m); by td_lookup. }
  unfold canonical, normalize_contents. cbv zeta.
  destruct env as [e|]; cbn [env_contents fmap option_fmap option_map to_dtype].
  - rewrite (env_ok_spec e Henv). cbn [foldl fst snd].
    split_and!.
    + td_lookup. by rewrite HO.
    + td_lookup. by rewrite HA.
    + td_lookup. by rewrite HR.
    + td_lookup. by rewrite HT.
    + td_lookup. unfold done_rows, col. rewrite Htrunc. td_lookup. by rewrite HT.
    + td_lookup. td_in_simpl. rewrite Hin.
      change (if td_in "timeouts" m then m !! ["timeouts"] else m !! ["truncated"])
        with (raw_truncated m).
      by destruct (raw_truncated m).
    + td_in_simpl. rewrite Hin. by destruct (raw_truncated m).
  - split_and!.
    + td_lookup. by rewrite HO.
    + td_lookup. by rewrite HA.
    + td_lookup. by rewrite HR.
    + td_lookup. by rewrite HT.
    + td_lookup. unfold done_rows, col. rewrite Htrunc. td_lookup. by rewrite HT.
    + td_lookup. td_in_simpl. rewrite Hin.
      change (if td_in "timeouts" m then m !! ["timeouts"] else m !! ["truncated"])
        with (raw_truncated m).
      by destruct (raw_truncated m).
    + td_in_simpl. rewrite Hin. by destruct (raw_truncated m).
Qed.

(** ** Row counts *)

Lemma rows_lookup (N : nat) (m : gmap key buffer) (k : key) (b : buffer) :
  rows N m → m !! k = Some b → length b = N.
Proof. intros Hr Hk. by apply (Hr k b). Qed.

Lemma rows_col (N : nat) (m : gmap key buffer) (k : key) :
  rows N m → is_Some (m !! k) → length (col k m) = N.
Proof. intros Hr [b Hb]. rewrite (col_lookup _ _ _ Hb). by eapply rows_lookup. Qed.

Lemma init_rows_length (b : buffer) : length (init_rows b) = length b - 1.
Proof. unfold init_rows. rewrite length_take. lia. Qed.

Lemma shift_rows_length (b : buffer) : length (shift_rows b) = length b.
Proof.
  destruct b as [|r rest]; [done|]. unfold shift_rows.
  simpl length. rewrite init_rows_length. simpl. lia.
Qed.

Lemma mask_fill_length (v mask : buffer) :
  length mask = length v → length (mask_fill v mask) = length v.
Proof. intros H. unfold mask_fill. rewrite length_zip_with. lia. Qed.

Lemma raw_done_length (utd : bool) (T : buffer) (U : option buffer) (N : nat) :
  length T = N → (∀ u, U = Some u → length u = N) →
  length (raw_done utd T U) = N.
Proof.
  intros HT HU. unfold raw_done. destruct utd; [|done].
  destruct U as [u|].
  - rewrite length_zip_with, (HU u eq_refl). lia.
  - by rewrite length_map.
Qed.

Lemma to_dtype_length (f : option (Z → Z)) (b : buffer) :
  length (to_dtype f b) = length b.
Proof. destruct f; simpl; [apply length_map|done]. Qed.

Lemma rows_td_del (N : nat) (p : key) (m : gmap key buffer) : rows N m → rows N (td_del p m).
Proof.
  intros Hr k b. rewrite lookup_td_del. destruct (below p k); [done|]. apply Hr.
Qed.

Lemma rows_raw (N : nat) (m : gmap key buffer) :
  raw_rows N m = true → rows N (td_del ["metadata"] m).
Proof.
  intros Hr k b. rewrite lookup_td_del.
  destruct (below ["metadata"] k) eqn:Hb; [done|].
  intros Hk. by eapply raw_rows_lookup.
Qed.

Lemma rows_td_rename (N : nat) (old : string) (new : key) (m : gmap key buffer) :
  rows N m → rows N (td_rename old new m).
Proof.
  intros Hr k b. rewrite lookup_td_rename.
  destruct (below [old] k); [done|]. destruct (below new k); apply Hr.
Qed.

Lemma rows_rename_timeouts (N : nat) (m : gmap key buffer) :
  rows N m → rows N (rename_timeouts_contents m).
Proof.
  intros Hr. unfold rename_timeouts_contents.
  destruct (td_in "timeouts" m); [by apply rows_td_rename|done].
Qed.

Lemma rows_rename_infos (N : nat) (m : gmap key buffer) :
  rows N m → rows N (rename_infos m).
Proof.
  intros Hr. unfold rename_infos.
  destruct (td_in "infos" m); [by apply rows_td_rename|done].
Qed.

Lemma rows_td_set_leaf (N : nat) (k : key) (x : buffer) (m : gmap key buffer) :
  length x = N → rows N m → rows N (td_set_leaf k x m).
Proof.
  intros Hx Hr k' b. rewrite lookup_td_set_leaf.
  destruct (below k k'); [|apply Hr].
  destruct (below k' k); [|done]. by intros [= <-].
Qed.

Lemma rows_convert (N : nat) (k : key) (f : Z → Z) (m : gmap key buffer) :
  is_Some (m !! k) → rows N m → rows N (convert_contents k f m).
Proof.
  intros Hk Hr. apply rows_td_set_leaf; [|done].
  rewrite length_map. by apply rows_col.
Qed.

Lemma rows_td_select (N : nat) (names : list string) (m : gmap key buffer) :
  rows N m → rows N (td_select names m).
Proof.
  intros Hr k b. rewrite lookup_td_select.
  destruct (existsb _ names); [apply Hr|done].
Qed.

Lemma rows_td_set (N : nat) (p : key) (s m : gmap key buffer) :
  rows N s → rows N m → rows N (td_set p s m).
Proof.
  intros Hs Hr k b. rewrite lookup_td_set.
  destruct (below p k); [apply Hs|apply Hr].
Qed.

Lemma rows_td_update_next (N : nat) (s m : gmap key buffer) :
  rows N s → rows N m → rows N (td_update_next s m).
Proof.
  intros Hs Hr k b. rewrite lookup_td_update_next.
  destruct (below ["next"] k); [|apply Hr].
  destruct (s !! drop 1 k) as [x|] eqn:Hx; [|apply Hr].
  intros [= <-]. by apply (rows_lookup N s (drop 1 k)).
Qed.

Lemma rows_fmap (N N' : nat) (f : buffer → buffer) (m : gmap key buffer) :
  (∀ b, length b = N → length (f b) = N') → rows N m → rows N' (f <$> m).
Proof.
  intros Hf Hr k b. rewrite lookup_fmap.
  destruct (m !! k) as [x|] eqn:Hx; [|done].
  intros [= <-]. apply Hf. by apply (rows_lookup N m k).
Qed.

Lemma rows_format_done (N : nat) (m : gmap key buffer) :
  is_Some (m !! ["done"]) → is_Some (m !! ["terminated"]) →
  (td_in "truncated" m = true → is_Some (m !! ["truncated"])) →
  rows N m → rows N (format_done_contents m).
Proof.
  intros HD HT HU Hr k b. rewrite lookup_format_done_contents.
  destruct (below ["truncated"] k).
  - destruct (td_in "truncated" m) eqn:Hin; [|done].
    destruct (below k ["truncated"]); [|done].
    intros [= <-]. rewrite length_map. apply rows_col; auto.
  - apply rows_convert.
    + unfold convert_contents. by rewrite lookup_td_set_leaf_ne.
    + by apply rows_convert.
Qed.

Lemma rows_shift_reward_done (N : nat) (m : gmap key buffer) :
  is_Some (m !! ["reward"]) →
  (∀ name, td_in name m = true → name ∈ ["done"; "terminated"; "truncated"] →
           is_Some (m !! [name])) →
  rows N m → rows N (shift_reward_done_contents m).
Proof.
  intros HR Hflag Hr k b. rewrite lookup_shift_reward_done_contents.
  assert (Hcase : ∀ name, name ∈ ["done"; "terminated"; "truncated"] →
    (if td_in name m
     then if below k [name] then Some (shift_rows (col [name] m)) else None
     else None) = Some b → length b = N).
  { intros name Hname. destruct (td_in name m) eqn:Hin; [|done].
    destruct (below k [name]); [|done]. intros [= <-].
    rewrite shift_rows_length. apply rows_col; auto. }
  destruct (below ["truncated"] k); [apply Hcase; set_solver|].
  destruct (below ["terminated"] k); [apply Hcase; set_solver|].
  destruct (below ["done"] k); [apply Hcase; set_solver|].
  destruct (below ["reward"] k); [|apply Hr].
  destruct (below k ["reward"]); [|done]. intros [= <-].
  rewrite shift_rows_length. by apply rows_col.
Qed.

Lemma rows_fill (N : nat) (m : gmap key buffer) :
  is_Some (m !! ["next"; "observation"]) → is_Some (m !! ["next"; "done"]) →
  rows N m → rows N (fill_contents m).
Proof.
  intros HO HD Hr k b. rewrite lookup_fill_contents.
  destruct (_ && _); [|apply Hr]. intros [= <-].
  rewrite mask_fill_length; rewrite ?(rows_col N); auto.
Qed.

(** ** The construction of the table, step by step *)

Lemma td_del_absent {A : Type} (name : string) (m : gmap key A) :
  td_in name m = false → td_del [name] m = m.
Proof.
  intros Hin. apply map_eq. intros k. rewrite lookup_td_del.
  destruct (below [name] k) eqn:Hb; [|done].
  symmetry. by apply (proj1 (td_in_false name m) Hin).
Qed.

Lemma extract_metadata_table h0 h d m :
  table h0 h d m → table h0 h (extract_metadata d).1 (td_del ["metadata"] m).
Proof.
  intros [H0 Hrep]. unfold extract_metadata.
  destruct (td_in "metadata" d) eqn:Hin; simpl.
  - split; [done|]. by apply rep_td_del.
  - split; [done|]. rewrite <- (td_del_absent "metadata" d Hin).
    by apply rep_td_del.
Qed.

Lemma match_dtypes_returns h0 h d m env O A R :
  table h0 h d m → env_wf env →
  m !! ["observation"] = Some O → m !! ["action"] = Some A →
  m !! ["reward"] = Some R →
  returns (match_dtypes env d) h (λ d' h', table h0 h' d' (env_contents env m)).
Proof.
  intros Ht Henv HO HA HR. unfold match_dtypes, env_contents.
  destruct env as [e|]; [|by apply returns_ret].
  rewrite (env_ok_spec e Henv). cbn [for_each foldl fst snd].
  eapply returns_bind.
  { eapply returns_bind; [by eapply convert_returns|].
    intros d1 h1; cbv beta; intros Ht1. apply returns_ret. exact Ht1. }
  intros d1 h1; cbv beta; intros Ht1.
  eapply returns_bind.
  { eapply convert_returns; [done|]. by td_lookup. }
  intros d2 h2; cbv beta; intros Ht2.
  eapply convert_returns; [done|]. by td_lookup.
Qed.

Lemma derive_next_table h0 h d m :
  table h0 h d m → table h0 h (derive_next d) (derive_next_contents m).
Proof.
  intros [H0 Hrep]. split; [done|]. unfold derive_next, derive_next_contents.
  apply rep_td_set; [|by apply rep_slice_init].
  by apply rep_slice_tail, rep_td_select.
Qed.

Lemma attach_next_table h0 h d m :
  table h0 h d m → table h0 h (attach_next d) (attach_next_contents m).
Proof.
  intros [H0 Hrep]. split; [done|]. unfold attach_next, attach_next_contents.
  apply rep_td_update_next; [|done]. by apply rep_td_select.
Qed.

Lemma canonical_shiftable (m : gmap key buffer) (O A R T D : buffer)
    (U : option buffer) (N : nat) :
  canonical m O A R T D U → rows N m → 1 ≤ N →
  m !! ["reward"] = Some R ∧ R ≠ []
  ∧ shiftable "done" m ∧ shiftable "terminated" m ∧ shiftable "truncated" m.
Proof.
  intros (HO & HA & HR & HT & HD & HU & Hin) Hrows HN.
  assert (Hne : ∀ k b, m !! k = Some b → b ≠ []).
  { intros k b Hk ->. apply (rows_lookup N) in Hk; [|done]. simpl in Hk. lia. }
  split; [done|]. split; [exact (Hne _ _ HR)|].
  split; [|split]; intros Htd.
  - exists D. split; [done|exact (Hne _ _ HD)].
  - exists T. split; [done|exact (Hne _ _ HT)].
  - destruct U as [u|]; [|congruence]. exists u. split; [done|exact (Hne _ _ HU)].
Qed.

Lemma rows_normalize (utd : bool) (env : option GymEnv) (m : gmap key buffer)
    (N : nat) :
  flat_table N m = true → env_wf env → rows N (normalize_contents utd env m).
Proof.
  intros Hflat Henv.
  destruct (flat_table_inv N m Hflat)
    as (O & A & R & T & HO & HA & HR & HT & HlO & HlA & HlR & HlT
        & Hrows & Hin & HU).
  unfold normalize_contents. cbv zeta.
  set (m3 := rename_timeouts_contents
               (td_rename "terminals" ["terminated"]
                  (td_rename "observations" ["observation"] (td_del ["metadata"] m)))).
  assert (Hr3 : rows N m3).
  { by apply rows_rename_timeouts, rows_td_rename, rows_td_rename, rows_raw. }
  assert (Htrunc : m3 !! ["truncated"] = raw_truncated m).
  { unfold m3. rewrite lookup_rename_timeouts_contents.
    cbn [below String.eqb Ascii.eqb Bool.eqb andb drop].
    td_in_simpl. unfold raw_truncated.
    destruct (td_in "timeouts" m); by td_lookup. }
  assert (HT3 : m3 !! ["terminated"] = Some T).
  { unfold m3. td_lookup. by rewrite HT. }
  set (m6 := rename_infos
               (td_rename "actions" ["action"]
                  (td_rename "rewards" ["reward"] (set_done_contents utd m3)))).
  assert (Hr6 : rows N m6).
  { apply rows_rename_infos, rows_td_rename, rows_td_rename.
    apply rows_td_set_leaf; [|done]. unfold done_rows.
    rewrite (col_lookup _ _ _ HT3), Htrunc. by apply raw_done_length. }
  assert (HO6 : m6 !! ["observation"] = Some O).
  { unfold m6, m3. td_lookup. by rewrite HO. }
  assert (HA6 : m6 !! ["action"] = Some A).
  { unfold m6, m3. td_lookup. by rewrite HA. }
  assert (HR6 : m6 !! ["reward"] = Some R).
  { unfold m6, m3. td_lookup. by rewrite HR. }
  assert (HT6 : m6 !! ["terminated"] = Some T).
  { unfold m6. td_lookup. by rewrite HT3. }
  assert (HD6 : is_Some (m6 !! ["done"])).
  { unfold m6. td_lookup. eauto. }
  assert (HU6 : m6 !! ["truncated"] = raw_truncated m).
  { unfold m6. td_lookup. by rewrite Htrunc. }
  assert (Hin6 : td_in "truncated" m6
                 = match raw_truncated m with Some _ => true | None => false end).
  { unfold m6, m3. td_in_simpl. exact Hin. }
  set (m7 := env_contents env m6).
  assert (H7 : rows N m7 ∧ is_Some (m7 !! ["reward"]) ∧ is_Some (m7 !! ["done"])
               ∧ is_Some (m7 !! ["terminated"])
               ∧ (td_in "truncated" m7 = true → is_Some (m7 !! ["truncated"]))).
  { unfold m7, env_contents. destruct env as [e|].
    - rewrite (env_ok_spec e Henv). cbn [foldl fst snd].
      split; [|split; [|split; [|split]]].
      + apply rows_convert; [by td_lookup; rewrite HR6|].
        apply rows_convert; [by td_lookup; rewrite HA6|].
        apply rows_convert; [by rewrite HO6|done].
      + td_lookup. eauto.
      + by td_lookup.
      + td_lookup. rewrite HT6. eauto.
      + td_in_simpl. rewrite Hin6. td_lookup. rewrite HU6.
        destruct (raw_truncated m); [eauto|done].
    - split; [done|]. rewrite HR6, HT6, Hin6, HU6. split; [eauto|].
      split; [done|]. split; [eauto|].
      destruct (raw_truncated m); [eauto|done]. }
  destruct H7 as (Hr7 & HR7 & HD7 & HT7 & HU7).
  apply rows_td_set_leaf.
  - apply rows_col.
    + by apply rows_format_done.
    + destruct HR7 as [r Hr]. rewrite lookup_format_done_contents.
      cbn [below String.eqb Ascii.eqb Bool.eqb andb]. td_lookup. eauto.
  - by apply rows_format_done.
Qed.

Lemma derive_attach_transitions (m : gmap key buffer) (O A R T D : buffer)
    (U : option buffer) :
  canonical m O A R T D U →
  transitions (attach_next_contents (derive_next_contents m))
    (init_rows O) (drop 1 O) (init_rows A) (init_rows R) (init_rows T)
    (init_rows D) (init_rows <$> U).
Proof.
  intros (HO & HA & HR & HT & HD & HU & Hin).
  unfold transitions, canonical. split_and!.
  - td_lookup. by rewrite HO.
  - td_lookup. by rewrite HA.
  - td_lookup. by rewrite HR.
  - td_lookup. by rewrite HT.
  - td_lookup. by rewrite HD.
  - td_lookup. by rewrite HU.
  - td_in_simpl. rewrite Hin. by destruct U.
  - td_lookup. by rewrite HO.
  - td_lookup. by rewrite HR.
  - td_lookup. by rewrite HT.
  - td_lookup. by rewrite HD.
  - td_lookup. rewrite HU. by destruct U.
Qed.

Lemma attach_transitions (m : gmap key buffer) (O NO A R T D : buffer)
    (U : option buffer) :
  canonical m O A R T D U → m !! ["next"; "observation"] = Some NO →
  (∀ rest, m !! ("next" :: "truncated" :: rest) = None) →
  transitions (attach_next_contents m) O NO A R T D U.
Proof.
  intros (HO & HA & HR & HT & HD & HU & Hin) HNO Hnt.
  unfold transitions, canonical. split_and!.
  - td_lookup. by rewrite HO.
  - td_lookup. by rewrite HA.
  - td_lookup. by rewrite HR.
  - td_lookup. by rewrite HT.
  - td_lookup. by rewrite HD.
  - td_lookup. by rewrite HU.
  - td_in_simpl. rewrite Hin. by destruct U.
  - td_lookup. by rewrite HNO.
  - td_lookup. by rewrite HR.
  - td_lookup. by rewrite HT.
  - td_lookup. by rewrite HD.
  - td_lookup. rewrite HU. destruct U; [done|]. apply Hnt.
Qed.

Lemma transitions_finished (m : gmap key buffer) (O NO A R T D : buffer)
    (U : option buffer) :
  transitions m O NO A R T D U →
  finished (fill_contents (shift_reward_done_contents m)) O NO A R T D U.
Proof.
  intros ((HO & HA & HR & HT & HD & HU & Hin) & HNO & HNR & HNT & HND & HNU).
  assert (HinD : td_in "done" m = true) by by eapply td_in_leaf.
  assert (HinT : td_in "terminated" m = true) by by eapply td_in_leaf.
  unfold finished. split_and!.
  - td_lookup. by rewrite HO.
  - td_lookup. by rewrite HA.
  - td_lookup. by rewrite HR.
  - td_lookup. by rewrite HinT, HT.
  - td_lookup. by rewrite HinD, HD.
  - td_lookup. rewrite Hin, HU. by destruct U.
  - td_lookup. by rewrite HNO, HND.
  - td_lookup. by rewrite HNR.
  - td_lookup. by rewrite HNT.
  - td_lookup. by rewrite HND.
  - td_lookup. by rewrite HNU.
Qed.

Lemma rows_derive_next (N : nat) (m : gmap key buffer) :
  rows N m → rows (N - 1) (derive_next_contents m).
Proof.
  intros Hr. unfold derive_next_contents. apply rows_td_set.
  - apply (rows_fmap N); [|by apply rows_td_select].
    intros b Hb. rewrite length_drop. lia.
  - apply (rows_fmap N); [|done].
    intros b Hb. rewrite init_rows_length. lia.
Qed.

Lemma rows_attach_next (N : nat) (m : gmap key buffer) :
  rows N m → rows N (attach_next_contents m).
Proof.
  intros Hr. unfold attach_next_contents.
  apply rows_td_update_next; [by apply rows_td_select|done].
Qed.

Lemma _process_data_from_env_returns (utd : bool) (env : option GymEnv)
    (h : heap) (d : gmap key tensor) (m : gmap key buffer) (N : nat) :
  rep h d m → flat_table N m = true → env_wf env → 2 ≤ N →
  returns (_process_data_from_env utd d env) h
    (λ r h', own_table h h' r.1.1 (process_contents utd env m)
             ∧ r.1.2 = (extract_metadata d).2 ∧ r.2 = env).
Proof.
  intros Hrep Hflat Henv HN.
  destruct (flat_table_inv N m Hflat)
    as (O & A & R & T & HO & HA & HR & HT & HlO & HlA & HlR & HlT
        & Hrows & Hin & HU).
  assert (Ht : table h h (extract_metadata d).1 (td_del ["metadata"] m)).
  { by apply extract_metadata_table. }
  unfold _process_data_from_env.
  destruct (extract_metadata d) as [d0 md]. cbn [fst snd] in *.
  eapply returns_bind.
  { apply rename_returns; [done|]. apply (td_in_leaf _ _ O). by td_lookup. }
  intros d1 h1; cbv beta; intros Ht1.
  eapply returns_bind.
  { apply rename_returns; [done|]. apply (td_in_leaf _ _ T). by td_lookup. }
  intros d2 h2; cbv beta; intros Ht2.
  eapply returns_bind; [by apply rename_timeouts_returns|].
  intros d3 h3; cbv beta; intros Ht3.
  assert (Htrunc : rename_timeouts_contents
            (td_rename "terminals" ["terminated"]
              (td_rename "observations" ["observation"] (td_del ["metadata"] m)))
            !! ["truncated"] = raw_truncated m).
  { rewrite lookup_rename_timeouts_contents.
    cbn [below String.eqb Ascii.eqb Bool.eqb andb drop].
    td_in_simpl. unfold raw_truncated.
    destruct (td_in "timeouts" m); by td_lookup. }
  eapply returns_bind.
  { eapply (set_done_returns _ _ _ _ utd T); [done| |].
    - by td_lookup.
    - intros U. rewrite Htrunc. intros HmU. rewrite (HU U HmU). done. }
  intros d4 h4; cbv beta; intros Ht4.
  eapply returns_bind.
  { apply rename_returns; [done|]. apply (td_in_leaf _ _ R). by td_lookup. }
  intros d5 h5; cbv beta; intros Ht5.
  eapply returns_bind.
  { apply rename_returns; [done|]. apply (td_in_leaf _ _ A). by td_lookup. }
  intros d6 h6; cbv beta; intros Ht6.
  apply rename_infos_table in Ht6.
  eapply returns_bind.
  { eapply (match_dtypes_returns _ _ _ _ env O A R); [done|done| | |]; by td_lookup. }
  intros d7 h7; cbv beta; intros Ht7.
  eapply returns_bind.
  { eapply (format_done_returns _ _ _ _
              (to_dtype None (done_rows utd _)) (to_dtype None T)); [done| | |].
    - destruct env as [e|]; unfold env_contents;
        [rewrite (env_ok_spec e Henv); cbn [foldl fst snd]|]; by td_lookup.
    - destruct env as [e|]; unfold env_contents;
        [rewrite (env_ok_spec e Henv); cbn [foldl fst snd]|]; by td_lookup.
    - destruct env as [e|]; unfold env_contents;
        [rewrite (env_ok_spec e Henv); cbn [foldl fst snd]|];
        td_in_simpl; rewrite Hin; td_lookup; td_in_simpl;
        (change (if td_in "timeouts" m then m !! ["timeouts"] else m !! ["truncated"])
           with (raw_truncated m));
        destruct (raw_truncated m); intros; eauto; done. }
  intros d8 h8; cbv beta; intros Ht8.
  pose proof (normalize_canonical utd env m N O A R T Hflat Henv HO HA HR HT) as Hcan.
  eapply returns_bind.
  { eapply (unsqueeze_returns _ _ _ _ _ (to_dtype (reward_spec <$> env) R)); [done|].
    destruct env as [e|]; unfold env_contents;
        [rewrite (env_ok_spec e Henv); cbn [foldl fst snd]|];
        td_lookup; by rewrite HR. }
  intros d9 h9; cbv beta; intros Ht9.
  change (table h h9 d9 (normalize_contents utd env m)) in Ht9.
  pose proof (rows_normalize utd env m N Hflat Henv) as Hrn.
  apply derive_next_table, attach_next_table in Ht9.
  apply rows_derive_next, rows_attach_next in Hrn.
  destruct (derive_attach_transitions _ _ _ _ _ _ _ Hcan) as [Hcan' _].
  destruct (canonical_shiftable _ _ _ _ _ _ _ (N - 1) Hcan' Hrn)
    as (HR' & HRne & Hs1 & Hs2 & Hs3); [lia|].
  eapply returns_bind; [by apply td_clone_returns|].
  intros d10 h10; cbv beta; intros (Ht10 & Hsep & Hdis).
  eapply returns_bind; [by eapply _shift_reward_done_returns|].
  intros d11 h11; cbv beta; intros (Ht11 & Hsub & Hsep' & Hdis' & Hfresh).
  apply returns_ret; cbv beta. cbn [fst snd].
  split; [|done]. split; [exact Ht11|]. split; auto.
Qed.

(** ** The construction from a dataset of transitions *)

Lemma transition_table_inv (N : nat) (m : gmap key buffer) :
  transition_table N m = true →
  flat_table N m = true
  ∧ ∃ NO, m !! ["next_observations"] = Some NO ∧ length NO = N.
Proof.
  unfold transition_table. rewrite andb_true_iff. intros [Hflat HNO].
  split; [done|]. apply has_leaf_true in HNO as [NO HNO]. exists NO.
  split; [done|]. destruct (flat_table_inv N m Hflat)
    as (_ & _ & _ & _ & _ & _ & _ & _ & _ & _ & _ & _ & Hrows & _).
  by eapply raw_rows_lookup.
Qed.

Lemma match_dtypes_direct_returns h0 h d m env O NO A R :
  table h0 h d m → env_ok env = true →
  m !! ["observation"] = Some O → m !! ["next"; "observation"] = Some NO →
  m !! ["action"] = Some A → m !! ["reward"] = Some R →
  returns (match_dtypes_direct env d) h
    (λ d' h', table h0 h' d' (direct_env_contents env m)).
Proof.
  intros Ht Henv HO HNO HA HR. unfold match_dtypes_direct, direct_env_contents.
  rewrite (env_ok_spec env Henv). cbn [for_each foldl fst snd].
  eapply returns_bind.
  { eapply returns_bind.
    - eapply returns_bind; [by eapply convert_returns|].
      intros d1 h1; cbv beta; intros Ht1.
      eapply convert_returns; [done|]. by td_lookup.
    - intros d1 h1; cbv beta; intros Ht1. apply returns_ret. exact Ht1. }
  intros d1 h1; cbv beta; intros Ht1.
  eapply returns_bind.
  { eapply convert_returns; [done|]. by td_lookup. }
  intros d2 h2; cbv beta; intros Ht2.
  eapply convert_returns; [done|]. by td_lookup.
Qed.

Lemma clear_next_table h0 h d m :
  table h0 h d m →
  table h0 h (td_set ["next"] (td_select [] d) d) (clear_next_contents m).
Proof.
  intros [H0 Hrep]. split; [done|]. unfold clear_next_contents.
  apply rep_td_set; [|done]. by apply rep_td_select.
Qed.

Lemma rows_clear_next (N : nat) (m : gmap key buffer) :
  rows N m → rows N (clear_next_contents m).
Proof.
  intros Hr. unfold clear_next_contents.
  apply rows_td_set; [by apply rows_td_select|done].
Qed.

Section direct.
Variables (utd : bool) (env : GymEnv) (m : gmap key buffer) (N : nat).
Variables (O NO A R T : buffer).
Hypothesis Hflat : flat_table N m = true.
Hypothesis Henv : env_ok env = true.
Hypothesis HO : m !! ["observations"] = Some O.
Hypothesis HNO : m !! ["next_observations"] = Some NO.
Hypothesis HA : m !! ["actions"] = Some A.
Hypothesis HR : m !! ["rewards"] = Some R.
Hypothesis HT : m !! ["terminals"] = Some T.

Let m4 := rename_timeouts_contents
            (td_rename "terminals" ["terminated"]
               (td_rename "next_observations" ["next"; "observation"]
                  (clear_next_contents
                     (td_rename "observations" ["observation"]
                        (td_del ["metadata"] m))))).

Let m7 := td_rename "actions" ["action"]
            (td_rename "rewards" ["reward"] (set_done_contents utd m4)).

Lemma direct_truncated : m4 !! ["truncated"] = raw_truncated m.
Proof.
  unfold m4. rewrite lookup_rename_timeouts_contents.
  cbn [below String.eqb Ascii.eqb Bool.eqb andb drop].
  td_in_simpl. unfold raw_truncated.
  destruct (td_in "timeouts" m); by td_lookup.
Qed.

Lemma direct_in_truncated :
  td_in "truncated" m7
  = match raw_truncated m with Some _ => true | None => false end.
Proof.
  destruct (flat_table_inv N m Hflat)
    as (_ & _ & _ & _ & _ & _ & _ & _ & _ & _ & _ & _ & _ & Hin & _).
  unfold m7, m4. td_in_simpl. exact Hin.
Qed.

Lemma direct_fields :
  m7 !! ["observation"] = Some O ∧ m7 !! ["next"; "observation"] = Some NO
  ∧ m7 !! ["action"] = Some A ∧ m7 !! ["reward"] = Some R
  ∧ m7 !! ["terminated"] = Some T
  ∧ m7 !! ["done"] = Some (raw_done utd T (raw_truncated m))
  ∧ m7 !! ["truncated"] = raw_truncated m
  ∧ ∀ rest, m7 !! ("next" :: "truncated" :: rest) = None.
Proof.
  assert (HT4 : m4 !! ["terminated"] = Some T).
  { unfold m4. td_lookup. by rewrite HT. }
  split_and!.
  - unfold m7, m4. td_lookup. by rewrite HO.
  - unfold m7, m4. td_lookup. by rewrite HNO.
  - unfold m7, m4. td_lookup. by rewrite HA.
  - unfold m7, m4. td_lookup. by rewrite HR.
  - unfold m7. td_lookup. by rewrite HT4.
  - unfold m7. td_lookup. unfold done_rows, col.
    by rewrite HT4, direct_truncated.
  - unfold m7. td_lookup. apply direct_truncated.
  - intros rest. unfold m7, m4. by td_lookup.
Qed.

Lemma direct_rows : rows N m7.
Proof.
  destruct (flat_table_inv N m Hflat)
    as (_ & _ & _ & T' & _ & _ & _ & HT' & _ & _ & _ & HlT & Hrows & _ & HU).
  assert (T' = T) as -> by congruence.
  assert (HT4 : m4 !! ["terminated"] = Some T).
  { unfold m4. td_lookup. by rewrite HT. }
  unfold m7. apply rows_td_rename, rows_td_rename, rows_td_set_leaf.
  - unfold done_rows. rewrite (col_lookup _ _ _ HT4), direct_truncated.
    by apply raw_done_length.
  - unfold m4. apply rows_rename_timeouts, rows_td_rename, rows_td_rename.
    by apply rows_clear_next, rows_td_rename, rows_raw.
Qed.

Lemma direct_normalize_eq :
  direct_normalize_contents utd env m
  = unsqueeze_contents ["reward"]
      (format_done_contents (direct_env_contents env m7)).
Proof. reflexivity. Qed.

Let m8 := direct_env_contents env m7.

Lemma direct_env_fields :
  rows N m8
  ∧ m8 !! ["observation"] = Some (map (map (obs_dtype env)) O)
  ∧ m8 !! ["next"; "observation"] = Some (map (map (obs_dtype env)) NO)
  ∧ m8 !! ["action"] = Some (map (map (action_spec env)) A)
  ∧ m8 !! ["reward"] = Some (map (map (reward_spec env)) R)
  ∧ m8 !! ["terminated"] = Some T
  ∧ m8 !! ["done"] = Some (raw_done utd T (raw_truncated m))
  ∧ m8 !! ["truncated"] = raw_truncated m
  ∧ td_in "truncated" m8
    = match raw_truncated m with Some _ => true | None => false end
  ∧ ∀ rest, m8 !! ("next" :: "truncated" :: rest) = None.
Proof.
  destruct direct_fields as (H1 & H2 & H3 & H4 & H5 & H6 & H7 & H8).
  unfold m8, direct_env_contents. rewrite (env_ok_spec env Henv).
  cbn [foldl fst snd]. split_and!.
  - apply rows_convert; [by td_lookup; rewrite H4|].
    apply rows_convert; [by td_lookup; rewrite H3|].
    apply rows_convert; [by td_lookup; rewrite H2|].
    apply rows_convert; [by rewrite H1|]. apply direct_rows.
  - td_lookup. by rewrite H1.
  - td_lookup. by rewrite H2.
  - td_lookup. by rewrite H3.
  - td_lookup. by rewrite H4.
  - td_lookup. by rewrite H5.
  - td_lookup. by rewrite H6.
  - td_lookup. by rewrite H7.
  - td_in_simpl. apply direct_in_truncated.
  - intros rest. td_lookup. apply H8.
Qed.

Lemma direct_normalize_canonical :
  canonical (direct_normalize_contents utd env m)
    (map (map (obs_dtype env)) O)
    (map (map (action_spec env)) A)
    (map (map (reward_spec env)) R)
    (map (map to_bool) T)
    (map (map to_bool) (raw_done utd T (raw_truncated m)))
    (map (map to_bool) <$> raw_truncated m)
  ∧ direct_normalize_contents utd env m !! ["next"; "observation"]
    = Some (map (map (obs_dtype env)) NO)
  ∧ (∀ rest, direct_normalize_contents utd env m
             !! ("next" :: "truncated" :: rest) = None)
  ∧ rows N (direct_normalize_contents utd env m).
Proof.
  destruct direct_env_fields
    as (Hr & H1 & H2 & H3 & H4 & H5 & H6 & H7 & H8 & H9).
  rewrite direct_normalize_eq. fold m8.
  split; [|split; [|split]].
  - unfold canonical. split_and!.
    + td_lookup. by rewrite H1.
    + td_lookup. by rewrite H3.
    + td_lookup. by rewrite H4.
    + td_lookup. by rewrite H5.
    + td_lookup. by rewrite H6.
    + td_lookup. rewrite H8, H7. by destruct (raw_truncated m).
    + td_in_simpl. rewrite H8. by destruct (raw_truncated m).
  - td_lookup. by rewrite H2.
  - intros rest. td_lookup. apply H9.
  - apply rows_td_set_leaf.
    + apply rows_col.
      * apply rows_format_done; [by rewrite H6|by rewrite H5| |done].
        rewrite H8, H7. by destruct (raw_truncated m).
      * td_lookup. rewrite H4. eauto.
    + apply rows_format_done; [by rewrite H6|by rewrite H5| |done].
      rewrite H8, H7. by destruct (raw_truncated m).
Qed.

End direct.

Lemma returns_eq {A : Type} (c : M A) (h : heap) (a : A) (h' : heap) :
  c h = Ok (a, h') → returns c h (λ a' h'', a' = a ∧ h'' = h').
Proof. intros Hc. by exists a, h'. Qed.

Lemma _get_dataset_direct_returns (w : World) (utd : bool) (name : string)
    (env_kwargs : list (string * Z)) (h0 h : heap) (d : gmap key tensor)
    (m : gmap key buffer) (N : nat) :
  has_d4rl w = true → qlearning_dataset w name env_kwargs h0 = Ok (d, h) →
  rep h d m → transition_table N m = true → env_ok (gym_make w name) = true →
  1 ≤ N →
  returns (_get_dataset_direct w utd name env_kwargs) h0
    (λ r h', own_table h h' r.1.1 (direct_contents utd (gym_make w name) m)
             ∧ r.1.2 = (extract_metadata d).2 ∧ r.2 = Some (gym_make w name)).
Proof.
  intros Hd4rl Hq Hrep Htt Henv HN.
  destruct (transition_table_inv N m Htt) as (Hflat & NO & HNO & HlNO).
  destruct (flat_table_inv N m Hflat)
    as (O & A & R & T & HO & HA & HR & HT & HlO & HlA & HlR & HlT
        & Hrows & Hin & HU).
  set (env := gym_make w name) in *.
  destruct (direct_fields utd m O NO A R T HO HNO HA HR HT)
    as (F1 & F2 & F3 & F4 & F5 & F6 & F7 & F8).
  destruct (direct_env_fields utd env m N O NO A R T Hflat Henv HO HNO HA HR HT)
    as (Er & E1 & E2 & E3 & E4 & E5 & E6 & E7 & E8 & E9).
  destruct (direct_normalize_canonical utd env m N O NO A R T
              Hflat Henv HO HNO HA HR HT) as (Hcan & HcNO & Hcnt & Hcr).
  pose proof (direct_truncated m) as Htrunc. cbv zeta in Htrunc.
  assert (Ht : table h h (extract_metadata d).1 (td_del ["metadata"] m)).
  { by apply extract_metadata_table. }
  unfold _get_dataset_direct. rewrite Hd4rl. cbn [negb]. fold env.
  eapply returns_bind.
  { exact (returns_eq _ _ _ _ Hq). }
  intros ? ?; cbv beta; intros [-> ->].
  destruct (extract_metadata d) as [d0 md]. cbn [fst snd] in *.
  eapply returns_bind.
  { apply rename_returns; [done|]. apply (td_in_leaf _ _ O). by td_lookup. }
  intros d1 h1; cbv beta; intros Ht1.
  apply clear_next_table in Ht1.
  eapply returns_bind.
  { apply rename_returns; [done|]. apply (td_in_leaf _ _ NO). by td_lookup. }
  intros d2 h2; cbv beta; intros Ht2.
  eapply returns_bind.
  { apply rename_returns; [done|]. apply (td_in_leaf _ _ T). by td_lookup. }
  intros d3 h3; cbv beta; intros Ht3.
  eapply returns_bind; [by apply rename_timeouts_returns|].
  intros d4 h4; cbv beta; intros Ht4.
  eapply returns_bind.
  { eapply (set_done_returns _ _ _ _ utd T); [done| |].
    - td_lookup. by rewrite HT.
    - intros U. rewrite Htrunc. intros HmU. rewrite (HU U HmU). done. }
  intros d5 h5; cbv beta; intros Ht5.
  eapply returns_bind.
  { apply rename_returns; [done|]. apply (td_in_leaf _ _ R). by td_lookup. }
  intros d6 h6; cbv beta; intros Ht6.
  eapply returns_bind.
  { apply rename_returns; [done|]. apply (td_in_leaf _ _ A). by td_lookup. }
  intros d7 h7; cbv beta; intros Ht7.
  eapply returns_bind.
  { by eapply (match_dtypes_direct_returns _ _ _ _ env O NO A R). }
  intros d8 h8; cbv beta; intros Ht8.
  eapply returns_bind.
  { eapply format_done_returns; [done|exact E6|exact E5|].
    rewrite E8, E7. by destruct (raw_truncated m). }
  intros d9 h9; cbv beta; intros Ht9.
  eapply returns_bind.
  { eapply unsqueeze_returns; [done|]. rewrite lookup_format_done_contents.
    cbn [below String.eqb Ascii.eqb Bool.eqb andb]. unfold convert_contents.
    rewrite !lookup_td_set_leaf_ne by reflexivity. exact E4. }
  intros d10 h10; cbv beta; intros Ht10.
  change (table h h10 d10 (direct_normalize_contents utd env m)) in Ht10.
  apply attach_next_table in Ht10.
  apply rows_attach_next in Hcr.
  destruct (attach_transitions _ _ _ _ _ _ _ _ Hcan HcNO Hcnt) as [Hcan' _].
  destruct (canonical_shiftable _ _ _ _ _ _ _ N Hcan' Hcr)
    as (HR' & HRne & Hs1 & Hs2 & Hs3); [lia|].
  eapply returns_bind; [by apply td_clone_returns|].
  intros d11 h11; cbv beta; intros (Ht11 & Hsep & Hdis).
  eapply returns_bind; [by eapply _shift_reward_done_returns|].
  intros d12 h12; cbv beta; intros (Ht12 & Hsub & Hsep' & Hdis' & Hfresh).
  apply returns_ret; cbv beta. cbn [fst snd].
  split; [|done]. split; [exact Ht12|]. split; auto.
Qed.

(** ** Zeroing the next observation of terminal steps *)

Lemma column_rep (h : heap) (d : gmap key tensor) (m : gmap key buffer) (k : key) :
  rep h d m → column h d k = m !! k.
Proof.
  intros Hrep. unfold column. destruct (m !! k) as [b|] eqn:Hm.
  - destruct (rep_lookup _ _ _ _ _ Hrep Hm) as (t & -> & Hr). done.
  - by rewrite (rep_lookup_None _ _ _ _ Hrep Hm).
Qed.

Lemma fill_unknown_next_states_returns (h0 h : heap) (d : gmap key tensor)
    (m : gmap key buffer) (NO D : buffer) :
  own_table h0 h d m →
  m !! ["next"; "observation"] = Some NO → m !! ["next"; "done"] = Some D →
  length D = length NO →
  returns (fill_unknown_next_states d) h
    (λ _ h', own_table h0 h' d (fill_contents m)).
Proof.
  intros ([H0 Hrep] & Hsep & Hdis) HNO HD Hlen.
  destruct (rep_lookup _ _ _ _ _ Hrep HNO) as (tobs & Hdo & Hro).
  destruct (rep_lookup _ _ _ _ _ Hrep HD) as (tdone & Hdd & Hrd).
  unfold fill_unknown_next_states.
  eapply returns_bind.
  { eapply returns_lift with (Q := λ t' h', t' = tobs ∧ h' = h); [|done].
    unfold td_leaf. by rewrite Hdo. }
  intros ? ?; cbv beta; intros [-> ->].
  eapply returns_bind.
  { eapply returns_lift with (Q := λ t' h', t' = tdone ∧ h' = h); [|done].
    unfold td_leaf. by rewrite Hdd. }
  intros ? ?; cbv beta; intros [-> ->].
  unfold setitem_mask_zero.
  eapply returns_bind.
  { by apply (load_returns h tdone D (λ b' h', b' = D ∧ h' = h)). }
  intros ? ?; cbv beta; intros [-> ->].
  eapply returns_bind.
  { by apply (load_returns h tobs NO (λ b' h', b' = NO ∧ h' = h)). }
  intros ? ?; cbv beta; intros [-> ->].
  rewrite decide_True by done.
  eapply returns_mono.
  { apply (store_returns h tobs NO (mask_fill NO D)); [done|].
    rewrite mask_fill_length by done. by eapply read_length. }
  cbv beta. intros [] h' (Hr' & buf' & ->).
  assert (Hp0 : h0 !! data_ptr tobs = None).
  { apply not_elem_of_dom. by eapply Hdis. }
  split; [split|done].
  - by apply insert_subseteq_r.
  - apply rep_intro. intros k. rewrite lookup_fill_contents.
    destruct (below ["next"; "observation"] k && below k ["next"; "observation"])
      eqn:Hb.
    + apply andb_true_iff in Hb as [Hb1 Hb2].
      rewrite <- (below_antisym _ _ Hb1 Hb2), Hdo. simpl. rewrite Hr'.
      by rewrite (col_lookup _ _ _ HNO), (col_lookup _ _ _ HD).
    + destruct (d !! k) as [t|] eqn:Hk.
      * destruct (rep_lookup_tensor _ _ _ _ _ Hrep Hk) as (b & -> & Hr).
        simpl. rewrite read_insert_ne; [by rewrite Hr|].
        intros Heq. rewrite (Hsep _ _ _ _ Hk Hdo Heq), below_refl in Hb. done.
      * destruct (m !! k) as [b|] eqn:Hm; [|done].
        destruct (rep_lookup _ _ _ _ _ Hrep Hm) as (t & Ht & _). congruence.
Qed.

(** ** The finished table *)

Lemma transitions_shifted (m : gmap key buffer) (O NO A R T D : buffer)
    (U : option buffer) :
  transitions m O NO A R T D U →
  shift_reward_done_contents m !! ["next"; "observation"] = Some NO
  ∧ shift_reward_done_contents m !! ["next"; "done"] = Some D.
Proof.
  intros (_ & HNO & _ & _ & HND & _). split; by td_lookup.
Qed.

Lemma kept_length (md : mode) (N : nat) (b : buffer) :
  length b = N → length (kept md b) = rows_out md N.
Proof. intros <-. destruct md; simpl; [apply init_rows_length|done]. Qed.

Lemma final_contents_unshifted (md : mode) (utd : bool) (env : option GymEnv)
    (m : gmap key buffer) :
  final_contents md utd env m
  = fill_contents (shift_reward_done_contents (unshifted md utd env m)).
Proof. by destruct md. Qed.

Lemma raw_ok_rows_out (md : mode) (N : nat) (m : gmap key buffer) :
  raw_ok md N m = true → 1 ≤ rows_out md N.
Proof.
  destruct md; simpl; rewrite andb_true_iff, bool_decide_eq_true; lia.
Qed.

Lemma unshifted_transitions (md : mode) (utd : bool) (env : option GymEnv)
    (m : gmap key buffer) (N : nat) :
  raw_ok md N m = true → env_wf env → (md = Prebuilt → is_Some env) →
  transitions (unshifted md utd env m)
    (kept md (pre_observation env m)) (pre_next_observation md env m)
    (kept md (pre_action env m)) (kept md (pre_reward env m))
    (kept md (pre_terminated m)) (kept md (pre_done utd m))
    (kept md <$> pre_truncated m)
  ∧ rows (rows_out md N) (unshifted md utd env m).
Proof.
  intros Hok Henv Hmd. destruct md; simpl in Hok;
    apply andb_true_iff in Hok as [Hraw HN%bool_decide_eq_true].
  - destruct (flat_table_inv N m Hraw)
      as (O & A & R & T & HO & HA & HR & HT & _).
    unfold pre_observation, pre_next_observation, pre_action, pre_reward,
      pre_terminated, pre_done, pre_truncated, pre_observation.
    rewrite (col_lookup _ _ _ HO), (col_lookup _ _ _ HA),
      (col_lookup _ _ _ HR), (col_lookup _ _ _ HT).
    split.
    + apply derive_attach_transitions.
      by apply (normalize_canonical utd env m N).
    + apply rows_attach_next, rows_derive_next. by apply rows_normalize.
  - destruct Hmd as [e ->]; [done|]. simpl in Henv.
    destruct (transition_table_inv N m Hraw) as (Hflat & NO & HNO & HlNO).
    destruct (flat_table_inv N m Hflat)
      as (O & A & R & T & HO & HA & HR & HT & _).
    destruct (direct_normalize_canonical utd e m N O NO A R T
                Hflat Henv HO HNO HA HR HT) as (Hcan & HcNO & Hcnt & Hcr).
    unfold pre_observation, pre_next_observation, pre_action, pre_reward,
      pre_terminated, pre_done, pre_truncated.
    rewrite (col_lookup _ _ _ HO), (col_lookup _ _ _ HA),
      (col_lookup _ _ _ HR), (col_lookup _ _ _ HT), (col_lookup _ _ _ HNO).
    assert (Hk : kept Prebuilt <$> (map (map to_bool) <$> raw_truncated m)
                 = map (map to_bool) <$> raw_truncated m).
    { by destruct (raw_truncated m). }
    rewrite Hk.
    cbn [unshifted env_of default kept fmap option_fmap option_map to_dtype rows_out].
    split.
    + by apply attach_transitions.
    + by apply rows_attach_next.
Qed.

Lemma transitions_shiftable (m : gmap key buffer) (O NO A R T D : buffer)
    (U : option buffer) (N : nat) :
  transitions m O NO A R T D U → rows N m → 1 ≤ N →
  m !! ["reward"] = Some R ∧ R ≠ []
  ∧ shiftable "done" m ∧ shiftable "terminated" m ∧ shiftable "truncated" m.
Proof. intros [Hcan _]. by apply (canonical_shiftable m O A R T D U). Qed.

Lemma final_finished (md : mode) (utd : bool) (env : option GymEnv)
    (m : gmap key buffer) (N : nat) :
  raw_ok md N m = true → env_wf env → (md = Prebuilt → is_Some env) →
  finished (final_contents md utd env m)
    (kept md (pre_observation env m)) (pre_next_observation md env m)
    (kept md (pre_action env m)) (kept md (pre_reward env m))
    (kept md (pre_terminated m)) (kept md (pre_done utd m))
    (kept md <$> pre_truncated m)
  ∧ rows (rows_out md N) (final_contents md utd env m).
Proof.
  intros Hok Henv Hmd.
  destruct (unshifted_transitions md utd env m N Hok Henv Hmd) as [Htr Hrows].
  rewrite final_contents_unshifted. split; [by apply transitions_finished|].
  destruct (transitions_shifted _ _ _ _ _ _ _ _ Htr) as [HNO HND].
  destruct Htr as ((HO & HA & HR & HT & HD & HU & Hin) & _).
  apply rows_fill; [by rewrite HNO|by rewrite HND|].
  apply rows_shift_reward_done; [by rewrite HR| |done].
  intros name Hname Hel.
  repeat (apply elem_of_cons in Hel as [->|Hel]); [by rewrite HD|by rewrite HT| |].
  - rewrite Hin in Hname. rewrite HU. by destruct (pre_truncated m).
  - by apply elem_of_nil in Hel.
Qed.

(** ** The constructor, without trajectory splitting *)

Lemma finish_returns (md : mode) (utd : bool) (env : option GymEnv)
    (m : gmap key buffer) (N : nat) (h0 h : heap) (d : gmap key tensor) :
  raw_ok md N m = true → env_wf env → (md = Prebuilt → is_Some env) →
  own_table h0 h d (shift_reward_done_contents (unshifted md utd env m)) →
  returns (fill_unknown_next_states d) h
    (λ _ h', own_table h0 h' d (final_contents md utd env m)).
Proof.
  intros Hok Henv Hmd Hown.
  destruct (unshifted_transitions md utd env m N Hok Henv Hmd) as [Htr Hrows].
  destruct (transitions_shifted _ _ _ _ _ _ _ _ Htr) as [HNO HND].
  rewrite final_contents_unshifted.
  eapply fill_unknown_next_states_returns; [done|exact HNO|exact HND|].
  destruct Htr as (_ & HNO' & _ & _ & HND' & _).
  by rewrite (rows_lookup _ _ _ _ Hrows HNO'), (rows_lookup _ _ _ _ Hrows HND').
Qed.

Lemma loads_mode_env (w : World) (name : string) (kw : list (string * Z))
    (h0 : heap) (d : gmap key tensor) (h : heap) (dd fe : bool) (md : mode)
    (env : option GymEnv) :
  loads w name kw h0 d h dd fe md env → md = Prebuilt → is_Some env.
Proof. intros []; intros; by eauto. Qed.

Lemma __init___cases (w : World) (name : string) (split utd : bool)
    (kw : list (string * Z)) (h0 : heap) (d : gmap key tensor) (h : heap)
    (dd fe : bool) (md : mode) (env : option GymEnv) (m : gmap key buffer)
    (N : nat) (Q : Replay → heap → Prop) :
  loads w name kw h0 d h dd fe md env → rep h d m →
  raw_ok md N m = true → env_wf env →
  (∀ ds h', own_table h h' ds (final_contents md utd env m) →
     returns
       (if split then
          let* episodes := split_trajectories ds in
          let* episodes := lift (set_last_done episodes) in
          ret {| storage := Split episodes;
                 metadata := (extract_metadata d).2; specs := env |}
        else ret {| storage := Flat ds;
                    metadata := (extract_metadata d).2; specs := env |})
       h' Q) →
  returns (__init__ w name split fe utd dd kw) h0 Q.
Proof.
  intros Hl Hrep Hok Henv Htail.
  pose proof (loads_mode_env _ _ _ _ _ _ _ _ _ _ Hl) as Hmd.
  unfold __init__.
  eapply returns_bind.
  { instantiate (1 := λ r h', own_table h h' r.1.1
                     (shift_reward_done_contents (unshifted md utd env m))
                   ∧ r.1.2 = (extract_metadata d).2 ∧ r.2 = env).
    destruct Hl as [fe url -> Hurl Hh5 | Hd4 -> Hget | Hd4 Hq].
    - cbn [negb]. unfold _get_dataset_direct_download. rewrite Hurl.
      eapply returns_bind; [exact (returns_eq _ _ _ _ Hh5)|].
      intros ? ?; cbv beta; intros [-> ->].
      simpl in Hok. apply andb_true_iff in Hok as [Hraw HN%bool_decide_eq_true].
      by apply (_process_data_from_env_returns utd None h d m N).
    - cbn [negb]. rewrite Hd4. cbn [negb]. unfold _get_dataset_from_env.
      eapply returns_bind; [exact (returns_eq _ _ _ _ Hget)|].
      intros ? ?; cbv beta; intros [-> ->].
      simpl in Hok. apply andb_true_iff in Hok as [Hraw HN%bool_decide_eq_true].
      by apply (_process_data_from_env_returns utd _ h d m N).
    - cbn [negb]. rewrite Hd4. cbn [negb].
      simpl in Hok. apply andb_true_iff in Hok as [Hraw HN%bool_decide_eq_true].
      by apply (_get_dataset_direct_returns w utd name kw h0 h d m N). }
  intros [[ds md'] sp] h1; cbv beta; cbn [fst snd]; intros (Hown & -> & ->).
  eapply returns_bind; [by eapply finish_returns|].
  intros [] h2; cbv beta; intros Hown2.
  by apply Htail.
Qed.

Lemma __init___returns (w : World) (name : string) (utd : bool)
    (kw : list (string * Z)) (h0 : heap) (d : gmap key tensor) (h : heap)
    (dd fe : bool) (md : mode) (env : option GymEnv) (m : gmap key buffer)
    (N : nat) :
  loads w name kw h0 d h dd fe md env → rep h d m →
  raw_ok md N m = true → env_wf env →
  returns (__init__ w name false fe utd dd kw) h0
    (λ rb h', ∃ ds, storage rb = Flat ds
                    ∧ own_table h h' ds (final_contents md utd env m)
                    ∧ metadata rb = (extract_metadata d).2
                    ∧ specs rb = env).
Proof.
  intros Hl Hrep Hok Henv.
  apply (__init___cases w name false utd kw h0 d h dd fe md env m N);
    [done..|].
  intros ds h' Hown. apply returns_ret. by exists ds.
Qed.

(** ** Rows of shifted, kept and masked columns *)

Lemma init_rows_lookup (b : buffer) (t : nat) :
  t < length b - 1 → init_rows b !! t = b !! t.
Proof. intros Ht. unfold init_rows. by rewrite lookup_take_lt. Qed.

Lemma shift_rows_shifted_down (b : buffer) : shifted_down (shift_rows b) b.
Proof.
  split; [apply shift_rows_length|]. destruct b as [|r rest]; [done|].
  split; [done|]. intros t [H1 Ht]. destruct t as [|t]; [lia|].
  simpl in *. rewrite Nat.sub_0_r. apply init_rows_lookup. simpl. lia.
Qed.

Lemma kept_agree (md : mode) (N : nat) (b : buffer) :
  length b = N → agree (rows_out md N) (kept md b) b.
Proof.
  intros Hlen t Ht. destruct md; simpl in *; [|done].
  apply init_rows_lookup. lia.
Qed.

Lemma mask_fill_lookup (v mask : buffer) (t : nat) (flag : row) :
  mask !! t = Some flag →
  mask_fill v mask !! t
  = (λ x, if row_true flag then zeros_like x else x) <$> v !! t.
Proof.
  intros Hm. unfold mask_fill. rewrite lookup_zip_with, Hm.
  by destruct (v !! t).
Qed.

(** ** C1: the temporal shift *)

Lemma step_table_inv (N : nat) (m : gmap key buffer) :
  step_table N m = true →
  (∃ R, m !! ["reward"] = Some R)
  ∧ (∀ name, name ∈ ["done"; "terminated"; "truncated"] →
             td_in name m = true → is_Some (m !! [name]))
  ∧ ∀ name b, name ∈ ["reward"; "done"; "terminated"; "truncated"] →
              m !! [name] = Some b → length b = N.
Proof.
  unfold step_table. rewrite !andb_true_iff, !forallb_forall.
  intros [[HR Hleaf] Hlen]. split; [by apply has_leaf_true|]. split.
  - intros name Hel Hin. apply list_elem_of_In, Hleaf in Hel.
    destruct (leaf_or_absent_true _ _ Hel Hin). eauto.
  - intros name b Hel Hb. apply list_elem_of_In, Hlen in Hel.
    rewrite Hb in Hel. by apply bool_decide_eq_true in Hel.
Qed.

(** C1.  On a table of steps with [N >= 1] rows, [_shift_reward_done]
    returns; each of reward, done, terminated and truncated that the
    table holds then reads, at every row [t] with [1 <= t <= N-1], the
    value the field had at row [t-1] before the shift, and zeros at row
    0; a field that is absent stays absent.  Every buffer of the store is
    left as it was ([h ⊆ h']) and the shifted fields live in storage that
    did not exist before: the shift works on copies. *)
Theorem shift_reward_done_correct (h : heap) (d : gmap key tensor)
    (m : gmap key buffer) (N : nat) :
  rep h d m → step_table N m = true → 1 ≤ N →
  returns (_shift_reward_done d) h (λ d' h',
    h ⊆ h' ∧ fresh_fields h d'
    ∧ ∀ name, name ∈ ["reward"; "done"; "terminated"; "truncated"] →
        match column h d [name] with
        | Some pre =>
            column h' d [name] = Some pre
            ∧ ∃ post, column h' d' [name] = Some post ∧ length post = N
                      ∧ post !! 0 = zeros_like <$> pre !! 0
                      ∧ ∀ t, 1 ≤ t < N → post !! t = pre !! (t - 1)
        | None => column h' d' [name] = None
        end).
Proof.
  intros Hrep Hst HN.
  destruct (step_table_inv N m Hst) as ([R HR] & Hleaf & Hlen).
  assert (Hne : ∀ name b, name ∈ ["reward"; "done"; "terminated"; "truncated"] →
                          m !! [name] = Some b → b ≠ []).
  { intros name b Hel Hb ->. apply Hlen in Hb; [|done]. simpl in Hb. lia. }
  assert (Hsh : ∀ name, name ∈ ["done"; "terminated"; "truncated"] →
                        shiftable name m).
  { intros name Hel Hin. destruct (Hleaf name Hel Hin) as [b Hb].
    exists b. split; [done|]. apply (Hne name); [set_solver|done]. }
  eapply returns_mono.
  { apply (_shift_reward_done_returns h h d m R); [done|done| | | |].
    - apply (Hne "reward"); [set_solver|done].
    - apply Hsh. set_solver.
    - apply Hsh. set_solver.
    - apply Hsh. set_solver. }
  cbv beta. intros d' h' ([_ Hrep'] & Hsub & _ & _ & Hfresh).
  split; [done|]. split; [done|]. intros name Hel.
  rewrite (column_rep h d m _ Hrep), (column_rep h' d' _ _ Hrep').
  rewrite (column_rep h' d m _ (rep_weaken _ _ _ _ Hsub Hrep)).
  assert (Hlk : shift_reward_done_contents m !! [name]
                = shift_rows <$> m !! [name]).
  { apply list_elem_of_In in Hel. simpl in Hel.
    destruct Hel as [<-|[<-|[<-|[<-|[]]]]].
    - td_lookup. by rewrite HR.
    - td_lookup. destruct (td_in "done" m) eqn:Hin.
      + destruct (Hleaf "done") as [b Hb]; [set_solver|done|]. by rewrite Hb.
      + by rewrite (td_in_false_lookup _ _ [] Hin).
    - td_lookup. destruct (td_in "terminated" m) eqn:Hin.
      + destruct (Hleaf "terminated") as [b Hb]; [set_solver|done|]. by rewrite Hb.
      + by rewrite (td_in_false_lookup _ _ [] Hin).
    - td_lookup. destruct (td_in "truncated" m) eqn:Hin.
      + destruct (Hleaf "truncated") as [b Hb]; [set_solver|done|]. by rewrite Hb.
      + by rewrite (td_in_false_lookup _ _ [] Hin). }
  rewrite Hlk. destruct (m !! [name]) as [pre|] eqn:Hpre; [|done].
  split; [done|]. exists (shift_rows pre).
  destruct (shift_rows_shifted_down pre) as (Hl & H0 & Ht).
  rewrite (Hlen name pre Hel Hpre) in *. done.
Qed.

Lemma shift_reward_done_correct_witness :
  returns (_shift_reward_done ex_steps) ex_heap (λ d' h',
    ex_heap ⊆ h' ∧ fresh_fields ex_heap d'
    ∧ ∀ name, name ∈ ["reward"; "done"; "terminated"; "truncated"] →
        match column ex_heap ex_steps [name] with
        | Some pre =>
            column h' ex_steps [name] = Some pre
            ∧ ∃ post, column h' d' [name] = Some post ∧ length post = 5
                      ∧ post !! 0 = zeros_like <$> pre !! 0
                      ∧ ∀ t, 1 ≤ t < 5 → post !! t = pre !! (t - 1)
        | None => column h' d' [name] = None
        end).
Proof.
  apply (shift_reward_done_correct ex_heap ex_steps ex_steps_contents 5).
  - unfold rep. apply (bool_decide_unpack _). vm_compute. exact I.
  - vm_compute. reflexivity.
  - lia.
Defined.

(** ** The finished table *)

Lemma __init___finished (w : World) (name : string) (utd : bool)
    (kw : list (string * Z)) (h0 : heap) (d : gmap key tensor) (h : heap)
    (dd fe : bool) (md : mode) (env : option GymEnv) (m : gmap key buffer)
    (N : nat) :
  loads w name kw h0 d h dd fe md env → rep h d m →
  raw_ok md N m = true → env_wf env →
  returns (__init__ w name false fe utd dd kw) h0
    (λ rb h', ∃ ds, storage rb = Flat ds
                    ∧ h ⊆ h'
                    ∧ rep h' ds (final_contents md utd env m)
                    ∧ (∀ k, column h' ds k = final_contents md utd env m !! k)
                    ∧ metadata rb = (extract_metadata d).2).
Proof.
  intros Hl Hrep Hok Henv.
  eapply returns_mono; [by eapply __init___returns|].
  intros rb h'; cbv beta. intros (ds & Hst & ((Hsub & Hrep') & _) & Hmeta & _).
  exists ds. repeat split; try done. intros k. by apply column_rep.
Qed.

Lemma kept_lookup (md : mode) (b : buffer) (t : nat) :
  t < length (kept md b) → kept md b !! t = b !! t.
Proof.
  destruct md; simpl; [|done]. unfold init_rows. rewrite length_take.
  intros Ht. apply lookup_take_lt. lia.
Qed.

Lemma cell_kept (h : heap) (ds : gmap key tensor) (k : key) (md : mode)
    (b : buffer) (n : nat) :
  column h ds k = Some (kept md b) → length (kept md b) = n →
  holds_rows n h ds k b.
Proof.
  intros Hc Hlen t Ht. unfold cell. rewrite Hc. simpl.
  rewrite kept_lookup by lia.
  destruct (lookup_lt_is_Some_2 (kept md b) t) as [r Hr]; [lia|].
  rewrite kept_lookup in Hr by lia. eauto.
Qed.

Lemma shifted_cells (h : heap) (ds : gmap key tensor) (name : string)
    (c : option buffer) (n : nat) :
  column h ds ["next"; name] = c → column h ds [name] = shift_rows <$> c →
  (∀ b, c = Some b → length b = n) →
  shifted_field n h ds name.
Proof.
  intros Hn Ht Hlen. unfold shifted_field, cell. rewrite Hn, Ht.
  destruct c as [b|]; simpl; [|done].
  destruct (shift_rows_shifted_down b) as (_ & H0 & HS).
  rewrite (Hlen b eq_refl) in HS. done.
Qed.

Section finished_table.
Context (md : mode) (utd : bool) (env : option GymEnv) (m : gmap key buffer)
        (N : nat).
Context (Hok : raw_ok md N m = true) (Henv : env_wf env)
        (Hmd : md = Prebuilt → is_Some env).
Context (h : heap) (ds : gmap key tensor).
Context (Hcol : ∀ k, column h ds k = final_contents md utd env m !! k).

Lemma finished_next_columns :
  column h ds ["next"; "reward"] = Some (kept md (pre_reward env m))
  ∧ column h ds ["next"; "done"] = Some (kept md (pre_done utd m))
  ∧ column h ds ["next"; "terminated"] = Some (kept md (pre_terminated m))
  ∧ column h ds ["next"; "truncated"] = kept md <$> pre_truncated m
  ∧ column h ds ["next"; "observation"]
    = Some (mask_fill (pre_next_observation md env m) (kept md (pre_done utd m)))
  ∧ column h ds ["observation"] = Some (kept md (pre_observation env m)).
Proof.
  destruct (final_finished md utd env m N Hok Henv Hmd)
    as ((HO & HA & HR & HT & HD & HU & HNO & HNR & HNT & HND & HNU) & _).
  rewrite !Hcol. done.
Qed.

Lemma finished_top_columns :
  column h ds ["reward"] = Some (shift_rows (kept md (pre_reward env m)))
  ∧ column h ds ["done"] = Some (shift_rows (kept md (pre_done utd m)))
  ∧ column h ds ["terminated"] = Some (shift_rows (kept md (pre_terminated m)))
  ∧ column h ds ["truncated"] = shift_rows <$> (kept md <$> pre_truncated m).
Proof.
  destruct (final_finished md utd env m N Hok Henv Hmd)
    as ((HO & HA & HR & HT & HD & HU & HNO & HNR & HNT & HND & HNU) & _).
  rewrite !Hcol. done.
Qed.

Lemma finished_length (k : key) (b : buffer) :
  column h ds k = Some b → length b = rows_out md N.
Proof.
  rewrite Hcol. apply rows_lookup.
  by destruct (final_finished md utd env m N Hok Henv Hmd).
Qed.

Lemma finished_next_rows :
  holds_rows (rows_out md N) h ds ["next"; "reward"] (pre_reward env m)
  ∧ holds_rows (rows_out md N) h ds ["next"; "done"] (pre_done utd m)
  ∧ holds_rows (rows_out md N) h ds ["next"; "terminated"] (pre_terminated m)
  ∧ match pre_truncated m with
    | Some u => holds_rows (rows_out md N) h ds ["next"; "truncated"] u
    | None => column h ds ["next"; "truncated"] = None
    end.
Proof.
  destruct finished_next_columns as (HR & HD & HT & HU & _).
  repeat split.
  - apply (cell_kept _ _ _ md); [done|by apply finished_length in HR].
  - apply (cell_kept _ _ _ md); [done|by apply finished_length in HD].
  - apply (cell_kept _ _ _ md); [done|by apply finished_length in HT].
  - destruct (pre_truncated m) as [u|]; [|done]. simpl in HU.
    apply (cell_kept _ _ _ md); [done|by apply finished_length in HU].
Qed.

Lemma finished_shifted (name : string) :
  name ∈ ["reward"; "done"; "terminated"; "truncated"] →
  shifted_field (rows_out md N) h ds name.
Proof.
  destruct finished_next_columns as (HR & HD & HT & HU & _).
  destruct finished_top_columns as (HR' & HD' & HT' & HU').
  intros Hel. apply list_elem_of_In in Hel. simpl in Hel.
  destruct Hel as [<-|[<-|[<-|[<-|[]]]]].
  - apply (shifted_cells _ _ _ (Some (kept md (pre_reward env m)))); [done..|].
    intros b [= <-]. by apply finished_length in HR.
  - apply (shifted_cells _ _ _ (Some (kept md (pre_done utd m)))); [done..|].
    intros b [= <-]. by apply finished_length in HD.
  - apply (shifted_cells _ _ _ (Some (kept md (pre_terminated m)))); [done..|].
    intros b [= <-]. by apply finished_length in HT.
  - apply (shifted_cells _ _ _ (kept md <$> pre_truncated m)); [done..|].
    intros b Hb. rewrite Hb in HU. by apply finished_length in HU.
Qed.

Lemma finished_terminal_rows :
  terminal_rows_zeroed (pre_next_observation md env m) h ds.
Proof.
  destruct finished_next_columns as (_ & HD & _ & _ & HNO & _).
  intros t flag. unfold cell. rewrite HD, HNO. simpl. intros Hflag Htrue.
  rewrite (mask_fill_lookup _ _ _ _ Hflag), Htrue.
  assert (Hlt : t < length (mask_fill (pre_next_observation md env m)
                                      (kept md (pre_done utd m)))).
  { rewrite (finished_length _ _ HNO), <- (finished_length _ _ HD).
    by apply lookup_lt_Some in Hflag. }
  unfold mask_fill in Hlt. rewrite length_zip_with in Hlt.
  destruct (lookup_lt_is_Some_2 (pre_next_observation md env m) t) as [x Hx];
    [lia|].
  exists x. by rewrite Hx.
Qed.
End finished_table.

(** ** C2: terminal invalidation *)

(** C2.  Whatever way the raw table was obtained (download, environment,
    or the library's transitions), the constructor returns a finished
    table in which, at every row [t] where [next.done] is true,
    [next.observation] is the zero row of the shape of the next
    observation that the source supplied for that row, whatever its
    value. *)
Theorem terminal_next_observation_zeroed (w : World) (name : string)
    (utd : bool) (kw : list (string * Z)) (h0 : heap) (d : gmap key tensor)
    (h : heap) (dd fe : bool) (md : mode) (env : option GymEnv)
    (m : gmap key buffer) (N : nat) :
  loads w name kw h0 d h dd fe md env → rep h d m →
  raw_ok md N m = true → env_wf env →
  returns (__init__ w name false fe utd dd kw) h0
    (λ rb h', ∃ ds, storage rb = Flat ds
                    ∧ terminal_rows_zeroed (pre_next_observation md env m) h' ds).
Proof.
  intros Hl Hrep Hok Henv.
  eapply returns_mono; [by eapply __init___finished|].
  intros rb h'; cbv beta. intros (ds & Hst & _ & _ & Hcol & _).
  exists ds. split; [done|].
  apply (finished_terminal_rows md utd env m N); [done..| |done].
  by eapply loads_mode_env.
Qed.

Lemma terminal_next_observation_zeroed_witness :
  returns (__init__ ex_world "maze2d-open-v0" false true true true []) ∅
    (λ rb h', ∃ ds, storage rb = Flat ds
                    ∧ terminal_rows_zeroed
                        (pre_next_observation Derived None ex_contents) h' ds).
Proof.
  apply (terminal_next_observation_zeroed ex_world "maze2d-open-v0" true []
           ∅ ex_raw ex_heap true true Derived None ex_contents 5).
  - eapply loads_download; reflexivity.
  - unfold rep. apply (bool_decide_unpack _). vm_compute. exact I.
  - vm_compute. reflexivity.
  - exact I.
Defined.

(** ** C3: the fields under [next] *)

(** C3, as stated, fails: on the example archive the finished table has
    [next.reward[0] = 10], the raw reward of row 0, while the shifted
    top-level [reward[0]] is 0; and [next.done[2]] is true while the
    shifted [done[2]] is false. *)
Lemma next_fields_differ_from_shifted_fields :
  let r := __init__ ex_world "maze2d-open-v0" false true true true [] ∅ in
  result_cell r ["next"; "reward"] 0 = Some [10%Z]
  ∧ result_cell r ["reward"] 0 = Some [0%Z]
  ∧ result_cell r ["next"; "done"] 2 = Some [1%Z]
  ∧ result_cell r ["done"] 2 = Some [0%Z].
Proof. vm_compute. done. Qed.

(** C3, amended.  In both construction modes the fields [next.reward],
    [next.done], [next.terminated] and [next.truncated] of the finished
    table hold the current-step values from before the temporal shift:
    at every row [t], [next.reward[t]] is the (dtype-converted) raw reward
    of row [t], and likewise for the flags ([next.truncated] when the raw
    table has the flag, absent otherwise). *)
Theorem next_fields_hold_unshifted_values (w : World) (name : string)
    (utd : bool) (kw : list (string * Z)) (h0 : heap) (d : gmap key tensor)
    (h : heap) (dd fe : bool) (md : mode) (env : option GymEnv)
    (m : gmap key buffer) (N : nat) :
  loads w name kw h0 d h dd fe md env → rep h d m →
  raw_ok md N m = true → env_wf env →
  returns (__init__ w name false fe utd dd kw) h0
    (λ rb h', ∃ ds,
       storage rb = Flat ds
       ∧ holds_rows (rows_out md N) h' ds ["next"; "reward"] (pre_reward env m)
       ∧ holds_rows (rows_out md N) h' ds ["next"; "done"] (pre_done utd m)
       ∧ holds_rows (rows_out md N) h' ds ["next"; "terminated"] (pre_terminated m)
       ∧ match pre_truncated m with
         | Some u => holds_rows (rows_out md N) h' ds ["next"; "truncated"] u
         | None => column h' ds ["next"; "truncated"] = None
         end).
Proof.
  intros Hl Hrep Hok Henv.
  eapply returns_mono; [by eapply __init___finished|].
  intros rb h'; cbv beta. intros (ds & Hst & _ & _ & Hcol & _).
  exists ds. split; [done|].
  apply (finished_next_rows md utd env m N); [done..| |done].
  by eapply loads_mode_env.
Qed.

Lemma next_fields_hold_unshifted_values_witness :
  returns (__init__ ex_world_q "maze2d-open-v0" false false true false []) ∅
    (λ rb h', ∃ ds,
       storage rb = Flat ds
       ∧ holds_rows 5 h' ds ["next"; "reward"]
           (pre_reward (Some (gym_make ex_world_q "maze2d-open-v0")) ex_contents_q)
       ∧ holds_rows 5 h' ds ["next"; "done"] (pre_done true ex_contents_q)
       ∧ holds_rows 5 h' ds ["next"; "terminated"] (pre_terminated ex_contents_q)
       ∧ column h' ds ["next"; "truncated"] = None).
Proof.
  apply (next_fields_hold_unshifted_values ex_world_q "maze2d-open-v0" true []
           ∅ ex_raw_q ex_heap_q false false Prebuilt
           (Some (gym_make ex_world_q "maze2d-open-v0")) ex_contents_q 5).
  - apply loads_direct; reflexivity.
  - unfold rep. apply (bool_decide_unpack _). vm_compute. exact I.
  - vm_compute. reflexivity.
  - vm_compute. reflexivity.
Defined.

(** ** C10: the top-level fields are the fields under [next], shifted *)

(** C10.  On the finished (unsplit) table of every provenance path, each
    of the top-level reward, done, terminated and truncated is the
    corresponding field under [next] moved one row down: row [t >= 1]
    holds [next.*[t-1]] and row 0 holds zeros (a field that [next] lacks
    is lacking at the top level too, both sides being undefined);
    [next.reward[t]] is the raw reward of row [t]. *)
Theorem top_level_is_next_shifted_down (w : World) (name : string)
    (utd : bool) (kw : list (string * Z)) (h0 : heap) (d : gmap key tensor)
    (h : heap) (dd fe : bool) (md : mode) (env : option GymEnv)
    (m : gmap key buffer) (N : nat) :
  loads w name kw h0 d h dd fe md env → rep h d m →
  raw_ok md N m = true → env_wf env →
  returns (__init__ w name false fe utd dd kw) h0
    (λ rb h', ∃ ds,
       storage rb = Flat ds
       ∧ (∀ field, field ∈ ["reward"; "done"; "terminated"; "truncated"] →
                   shifted_field (rows_out md N) h' ds field)
       ∧ (∀ field, field ∈ ["reward"; "done"; "terminated"] →
                   ∀ t, t < rows_out md N → is_Some (cell h' ds ["next"; field] t))
       ∧ holds_rows (rows_out md N) h' ds ["next"; "reward"] (pre_reward env m)).
Proof.
  intros Hl Hrep Hok Henv.
  pose proof (loads_mode_env _ _ _ _ _ _ _ _ _ _ Hl) as Hmd.
  eapply returns_mono; [by eapply __init___finished|].
  intros rb h'; cbv beta. intros (ds & Hst & _ & _ & Hcol & _).
  exists ds. split; [done|].
  destruct (finished_next_rows md utd env m N Hok Henv Hmd h' ds Hcol)
    as (HR & HD & HT & _).
  split; [|split; [|done]].
  - intros field Hel. by apply (finished_shifted md utd env m N).
  - intros field Hel t Ht. apply list_elem_of_In in Hel. simpl in Hel.
    destruct Hel as [<-|[<-|[<-|[]]]].
    + destruct (HR t Ht) as (r & _ & ->). eauto.
    + destruct (HD t Ht) as (r & _ & ->). eauto.
    + destruct (HT t Ht) as (r & _ & ->). eauto.
Qed.

Lemma top_level_is_next_shifted_down_witness :
  returns (__init__ ex_world "maze2d-open-v0" false true false false []) ∅
    (λ rb h', ∃ ds,
       storage rb = Flat ds
       ∧ (∀ field, field ∈ ["reward"; "done"; "terminated"; "truncated"] →
                   shifted_field 4 h' ds field)
       ∧ (∀ field, field ∈ ["reward"; "done"; "terminated"] →
                   ∀ t, t < 4 → is_Some (cell h' ds ["next"; field] t))
       ∧ holds_rows 4 h' ds ["next"; "reward"]
           (pre_reward (Some (gym_make ex_world "maze2d-open-v0")) ex_contents)).
Proof.
  apply (top_level_is_next_shifted_down ex_world "maze2d-open-v0" false []
           ∅ ex_raw ex_heap false true Derived
           (Some (gym_make ex_world "maze2d-open-v0")) ex_contents 5).
  - apply loads_from_env; reflexivity.
  - unfold rep. apply (bool_decide_unpack _). vm_compute. exact I.
  - vm_compute. reflexivity.
  - vm_compute. reflexivity.
Defined.

(** ** C5: row accounting *)

(** C5, as stated, fails: an archive with a single step ([N_in = 1]) does
    not give a finished table with 0 rows: the shift writes row 0 of an
    empty [reward] and the construction stops with an IndexError. *)
Lemma single_step_archive_raises :
  (length <$> column ex_heap1 ex_raw1 ["observations"]) = Some 1
  ∧ __init__ ex_world1 "maze2d-open-v0" false true true true [] ∅
    = Raise (IndexError "index 0 is out of bounds for dimension 0 with size 0").
Proof. vm_compute. done. Qed.

(** C5, amended.  For a raw table with [N_in] rows, derived-mode
    construction with [N_in >= 2] returns a finished table of which every
    field has exactly [N_in - 1] rows, and pre-built-mode construction
    with [N_in >= 1] one of which every field has exactly [N_in] rows
    (the bounds on [N_in] are part of [raw_ok]). *)
Theorem finished_table_row_count (w : World) (name : string)
    (utd : bool) (kw : list (string * Z)) (h0 : heap) (d : gmap key tensor)
    (h : heap) (dd fe : bool) (md : mode) (env : option GymEnv)
    (m : gmap key buffer) (N : nat) :
  loads w name kw h0 d h dd fe md env → rep h d m →
  raw_ok md N m = true → env_wf env →
  returns (__init__ w name false fe utd dd kw) h0
    (λ rb h', ∃ ds,
       storage rb = Flat ds
       ∧ is_Some (column h' ds ["observation"])
       ∧ ∀ k b, column h' ds k = Some b →
                length b = match md with Derived => N - 1 | Prebuilt => N end).
Proof.
  intros Hl Hrep Hok Henv.
  pose proof (loads_mode_env _ _ _ _ _ _ _ _ _ _ Hl) as Hmd.
  eapply returns_mono; [by eapply __init___finished|].
  intros rb h'; cbv beta. intros (ds & Hst & _ & _ & Hcol & _).
  exists ds. split; [done|]. split.
  - destruct (finished_next_columns md utd env m N Hok Henv Hmd h' ds Hcol)
      as (_ & _ & _ & _ & _ & ->). eauto.
  - intros k b Hb.
    apply (finished_length md utd env m N Hok Henv Hmd h' ds Hcol k b Hb).
Qed.

Lemma finished_table_row_count_witness :
  returns (__init__ ex_world "maze2d-open-v0" false true true true []) ∅
    (λ rb h', ∃ ds,
       storage rb = Flat ds
       ∧ is_Some (column h' ds ["observation"])
       ∧ ∀ k b, column h' ds k = Some b → length b = 5 - 1).
Proof.
  apply (finished_table_row_count ex_world "maze2d-open-v0" true []
           ∅ ex_raw ex_heap true true Derived None ex_contents 5).
  - eapply loads_download; reflexivity.
  - unfold rep. apply (bool_decide_unpack _). vm_compute. exact I.
  - vm_compute. reflexivity.
  - exact I.
Defined.

(** ** C4: the next observation of non-terminal rows *)

Section next_observation.
Context (md : mode) (utd : bool) (env : option GymEnv) (m : gmap key buffer)
        (N : nat).
Context (Hok : raw_ok md N m = true) (Henv : env_wf env)
        (Hmd : md = Prebuilt → is_Some env).
Context (h : heap) (ds : gmap key tensor).
Context (Hcol : ∀ k, column h ds k = final_contents md utd env m !! k).

Lemma finished_non_terminal_rows : next_observation_kept md env m N h ds.
Proof.
  destruct (finished_next_columns md utd env m N Hok Henv Hmd h ds Hcol)
    as (_ & HD & _ & _ & HNO & HO).
  pose proof (finished_length md utd env m N Hok Henv Hmd h ds Hcol _ _ HD) as HlD.
  pose proof (finished_length md utd env m N Hok Henv Hmd h ds Hcol _ _ HNO) as HlNO.
  pose proof (finished_length md utd env m N Hok Henv Hmd h ds Hcol _ _ HO) as HlO.
  intros t flag. unfold cell. rewrite HD, HNO, HO. simpl. intros Hflag Hfalse.
  rewrite (mask_fill_lookup _ _ _ _ Hflag), Hfalse.
  assert (Ht : t < rows_out md N).
  { rewrite <- HlD. by apply lookup_lt_Some in Hflag. }
  unfold mask_fill in HlNO. rewrite length_zip_with in HlNO.
  destruct (lookup_lt_is_Some_2 (pre_next_observation md env m) t) as [x Hx];
    [lia|].
  exists x. rewrite Hx. split; [done|].
  destruct md; simpl in *.
  - rewrite lookup_drop in Hx. split; [done|]. intros HS.
    rewrite init_rows_lookup; [done|].
    unfold init_rows in HlO. rewrite length_take in HlO. lia.
  - done.
Qed.
End next_observation.

(** C4, as stated, fails.  Derived mode: on the example archive the last
    row of the finished table, row 3, has [next.done] false and
    [next.observation = [9; 10]], the observation of the dropped raw row,
    while the finished table has no [observation[4]].  Pre-built mode:
    with an eight-bit observation spec, row 0 has [next.done] false and
    [next.observation = [3; 4]] where the raw [next_observations] has
    [[259; 4]]. *)
Lemma next_observation_of_last_row_and_dtype :
  let r := __init__ ex_world "maze2d-open-v0" false true true true [] ∅ in
  let q := __init__ ex_world_c "maze2d-open-v0" false false true false [] ∅ in
  (result_cell r ["next"; "done"] 3 = Some [0%Z]
   ∧ result_cell r ["next"; "observation"] 3 = Some [9%Z; 10%Z]
   ∧ result_cell r ["observation"] 4 = None)
  ∧ (result_cell q ["next"; "done"] 0 = Some [0%Z]
     ∧ result_cell q ["next"; "observation"] 0 = Some [3%Z; 4%Z]
     ∧ cell ex_heap_c ex_raw_q ["next_observations"] 0 = Some [259%Z; 4%Z]).
Proof. vm_compute. done. Qed.

(** C4, amended.  For every row [t] of the finished table where
    [next.done[t]] is false: in derived mode [next.observation[t]] is the
    raw observation of row [t+1] (in the dtype of the spec), which is
    [observation[t+1]] of the same table for every [t] but the last; in
    pre-built mode it is the raw [next_observations] value at row [t],
    converted to the dtype of the observation spec. *)
Theorem non_terminal_next_observation (w : World) (name : string)
    (utd : bool) (kw : list (string * Z)) (h0 : heap) (d : gmap key tensor)
    (h : heap) (dd fe : bool) (md : mode) (env : option GymEnv)
    (m : gmap key buffer) (N : nat) :
  loads w name kw h0 d h dd fe md env → rep h d m →
  raw_ok md N m = true → env_wf env →
  returns (__init__ w name false fe utd dd kw) h0
    (λ rb h', ∃ ds, storage rb = Flat ds
                    ∧ next_observation_kept md env m N h' ds).
Proof.
  intros Hl Hrep Hok Henv.
  eapply returns_mono; [by eapply __init___finished|].
  intros rb h'; cbv beta. intros (ds & Hst & _ & _ & Hcol & _).
  exists ds. split; [done|].
  apply (finished_non_terminal_rows md utd env m N); [done..| |done].
  by eapply loads_mode_env.
Qed.

Lemma non_terminal_next_observation_witness :
  returns (__init__ ex_world_c "maze2d-open-v0" false false true false []) ∅
    (λ rb h', ∃ ds,
       storage rb = Flat ds
       ∧ next_observation_kept Prebuilt
           (Some (gym_make ex_world_c "maze2d-open-v0"))
           (omap (read ex_heap_c) ex_raw_q) 5 h' ds).
Proof.
  apply (non_terminal_next_observation ex_world_c "maze2d-open-v0" true []
           ∅ ex_raw_q ex_heap_c false false Prebuilt
           (Some (gym_make ex_world_c "maze2d-open-v0"))
           (omap (read ex_heap_c) ex_raw_q) 5).
  - apply loads_direct; reflexivity.
  - unfold rep. apply (bool_decide_unpack _). vm_compute. exact I.
  - vm_compute. reflexivity.
  - vm_compute. reflexivity.
Defined.

(** ** C6: the derivation of [done] *)

Lemma to_bool_lor (x y : Z) :
  to_bool (Z.lor x y) = Z.lor (to_bool x) (to_bool y).
Proof.
  unfold to_bool. destruct (Z.eqb_spec (Z.lor x y) 0) as [H0|H0].
  - by apply Z.lor_eq_0_iff in H0 as [-> ->].
  - destruct (Z.eqb_spec x 0) as [->|Hx], (Z.eqb_spec y 0) as [->|Hy];
      try done.
Qed.

Lemma map_to_bool_lor (r1 r2 : row) :
  map to_bool (zip_with Z.lor r1 r2)
  = zip_with Z.lor (map to_bool r1) (map to_bool r2).
Proof.
  revert r2. induction r1 as [|x r1 IH]; intros [|y r2]; simpl; try done.
  by rewrite to_bool_lor, IH.
Qed.

Lemma zeros_like_lor (r1 r2 : row) :
  zeros_like (zip_with Z.lor r1 r2)
  = zip_with Z.lor (zeros_like r1) (zeros_like r2).
Proof.
  revert r2. induction r1 as [|x r1 IH]; intros [|y r2]; simpl; try done.
  by rewrite IH.
Qed.

Lemma pre_done_rows (utd : bool) (m : gmap key buffer) (t : nat) :
  pre_done utd m !! t
  = or_rows utd (pre_terminated m !! t) ((.!! t) <$> pre_truncated m).
Proof.
  unfold pre_done, pre_terminated, pre_truncated, raw_done, or_rows.
  destruct utd; [|done]. destruct (raw_truncated m) as [U|]; simpl.
  - rewrite !list_lookup_fmap, lookup_zip_with.
    destruct (col ["terminals"] m !! t) as [x|]; simpl; [|done].
    destruct (U !! t) as [y|]; simpl; [|done]. by rewrite map_to_bool_lor.
  - rewrite !list_lookup_fmap.
    destruct (col ["terminals"] m !! t) as [x|]; simpl; [|done].
    f_equal. rewrite map_map. apply map_ext. intros a. by rewrite Z.lor_0_r.
Qed.

Lemma zeros_like_or_rows (utd : bool) (a : option row) (b : option (option row)) :
  zeros_like <$> or_rows utd a b
  = or_rows utd (zeros_like <$> a) ((λ o : option row, zeros_like <$> o) <$> b).
Proof.
  unfold or_rows. destruct utd; [|done]. destruct b as [[y|]|]; simpl.
  - destruct a as [x|]; simpl; [|done]. by rewrite zeros_like_lor.
  - by destruct a.
  - done.
Qed.

Lemma or_rows_shift (utd : bool) (n : nat) (D T : buffer) (U : option buffer) :
  length D = n → length T = n → (∀ u, U = Some u → length u = n) →
  (∀ t, t < n → D !! t = or_rows utd (T !! t) ((.!! t) <$> U)) →
  ∀ t, t < n →
    shift_rows D !! t
    = or_rows utd (shift_rows T !! t) ((.!! t) <$> (shift_rows <$> U)).
Proof.
  intros HD HT HU Hor t Ht.
  destruct (shift_rows_shifted_down D) as (_ & HD0 & HDS).
  destruct (shift_rows_shifted_down T) as (_ & HT0 & HTS).
  destruct t as [|t].
  - rewrite HD0, HT0, (Hor 0 Ht), zeros_like_or_rows. f_equal.
    destruct U as [u|]; simpl; [|done].
    by destruct (shift_rows_shifted_down u) as (_ & -> & _).
  - rewrite HDS, HTS by lia. simpl. rewrite Nat.sub_0_r, (Hor t) by lia.
    f_equal. destruct U as [u|]; simpl; [|done].
    destruct (shift_rows_shifted_down u) as (_ & _ & HuS).
    rewrite HuS by (rewrite (HU u eq_refl); lia). simpl.
    by rewrite Nat.sub_0_r.
Qed.

Section done_derivation.
Context (md : mode) (utd : bool) (env : option GymEnv) (m : gmap key buffer)
        (N : nat).
Context (Hok : raw_ok md N m = true) (Henv : env_wf env)
        (Hmd : md = Prebuilt → is_Some env).
Context (h : heap) (ds : gmap key tensor).
Context (Hcol : ∀ k, column h ds k = final_contents md utd env m !! k).

Lemma kept_or_rows (t : nat) :
  t < rows_out md N →
  kept md (pre_done utd m) !! t
  = or_rows utd (kept md (pre_terminated m) !! t)
                ((.!! t) <$> (kept md <$> pre_truncated m)).
Proof.
  destruct (finished_next_columns md utd env m N Hok Henv Hmd h ds Hcol)
    as (_ & HD & HT & HU & _).
  pose proof (finished_length md utd env m N Hok Henv Hmd h ds Hcol _ _ HD) as HlD.
  pose proof (finished_length md utd env m N Hok Henv Hmd h ds Hcol _ _ HT) as HlT.
  intros Ht. rewrite !kept_lookup by lia. rewrite pre_done_rows. f_equal.
  destruct (pre_truncated m) as [u|]; simpl; [|done]. simpl in HU.
  apply (finished_length md utd env m N Hok Henv Hmd h ds Hcol) in HU.
  by rewrite kept_lookup by lia.
Qed.

Lemma finished_done_policy :
  done_policy utd (rows_out md N) h ds []
  ∧ done_policy utd (rows_out md N) h ds ["next"].
Proof.
  destruct (finished_next_columns md utd env m N Hok Henv Hmd h ds Hcol)
    as (_ & HD & HT & HU & _).
  destruct (finished_top_columns md utd env m N Hok Henv Hmd h ds Hcol)
    as (_ & HD' & HT' & HU').
  pose proof (finished_length md utd env m N Hok Henv Hmd h ds Hcol _ _ HD) as HlD.
  pose proof (finished_length md utd env m N Hok Henv Hmd h ds Hcol _ _ HT) as HlT.
  pose proof (finished_length md utd env m N Hok Henv Hmd h ds Hcol _ _ HD') as HlD'.
  split; intros t Ht; unfold cell; cbn [app].
  - rewrite HD', HT', HU'. cbn [mbind option_bind]. split.
    + apply lookup_lt_is_Some_2. lia.
    + apply (or_rows_shift utd (rows_out md N)); [done|done| |  |done].
      * intros u Hu. rewrite Hu in HU.
        by apply (finished_length md utd env m N Hok Henv Hmd h ds Hcol) in HU.
      * apply kept_or_rows.
  - rewrite HD, HT, HU. cbn [mbind option_bind]. split.
    + apply lookup_lt_is_Some_2. lia.
    + by apply kept_or_rows.
Qed.
End done_derivation.

(** C6.  With [use_truncated_as_done = true], at every row of the finished
    table [done] is [terminated] or [truncated], and is [terminated]
    alone when the table has no [truncated], which is the case exactly
    when the raw source has neither [timeouts] nor [truncated]; with
    [use_truncated_as_done = false], [done] is [terminated].  This holds
    at every row, for the top-level fields and for those under [next]. *)
Theorem done_follows_policy (w : World) (name : string)
    (utd : bool) (kw : list (string * Z)) (h0 : heap) (d : gmap key tensor)
    (h : heap) (dd fe : bool) (md : mode) (env : option GymEnv)
    (m : gmap key buffer) (N : nat) :
  loads w name kw h0 d h dd fe md env → rep h d m →
  raw_ok md N m = true → env_wf env →
  returns (__init__ w name false fe utd dd kw) h0
    (λ rb h', ∃ ds,
       storage rb = Flat ds
       ∧ done_policy utd (rows_out md N) h' ds []
       ∧ done_policy utd (rows_out md N) h' ds ["next"]
       ∧ (is_Some (column h' ds ["truncated"]) ↔ is_Some (raw_truncated m))
       ∧ (is_Some (column h' ds ["next"; "truncated"])
          ↔ is_Some (raw_truncated m))).
Proof.
  intros Hl Hrep Hok Henv.
  pose proof (loads_mode_env _ _ _ _ _ _ _ _ _ _ Hl) as Hmd.
  eapply returns_mono; [by eapply __init___finished|].
  intros rb h'; cbv beta. intros (ds & Hst & _ & _ & Hcol & _).
  exists ds. split; [done|].
  destruct (finished_done_policy md utd env m N Hok Henv Hmd h' ds Hcol)
    as [Htop Hnext].
  destruct (finished_next_columns md utd env m N Hok Henv Hmd h' ds Hcol)
    as (_ & _ & _ & HU & _).
  destruct (finished_top_columns md utd env m N Hok Henv Hmd h' ds Hcol)
    as (_ & _ & _ & HU').
  split; [done|]. split; [done|]. rewrite HU, HU'. unfold pre_truncated.
  by rewrite !fmap_is_Some.
Qed.

Lemma done_follows_policy_witness :
  returns (__init__ ex_world "maze2d-open-v0" false true true true []) ∅
    (λ rb h', ∃ ds,
       storage rb = Flat ds
       ∧ done_policy true 4 h' ds []
       ∧ done_policy true 4 h' ds ["next"]
       ∧ (is_Some (column h' ds ["truncated"]) ↔ is_Some (raw_truncated ex_contents))
       ∧ (is_Some (column h' ds ["next"; "truncated"])
          ↔ is_Some (raw_truncated ex_contents))).
Proof.
  apply (done_follows_policy ex_world "maze2d-open-v0" true []
           ∅ ex_raw ex_heap true true Derived None ex_contents 5).
  - eapply loads_download; reflexivity.
  - unfold rep. apply (bool_decide_unpack _). vm_compute. exact I.
  - vm_compute. reflexivity.
  - exact I.
Defined.

(** ** C8: the metadata block *)

Lemma td_del_idemp {A : Type} (p : key) (m : gmap key A) :
  td_del p (td_del p m) = td_del p m.
Proof.
  apply map_eq. intros k. rewrite !lookup_td_del. by destruct (below p k).
Qed.

Lemma final_contents_without_metadata (md : mode) (utd : bool)
    (env : option GymEnv) (m : gmap key buffer) :
  final_contents md utd env (td_del ["metadata"] m) = final_contents md utd env m.
Proof.
  unfold final_contents, process_contents, direct_contents,
    normalize_contents, direct_normalize_contents. cbv zeta.
  by rewrite td_del_idemp.
Qed.

Lemma final_contents_no_metadata (md : mode) (utd : bool) (env : option GymEnv)
    (m : gmap key buffer) (rest : key) :
  env_wf env →
  final_contents md utd env m !! ("metadata" :: rest) = None.
Proof.
  intros Henv. unfold final_contents. destruct md, env as [env|];
    [|
     |change (env_of (Some env)) with env
     |change (env_of None)
        with {| observation_spec := []; action_spec := id; reward_spec := id |}];
    unfold process_contents, direct_contents,
      normalize_contents, direct_normalize_contents, env_contents,
      direct_env_contents; cbv zeta.
  - rewrite (env_ok_spec env Henv). cbn [foldl fst snd]. by td_lookup.
  - by td_lookup.
  - rewrite (env_ok_spec env Henv). cbn [foldl fst snd]. by td_lookup.
  - cbn [observation_spec foldl]. by td_lookup.
Qed.

(** C8.  The constructor puts the metadata block of the raw table, when
    there is one, in the [metadata] attribute, and an empty mapping
    otherwise.  Every tensor of the attribute is a tensor of the raw
    block and reads in the final store what it read in the raw one.  The
    finished table has no field under [metadata], and its contents are
    those computed from the raw table without the block: they do not
    depend on it. *)
Theorem metadata_is_isolated (w : World) (name : string)
    (utd : bool) (kw : list (string * Z)) (h0 : heap) (d : gmap key tensor)
    (h : heap) (dd fe : bool) (md : mode) (env : option GymEnv)
    (m : gmap key buffer) (N : nat) :
  loads w name kw h0 d h dd fe md env → rep h d m →
  raw_ok md N m = true → env_wf env →
  returns (__init__ w name false fe utd dd kw) h0
    (λ rb h', ∃ ds,
       storage rb = Flat ds
       ∧ metadata rb = (if td_in "metadata" d then td_get ["metadata"] d else ∅)
       ∧ (∀ k t, metadata rb !! k = Some t →
                 d !! ("metadata" :: k) = Some t
                 ∧ is_Some (read h t) ∧ read h' t = read h t)
       ∧ td_in "metadata" ds = false
       ∧ ∀ k, column h' ds k
              = final_contents md utd env (td_del ["metadata"] m) !! k).
Proof.
  intros Hl Hrep Hok Henv.
  eapply returns_mono; [by eapply __init___finished|].
  intros rb h'; cbv beta. intros (ds & Hst & Hsub & Hrep' & Hcol & Hmeta).
  exists ds. split; [done|].
  assert (Hm : metadata rb
               = if td_in "metadata" d then td_get ["metadata"] d else ∅).
  { rewrite Hmeta. unfold extract_metadata. by destruct (td_in "metadata" d). }
  split; [done|]. split; [|split].
  - intros k t. rewrite Hm. destruct (td_in "metadata" d); [|done].
    rewrite lookup_td_get. cbn [app]. intros Hk.
    destruct (rep_lookup_tensor _ _ _ _ _ Hrep Hk) as (b & _ & Hb).
    split; [done|]. split; [by rewrite Hb|].
    rewrite Hb. by apply (read_weaken h).
  - rewrite (rep_td_in _ _ _ _ Hrep'). apply td_in_false.
    intros k [rest ->]%below_cons_inv. by apply final_contents_no_metadata.
  - intros k. by rewrite final_contents_without_metadata.
Qed.

Lemma metadata_is_isolated_witness :
  returns (__init__ ex_world "maze2d-open-v0" false true true true []) ∅
    (λ rb h', ∃ ds,
       storage rb = Flat ds
       ∧ metadata rb
         = (if td_in "metadata" ex_raw then td_get ["metadata"] ex_raw else ∅)
       ∧ (∀ k t, metadata rb !! k = Some t →
                 ex_raw !! ("metadata" :: k) = Some t
                 ∧ is_Some (read ex_heap t) ∧ read h' t = read ex_heap t)
       ∧ td_in "metadata" ds = false
       ∧ ∀ k, column h' ds k
              = final_contents Derived true None
                  (td_del ["metadata"] ex_contents) !! k).
Proof.
  apply (metadata_is_isolated ex_world "maze2d-open-v0" true []
           ∅ ex_raw ex_heap true true Derived None ex_contents 5).
  - eapply loads_download; reflexivity.
  - unfold rep. apply (bool_decide_unpack _). vm_compute. exact I.
  - vm_compute. reflexivity.
  - exact I.
Defined.

(** ** C7: episodes after the split *)

Lemma runs_fmap {X Y : Type} (g : X → Y) (dones : list bool) (xs : list X) :
  runs dones (g <$> xs) = (λ r : list X, g <$> r) <$> runs dones xs.
Proof.
  revert xs. induction dones as [|b dones IH]; intros [|x xs]; simpl; try done.
  rewrite IH. destruct b; [done|]. by destruct (runs dones xs).
Qed.

Lemma runs_nonempty {X : Type} (dones : list bool) (xs : list X) :
  Forall (λ r, r ≠ []) (runs dones xs).
Proof.
  revert xs. induction dones as [|b dones IH]; intros [|x xs]; simpl;
    try by constructor.
  specialize (IH xs). destruct b; [by constructor|].
  destruct (runs dones xs) as [|r rs]; [by repeat constructor|].
  inversion IH; subst. by constructor.
Qed.

Lemma runs_boundary {X : Type} (f : X → bool) (xs : list X) (i : nat)
    (r : list X) :
  runs (f <$> xs) xs !! i = Some r → S i < length (runs (f <$> xs) xs) →
  ∃ x, last r = Some x ∧ f x = true.
Proof.
  revert i r. induction xs as [|x xs IH]; intros i r; [done|].
  rewrite fmap_cons. cbn [runs]. destruct (f x) eqn:Hfx.
  - destruct i as [|i]; cbn [lookup list_lookup length].
    + intros [= <-] _. by exists x.
    + intros Hr Hi. apply (IH i r Hr). lia.
  - pose proof (runs_nonempty (f <$> xs) xs) as Hne.
    destruct (runs (f <$> xs) xs) as [|r0 rs]; cbn [length].
    + intros _ Hi. lia.
    + destruct i as [|i]; cbn [lookup list_lookup].
      * intros [= <-] Hi. destruct (IH 0 r0 eq_refl) as (y & Hy & Hfy);
          [cbn [length]; lia|].
        exists y. split; [|done]. inversion Hne; subst.
        by destruct r0 as [|z r0].
      * intros Hr Hi. apply (IH (S i) r Hr). cbn [length]. lia.
Qed.

Lemma count_true_app (a b : buffer) :
  count_true (a ++ b) = count_true a + count_true b.
Proof. induction a as [|r a IH]; simpl; [done|]. rewrite IH. lia. Qed.

Lemma count_true_ones {X : Type} (r : list X) :
  count_true ((λ _, [1%Z]) <$> r) = length r.
Proof. induction r as [|x r IH]; simpl; [done|]. f_equal. exact IH. Qed.

Lemma count_true_padding {X : Type} (n : nat) (r : list X) :
  count_true
    (replicate n (zeros_like (default [] (head ((λ _, [1%Z]) <$> r))))) = 0.
Proof.
  assert (H : row_true (zeros_like (default [] (head ((λ _, [1%Z]) <$> r))))
              = false) by (by destruct r).
  induction n as [|n IH]; simpl; [done|]. by rewrite H, IH.
Qed.

Lemma all_true_ones_like (r : row) : all_true (ones_like r).
Proof.
  unfold all_true, ones_like. apply Forall_forall.
  intros x (y & -> & _)%list_elem_of_fmap. done.
Qed.

Lemma row_true_ones_like (r : row) :
  row_true r = true → row_true (ones_like r) = true.
Proof. by destruct r as [|x [|? ?]]. Qed.

Lemma map_result_set_last (eps : list buffer) :
  Forall (λ e, e ≠ []) eps →
  map_result set_last_true eps
  = Ok ((λ e, alter ones_like (length e - 1) e) <$> eps).
Proof.
  induction 1 as [|e eps He _ IH]; simpl; [done|].
  rewrite IH. by destruct e.
Qed.

Lemma last_alter_last {X : Type} (f : X → X) (l : list X) :
  last (alter f (length l - 1) l) = f <$> last l.
Proof.
  rewrite !last_lookup, length_alter.
  replace (pred (length l)) with (length l - 1) by lia.
  apply list_lookup_alter_eq.
Qed.

(** The episode of a run and its mask. *)
Lemma closed_episode (T : nat) (r : buffer) :
  r ≠ [] →
  let ep := alter ones_like (length (pad_run T r) - 1) (pad_run T r) in
  let mk := pad_run T ((λ _, [1%Z]) <$> r) in
  length ep = length mk
  ∧ final_valid mk = length r - 1
  ∧ count_true mk = length r
  ∧ (∃ flag, last ep = Some flag ∧ all_true flag)
  ∧ (∀ x, last r = Some x → row_true x = true →
          ∃ flag, ep !! (length r - 1) = Some flag ∧ row_true flag = true).
Proof.
  intros Hne ep mk.
  assert (Hcount : count_true mk = length r).
  { unfold mk, pad_run. rewrite count_true_app, count_true_ones.
    rewrite count_true_padding. lia. }
  assert (Hlen : length r ≤ length (pad_run T r)).
  { unfold pad_run. rewrite length_app. lia. }
  assert (Hr : 0 < length r) by (destruct r; [done|simpl; lia]).
  split; [|split; [|split; [done|split]]].
  - unfold ep, mk, pad_run.
    rewrite length_alter, !length_app, !length_replicate, length_fmap. done.
  - unfold final_valid. by rewrite Hcount.
  - unfold ep. rewrite last_alter_last.
    destruct (last (pad_run T r)) as [x|] eqn:Hlast.
    + exists (ones_like x). split; [done|]. apply all_true_ones_like.
    + apply last_None in Hlast. rewrite Hlast in Hlen. simpl in Hlen. lia.
  - intros x Hx Htrue. rewrite last_lookup in Hx.
    replace (pred (length r)) with (length r - 1) in Hx by lia.
    assert (Hx' : pad_run T r !! (length r - 1) = Some x).
    { unfold pad_run. rewrite lookup_app_l by lia. done. }
    unfold ep.
    destruct (decide (length (pad_run T r) - 1 = length r - 1)) as [Heq|Hneq].
    + rewrite Heq, list_lookup_alter_eq, Hx'. simpl.
      exists (ones_like x). split; [done|]. by apply row_true_ones_like.
    + rewrite list_lookup_alter_ne by done. eauto.
Qed.

Lemma rep_omap (h : heap) (d : gmap key tensor) (m : gmap key buffer) :
  rep h d m → omap (read h) d = m.
Proof.
  intros Hrep. apply map_eq. intros k. rewrite lookup_omap.
  apply (column_rep h d m k Hrep).
Qed.

Lemma rep_readable (h : heap) (d : gmap key tensor) (m : gmap key buffer) :
  rep h d m → map_Forall (λ _ t, is_Some (read h t)) d.
Proof.
  intros Hrep k t Hk.
  destruct (rep_lookup_tensor _ _ _ _ _ Hrep Hk) as (b & _ & ->). eauto.
Qed.

Lemma split_trajectories_eq (h : heap) (ds : gmap key tensor)
    (m : gmap key buffer) (D : buffer) :
  rep h ds m → m !! ["next"; "done"] = Some D →
  split_trajectories ds h
  = Ok (<[["mask"] := split_column (row_true <$> D) ((λ _, [1%Z]) <$> D)]>
          (split_column (row_true <$> D) <$> m), h).
Proof.
  intros Hrep HD. destruct (rep_lookup _ _ _ _ _ Hrep HD) as (t & Ht & Hr).
  unfold split_trajectories, bind, lift, load, td_load, ret, td_leaf.
  rewrite Ht, Hr.
  rewrite (bool_decide_eq_true_2 _ (rep_readable h ds m Hrep)).
  by rewrite (rep_omap h ds m Hrep).
Qed.

Lemma split_column_nonempty (dones : list bool) (b : buffer) :
  Forall (λ e, e ≠ []) (split_column dones b).
Proof.
  unfold split_column. apply Forall_fmap.
  eapply Forall_impl; [apply runs_nonempty|].
  intros r Hr. simpl. unfold pad_run. by destruct r.
Qed.

Lemma set_last_done_eq (eps : gmap key (list buffer)) (nd : list buffer) :
  eps !! ["next"; "done"] = Some nd → Forall (λ e, e ≠ []) nd →
  set_last_done eps
  = Ok (<[["next"; "done"] := (λ e, alter ones_like (length e - 1) e) <$> nd]> eps).
Proof.
  intros Hnd Hne. unfold set_last_done, td_leaf.
  by rewrite Hnd, (map_result_set_last nd Hne).
Qed.

Lemma split_mask_length (dones : list bool) (D : buffer) :
  max_list (length <$> runs dones ((λ _, [1%Z]) <$> D))
  = max_list (length <$> runs dones D).
Proof.
  rewrite runs_fmap, <- list_fmap_compose. f_equal.
  apply list_fmap_ext. intros i r _. simpl. apply length_fmap.
Qed.

Lemma split_episodes_closed (eps : gmap key (list buffer)) (D : buffer) :
  let dones := row_true <$> D in
  eps !! ["next"; "done"]
  = Some ((λ e, alter ones_like (length e - 1) e) <$> split_column dones D) →
  eps !! ["mask"] = Some (split_column dones ((λ _, [1%Z]) <$> D)) →
  episodes_closed eps.
Proof.
  intros dones Hnd Hmask.
  exists ((λ e, alter ones_like (length e - 1) e) <$> split_column dones D),
    (split_column dones ((λ _, [1%Z]) <$> D)).
  split; [done|]. split; [done|].
  unfold split_column. rewrite split_mask_length, runs_fmap.
  set (T := max_list (length <$> runs dones D)).
  split; [by rewrite !length_fmap|].
  intros i ep mk. rewrite !list_lookup_fmap, length_fmap, length_fmap.
  destruct (runs dones D !! i) as [r|] eqn:Hr; [|done]. simpl.
  intros [= <-] [= <-].
  assert (Hne : r ≠ []).
  { pose proof (runs_nonempty dones D) as Hall.
    rewrite Forall_lookup in Hall. by apply (Hall i r). }
  destruct (closed_episode T r Hne) as (Hlen & Hfv & Hcount & Hlast & Hbound).
  split; [done|]. split; [done|]. split.
  - intros Hi. destruct (runs_boundary row_true D i r Hr Hi) as (x & Hx & Htrue).
    rewrite Hfv. by apply (Hbound x).
  - intros Hfull. destruct Hlast as (flag & Hflag & Hall).
    exists flag. split; [|done]. rewrite last_lookup in Hflag.
    rewrite Hfv. rewrite Hcount in Hfull. rewrite Hfull, <- Hlen.
    by replace (length (alter ones_like (length (pad_run T r) - 1) (pad_run T r)) - 1)
      with (pred (length (alter ones_like (length (pad_run T r) - 1) (pad_run T r))))
      by lia.
Qed.

(** C7.  The constructor means to close every episode and misses the
    trailing one.  The example archive, read with trajectory splitting,
    splits into two episodes padded to three steps; the second has one
    valid step (its mask is true at position 0 only).  The write of
    [True] into the last column of [next.done] falls on the padding of
    that episode: at its final valid step [next.done] is still false,
    where C7 asks for true.  (The episodes are cut by the model of
    [split_trajectories] that follows the spec.) *)
Lemma trailing_episode_not_closed :
  let r := __init__ ex_world "maze2d-open-v0" true true true true [] ∅ in
  result_episodes r ["mask"]
  = Some [[[1]; [1]; [1]]; [[1]; [0]; [0]]]%Z
  ∧ result_episodes r ["next"; "done"]
    = Some [[[0]; [0]; [1]]; [[0]; [0]; [1]]]%Z
  ∧ final_valid [[1]; [0]; [0]]%Z = 0.
Proof. vm_compute. done. Qed.

(** How far the forced write reaches.  With trajectory splitting the
    constructor returns a batch of episodes in which [next.done] is true
    at the last position of every episode (the last column of the padded
    batch).  That position is the final valid (non-padding) time-step
    only for an episode of the maximum length; an earlier episode is
    closed by the flag that cut it.  A trailing episode shorter than the
    maximum is the one case this leaves open. *)
Theorem split_sets_last_position_done (w : World) (name : string)
    (utd : bool) (kw : list (string * Z)) (h0 : heap) (d : gmap key tensor)
    (h : heap) (dd fe : bool) (md : mode) (env : option GymEnv)
    (m : gmap key buffer) (N : nat) :
  loads w name kw h0 d h dd fe md env → rep h d m →
  raw_ok md N m = true → env_wf env →
  returns (__init__ w name true fe utd dd kw) h0
    (λ rb h', ∃ eps, storage rb = Split eps ∧ episodes_closed eps).
Proof.
  intros Hl Hrep Hok Henv.
  pose proof (loads_mode_env _ _ _ _ _ _ _ _ _ _ Hl) as Hmd.
  apply (__init___cases w name true utd kw h0 d h dd fe md env m N);
    [done..|].
  intros ds h' ((_ & Hrep') & _).
  destruct (final_finished md utd env m N Hok Henv Hmd)
    as ((_ & _ & _ & _ & _ & _ & _ & _ & _ & HND & _) & _).
  set (D := kept md (pre_done utd m)) in *.
  set (eps := <[["mask"] := split_column (row_true <$> D) ((λ _, [1%Z]) <$> D)]>
                (split_column (row_true <$> D) <$> final_contents md utd env m)).
  assert (Hnd : eps !! ["next"; "done"] = Some (split_column (row_true <$> D) D)).
  { unfold eps. rewrite lookup_insert_ne by done.
    by rewrite lookup_fmap, HND. }
  eapply returns_bind.
  { apply (returns_eq _ _ _ _ (split_trajectories_eq h' ds _ D Hrep' HND)). }
  intros eps0 h1; cbv beta; intros [-> ->].
  eapply returns_bind.
  { eapply (returns_lift _ _ _ (λ a _, a = <[["next"; "done"] :=
             (λ e, alter ones_like (length e - 1) e)
               <$> split_column (row_true <$> D) D]> eps)); [|done].
    apply (set_last_done_eq eps _ Hnd), split_column_nonempty. }
  intros eps1 h1; cbv beta; intros ->.
  apply returns_ret. eexists. split; [done|].
  apply (split_episodes_closed _ D).
  - apply lookup_insert_eq.
  - rewrite lookup_insert_ne by done. apply lookup_insert_eq.
Qed.

Lemma split_sets_last_position_done_witness :
  returns (__init__ ex_world "maze2d-open-v0" true true true true []) ∅
    (λ rb h', ∃ eps, storage rb = Split eps ∧ episodes_closed eps).
Proof.
  apply (split_sets_last_position_done ex_world "maze2d-open-v0" true []
           ∅ ex_raw ex_heap true true Derived None ex_contents 5).
  - eapply loads_download; reflexivity.
  - unfold rep. apply (bool_decide_unpack _). vm_compute. exact I.
  - vm_compute. reflexivity.
  - exact I.
Defined.

(** ** C9: names without an archive *)

(** C9, as stated, fails: with a name that has no entry in
    [D4RL_DATASETS] and a non-empty [env_kwargs], the direct download
    stops at its first guard with a RuntimeError, not with the KeyError of
    the lookup. *)
Lemma unknown_name_with_kwargs_raises_runtime_error :
  dict_get "unknown-v0" D4RL_DATASETS = None
  ∧ __init__ ex_world "unknown-v0" false true true true
      [("terminate_on_end", 1%Z)] ∅
    = Raise (RuntimeError "Cannot pass env_kwargs when `direct_download=True`.").
Proof. vm_compute. done. Qed.

(** C9, amended.  In the direct-download path, constructing the replay
    with a name that has no entry in [D4RL_DATASETS] raises and produces
    no table: the KeyError "Env <name> not found." when no [env_kwargs] are
    passed, and the RuntimeError of the [env_kwargs] guard otherwise.  For
    a name that has an entry (and no [env_kwargs]) the lookup raises
    nothing: the result is that of reading its archive and processing
    it. *)
Theorem direct_download_lookup (w : World) (name : string)
    (split fe utd : bool) (kw : list (string * Z)) (h0 : heap) :
  match dict_get name D4RL_DATASETS with
  | None =>
      __init__ w name split fe utd true kw h0
      = Raise (match kw with
               | [] => KeyError ("Env " +:+ name +:+ " not found.")
               | _ :: _ =>
                   RuntimeError "Cannot pass env_kwargs when `direct_download=True`."
               end)
  | Some url =>
      _get_dataset_direct_download w utd name []
      = (let* dataset := from_h5 w url in
         _process_data_from_env utd dataset None)
  end.
Proof.
  destruct (dict_get name D4RL_DATASETS) as [url|] eqn:Hurl.
  - unfold _get_dataset_direct_download. by rewrite Hurl.
  - unfold __init__, bind. cbn [negb].
    unfold _get_dataset_direct_download. rewrite Hurl. by destruct kw.
Qed.

(** * Further properties of the code *)

(** ** Computations that raise *)

Lemma raises_bind {A B : Type} (c : M A) (k : A → M B) (h : heap) (e : exn)
    (Q : A → heap → Prop) :
  returns c h Q → (∀ a h', Q a h' → raises (k a) h' e) →
  raises (bind c k) h e.
Proof.
  intros (a & h' & Hc & HQ) Hk. unfold raises, bind. rewrite Hc.
  by apply Hk.
Qed.

Lemma raises_bind_now {A B : Type} (c : M A) (k : A → M B) (h : heap) (e : exn) :
  raises c h e → raises (bind c k) h e.
Proof. unfold raises, bind. by intros ->. Qed.

(** ** The shift of a table without rows *)

Lemma shift_key_empty (h : heap) (d : gmap key tensor) (name : string)
    (t : tensor) :
  d !! [name] = Some t → read h t = Some [] →
  raises (shift_key name d) h index_error_empty.
Proof.
  intros Hd Hr. unfold raises.
  set (p := fresh (dom h)). set (h1 := <[p := []]> h).
  set (q := fresh (dom h1)). set (h2 := <[q := []]> h1).
  assert (Hq : h1 !! q = None) by apply not_elem_of_dom, is_fresh.
  assert (Hqp : q ≠ p).
  { intros E. unfold h1 in Hq. by rewrite E, lookup_insert_eq in Hq. }
  assert (Hp1 : h1 !! p = Some []) by apply lookup_insert_eq.
  assert (Hp2 : h2 !! p = Some []).
  { unfold h2. by rewrite lookup_insert_ne. }
  unfold shift_key.
  rewrite (bind_ok _ _ h t h) by (unfold lift, td_leaf; by rewrite Hd).
  rewrite (bind_ok _ _ h (Tensor p 0 0) h1) by apply (clone_eq h t [] Hr).
  cbv zeta.
  rewrite (bind_ok _ _ h1 (Tensor q 0 0) h2).
  2:{ apply (clone_eq h1 (slice_init (Tensor p 0 0)) []).
      apply (read_whole h1 p [] Hp1). }
  rewrite (bind_ok _ _ h2 () (<[p := []]> h2)).
  2:{ rewrite (setitem_eq h2 (slice_tail (Tensor p 0 0)) (Tensor q 0 0) [] []);
        [done| |done|done].
      apply (read_whole h2 q []). apply lookup_insert_eq. }
  rewrite insert_id by done.
  pose proof (read_whole h2 p [] Hp2) as Hr2. cbn [length] in Hr2.
  unfold bind, setitem_row0_zero, bind, load.
  by rewrite Hr2.
Qed.

(** X1.  [_shift_reward_done] on a table whose [reward] has no rows stops
    at [dataset["reward"][0] = 0] with the IndexError of an index into an
    empty tensor: the clone and the two empty slices before it go
    through. *)
Theorem shift_reward_done_empty_raises (h : heap) (d : gmap key tensor)
    (t : tensor) :
  d !! ["reward"] = Some t → read h t = Some [] →
  _shift_reward_done d h
  = Raise (IndexError "index 0 is out of bounds for dimension 0 with size 0").
Proof.
  intros Hd Hr. unfold _shift_reward_done.
  apply raises_bind_now. by apply (shift_key_empty h d "reward" t).
Qed.

Lemma shift_reward_done_empty_raises_witness :
  _shift_reward_done ex_steps_empty ex_heap_empty
  = Raise (IndexError "index 0 is out of bounds for dimension 0 with size 0").
Proof.
  apply (shift_reward_done_empty_raises ex_heap_empty ex_steps_empty
           (Tensor 0 0 0)).
  - reflexivity.
  - vm_compute. reflexivity.
Defined.

(** ** What the shift leaves alone *)

Lemma shift_key_frame (h0 h : heap) (d : gmap key tensor) (m : gmap key buffer)
    (name : string) (b : buffer) :
  table h0 h d m → m !! [name] = Some b → b ≠ [] →
  returns (shift_key name d) h (λ d' h',
    table h0 h' d' (shift_contents name m) ∧ h ⊆ h'
    ∧ ∀ n rest, String.eqb name n = false → d' !! (n :: rest) = d !! (n :: rest)).
Proof.
  intros Ht Hb Hne. eapply returns_mono; [by eapply shift_key_returns|].
  cbv beta. intros d' h' (Ht' & Hsub & _ & _ & t' & -> & _).
  split; [done|]. split; [done|].
  intros n rest Hn. by apply lookup_td_set_leaf_ne.
Qed.

Lemma _shift_reward_done_frame (h : heap) (d : gmap key tensor)
    (m : gmap key buffer) (R : buffer) :
  rep h d m → m !! ["reward"] = Some R → R ≠ [] →
  shiftable "done" m → shiftable "terminated" m → shiftable "truncated" m →
  returns (_shift_reward_done d) h (λ d' h',
    h ⊆ h'
    ∧ ∀ n rest, n ∉ shifted_names → d' !! (n :: rest) = d !! (n :: rest)).
Proof.
  intros Hrep HR HRne Hdone Hterm Htrunc.
  assert (Ht : table h h d m) by done.
  unfold _shift_reward_done. simpl.
  eapply returns_bind; [by eapply shift_key_frame|].
  intros d1 h1; cbv beta; intros (Ht1 & Hs1 & Ho1).
  eapply returns_bind.
  { apply shift_step_returns; [done|]. by apply shiftable_shift. }
  intros d2 h2; cbv beta; intros (Ht2 & Hs2 & _ & _ & _ & Ho2).
  eapply returns_bind.
  { apply shift_step_returns; [done|].
    destruct (td_in "done" (shift_contents "reward" m));
      repeat (apply shiftable_shift; [done|]); done. }
  intros d3 h3; cbv beta; intros (Ht3 & Hs3 & _ & _ & _ & Ho3).
  eapply returns_bind.
  { apply shift_step_returns; [done|].
    destruct (td_in "done" (shift_contents "reward" m)),
             (td_in "terminated" _);
      repeat (apply shiftable_shift; [done|]); done. }
  intros d4 h4; cbv beta; intros (Ht4 & Hs4 & _ & _ & _ & Ho4).
  apply returns_ret. split; [by repeat (etrans; [eassumption|])|].
  intros n rest Hn. unfold shifted_names in Hn.
  assert (Hneq : ∀ s, s ∈ ["reward"; "done"; "terminated"; "truncated"] →
                      String.eqb s n = false).
  { intros s Hs. apply String.eqb_neq. intros ->. done. }
  rewrite Ho4, Ho3, Ho2, Ho1; [done|apply Hneq; set_solver..].
Qed.

(** X2.  [_shift_reward_done] rewrites the top-level [reward], [done],
    [terminated] and [truncated] and nothing else: every other field of
    the table, among them everything under [next], is after the shift
    the tensor it was before and reads the same rows. *)
Theorem shift_reward_done_frame (h : heap) (d : gmap key tensor)
    (m : gmap key buffer) (N : nat) :
  rep h d m → step_table N m = true → 1 ≤ N →
  returns (_shift_reward_done d) h (λ d' h',
    ∀ n rest, n ∉ shifted_names →
      d' !! (n :: rest) = d !! (n :: rest)
      ∧ column h' d' (n :: rest) = column h d (n :: rest)).
Proof.
  intros Hrep Hst HN.
  destruct (step_table_inv N m Hst) as ([R HR] & Hleaf & Hlen).
  assert (Hne : ∀ name b, name ∈ ["reward"; "done"; "terminated"; "truncated"] →
                          m !! [name] = Some b → b ≠ []).
  { intros name b Hel Hb ->. apply Hlen in Hb; [|done]. simpl in Hb. lia. }
  assert (Hsh : ∀ name, name ∈ ["done"; "terminated"; "truncated"] →
                        shiftable name m).
  { intros name Hel Hin. destruct (Hleaf name Hel Hin) as [b Hb].
    exists b. split; [done|]. apply (Hne name); [set_solver|done]. }
  eapply returns_mono.
  { apply (_shift_reward_done_frame h d m R); [done|done| |..].
    - apply (Hne "reward"); [set_solver|done].
    - apply Hsh. set_solver.
    - apply Hsh. set_solver.
    - apply Hsh. set_solver. }
  cbv beta. intros d' h' (Hsub & Hframe) n rest Hn.
  split; [by apply Hframe|]. unfold column. rewrite (Hframe n rest Hn).
  destruct (d !! (n :: rest)) as [t|] eqn:Hk; [|done]. simpl.
  destruct (rep_lookup_tensor _ _ _ _ _ Hrep Hk) as (b & _ & Hb).
  rewrite Hb. by apply (read_weaken h).
Qed.

Lemma shift_reward_done_frame_witness :
  returns (_shift_reward_done ex_steps) ex_heap (λ d' h',
    ∀ n rest, n ∉ shifted_names →
      d' !! (n :: rest) = ex_steps !! (n :: rest)
      ∧ column h' d' (n :: rest) = column ex_heap ex_steps (n :: rest)).
Proof.
  apply (shift_reward_done_frame ex_heap ex_steps ex_steps_contents 5).
  - unfold rep. apply (bool_decide_unpack _). vm_compute. exact I.
  - vm_compute. reflexivity.
  - lia.
Defined.

(** ** Flat sequences too short to give a transition *)

Lemma _process_data_from_env_short (utd : bool) (env : option GymEnv)
    (h : heap) (d : gmap key tensor) (m : gmap key buffer) (N : nat) :
  rep h d m → flat_table N m = true → env_wf env → N ≤ 1 →
  raises (_process_data_from_env utd d env) h index_error_empty.
Proof.
  intros Hrep Hflat Henv HN.
  destruct (flat_table_inv N m Hflat)
    as (O & A & R & T & HO & HA & HR & HT & HlO & HlA & HlR & HlT
        & Hrows & Hin & HU).
  assert (Ht : table h h (extract_metadata d).1 (td_del ["metadata"] m)).
  { by apply extract_metadata_table. }
  unfold _process_data_from_env.
  destruct (extract_metadata d) as [d0 md]. cbn [fst snd] in *.
  eapply raises_bind.
  { apply rename_returns; [done|]. apply (td_in_leaf _ _ O). by td_lookup. }
  intros d1 h1; cbv beta; intros Ht1.
  eapply raises_bind.
  { apply rename_returns; [done|]. apply (td_in_leaf _ _ T). by td_lookup. }
  intros d2 h2; cbv beta; intros Ht2.
  eapply raises_bind; [by apply rename_timeouts_returns|].
  intros d3 h3; cbv beta; intros Ht3.
  assert (Htrunc : rename_timeouts_contents
            (td_rename "terminals" ["terminated"]
              (td_rename "observations" ["observation"] (td_del ["metadata"] m)))
            !! ["truncated"] = raw_truncated m).
  { rewrite lookup_rename_timeouts_contents.
    cbn [below String.eqb Ascii.eqb Bool.eqb andb drop].
    td_in_simpl. unfold raw_truncated.
    destruct (td_in "timeouts" m); by td_lookup. }
  eapply raises_bind.
  { eapply (set_done_returns _ _ _ _ utd T); [done| |].
    - by td_lookup.
    - intros U. rewrite Htrunc. intros HmU. rewrite (HU U HmU). done. }
  intros d4 h4; cbv beta; intros Ht4.
  eapply raises_bind.
  { apply rename_returns; [done|]. apply (td_in_leaf _ _ R). by td_lookup. }
  intros d5 h5; cbv beta; intros Ht5.
  eapply raises_bind.
  { apply rename_returns; [done|]. apply (td_in_leaf _ _ A). by td_lookup. }
  intros d6 h6; cbv beta; intros Ht6.
  apply rename_infos_table in Ht6.
  eapply raises_bind.
  { eapply (match_dtypes_returns _ _ _ _ env O A R); [done|done| | |]; by td_lookup. }
  intros d7 h7; cbv beta; intros Ht7.
  eapply raises_bind.
  { eapply (format_done_returns _ _ _ _
              (to_dtype None (done_rows utd _)) (to_dtype None T)); [done| | |].
    - destruct env as [e|]; unfold env_contents;
        [rewrite (env_ok_spec e Henv); cbn [foldl fst snd]|]; by td_lookup.
    - destruct env as [e|]; unfold env_contents;
        [rewrite (env_ok_spec e Henv); cbn [foldl fst snd]|]; by td_lookup.
    - destruct env as [e|]; unfold env_contents;
        [rewrite (env_ok_spec e Henv); cbn [foldl fst snd]|];
        td_in_simpl; rewrite Hin; td_lookup; td_in_simpl;
        (change (if td_in "timeouts" m then m !! ["timeouts"] else m !! ["truncated"])
           with (raw_truncated m));
        destruct (raw_truncated m); intros; eauto; done. }
  intros d8 h8; cbv beta; intros Ht8.
  pose proof (normalize_canonical utd env m N O A R T Hflat Henv HO HA HR HT) as Hcan.
  eapply raises_bind.
  { eapply (unsqueeze_returns _ _ _ _ _ (to_dtype (reward_spec <$> env) R)); [done|].
    destruct env as [e|]; unfold env_contents;
        [rewrite (env_ok_spec e Henv); cbn [foldl fst snd]|];
        td_lookup; by rewrite HR. }
  intros d9 h9; cbv beta; intros Ht9.
  change (table h h9 d9 (normalize_contents utd env m)) in Ht9.
  pose proof (rows_normalize utd env m N Hflat Henv) as Hrn.
  apply derive_next_table, attach_next_table in Ht9.
  apply rows_derive_next, rows_attach_next in Hrn.
  destruct (derive_attach_transitions _ _ _ _ _ _ _ Hcan)
    as [(_ & _ & HR' & _) _].
  eapply raises_bind; [by apply td_clone_returns|].
  intros d10 h10; cbv beta; intros ((_ & Hrep10) & _).
  destruct (rep_lookup _ _ _ _ _ Hrep10 HR') as (t & Hd10 & Hread).
  assert (Hnil : init_rows (to_dtype (reward_spec <$> env) R) = []).
  { apply nil_length_inv. apply (rows_lookup (N - 1)) in HR'; [|done]. lia. }
  rewrite Hnil in Hread.
  apply raises_bind_now. unfold _shift_reward_done. apply raises_bind_now.
  by apply (shift_key_empty h10 d10 "reward" t).
Qed.

(** X3.  From a flat sequence with at most one step (derived mode: the
    download and the [from_env] paths) no table is constructed: once the
    last row is dropped nothing is left, and the constructor stops in
    [_shift_reward_done] with the IndexError of an index into an empty
    tensor, with or without trajectory splitting. *)
Theorem derived_mode_needs_two_steps (w : World) (name : string)
    (split utd : bool) (kw : list (string * Z)) (h0 : heap)
    (d : gmap key tensor) (h : heap) (dd fe : bool) (env : option GymEnv)
    (m : gmap key buffer) (N : nat) :
  loads w name kw h0 d h dd fe Derived env → rep h d m →
  flat_table N m = true → env_wf env → N ≤ 1 →
  __init__ w name split fe utd dd kw h0
  = Raise (IndexError "index 0 is out of bounds for dimension 0 with size 0").
Proof.
  intros Hl Hrep Hflat Henv HN. unfold __init__.
  apply raises_bind_now.
  inversion Hl as [fe' url Hkw Hurl Hh5 | Hd4 Hkw Hget | ]; subst.
  - cbn [negb]. unfold _get_dataset_direct_download. rewrite Hurl.
    eapply raises_bind; [exact (returns_eq _ _ _ _ Hh5)|].
    intros ? ?; cbv beta; intros [-> ->].
    by apply (_process_data_from_env_short utd None h d m N).
  - cbn [negb]. rewrite Hd4. cbn [negb]. unfold _get_dataset_from_env.
    eapply raises_bind; [exact (returns_eq _ _ _ _ Hget)|].
    intros ? ?; cbv beta; intros [-> ->].
    by apply (_process_data_from_env_short utd _ h d m N).
Qed.

Lemma derived_mode_needs_two_steps_witness :
  __init__ ex_world1 "maze2d-open-v0" true true false false [] ∅
  = Raise (IndexError "index 0 is out of bounds for dimension 0 with size 0").
Proof.
  apply (derived_mode_needs_two_steps ex_world1 "maze2d-open-v0" true false []
           ∅ ex_raw1 ex_heap1 false true
           (Some (gym_make ex_world1 "maze2d-open-v0"))
           (omap (read ex_heap1) ex_raw1) 1).
  - apply loads_from_env; reflexivity.
  - unfold rep. apply (bool_decide_unpack _). vm_compute. exact I.
  - vm_compute. reflexivity.
  - vm_compute. reflexivity.
  - lia.
Defined.

(** ** The storage of the finished table *)

(** X4.  After construction every tensor of the finished table has
    storage of its own: no two fields share a buffer, none points into a
    buffer of the raw data, every one can be read, and the buffers of the
    raw data are as they were (the reason of the [clone] before the
    shift, as its comment says). *)
Theorem finished_table_owns_its_storage (w : World) (name : string)
    (utd : bool) (kw : list (string * Z)) (h0 : heap) (d : gmap key tensor)
    (h : heap) (dd fe : bool) (md : mode) (env : option GymEnv)
    (m : gmap key buffer) (N : nat) :
  loads w name kw h0 d h dd fe md env → rep h d m →
  raw_ok md N m = true → env_wf env →
  returns (__init__ w name false fe utd dd kw) h0
    (λ rb h', ∃ ds, storage rb = Flat ds
                    ∧ h ⊆ h' ∧ separated ds ∧ disjoint_from h ds
                    ∧ ∀ k t, ds !! k = Some t → is_Some (read h' t)).
Proof.
  intros Hl Hrep Hok Henv.
  eapply returns_mono; [by eapply __init___returns|].
  intros rb h'; cbv beta.
  intros (ds & Hst & ((Hsub & Hrep') & Hsep & Hdis) & _).
  exists ds. do 4 (split; [done|]). intros k t Hk.
  destruct (rep_lookup_tensor _ _ _ _ _ Hrep' Hk) as (b & _ & ->). eauto.
Qed.

Lemma finished_table_owns_its_storage_witness :
  returns (__init__ ex_world "maze2d-open-v0" false true true true []) ∅
    (λ rb h', ∃ ds, storage rb = Flat ds
                    ∧ ex_heap ⊆ h' ∧ separated ds ∧ disjoint_from ex_heap ds
                    ∧ ∀ k t, ds !! k = Some t → is_Some (read h' t)).
Proof.
  apply (finished_table_owns_its_storage ex_world "maze2d-open-v0" true []
           ∅ ex_raw ex_heap true true Derived None ex_contents 5).
  - eapply loads_download; reflexivity.
  - unfold rep. apply (bool_decide_unpack _). vm_compute. exact I.
  - vm_compute. reflexivity.
  - exact I.
Defined.

(** ** The fields that are not shifted *)

(** X5.  The shift does not move observations and actions: at every row
    [t] of the finished table, [observation[t]] and [action[t]] are the
    raw observation and action of row [t], in the dtypes of the specs. *)
Theorem observation_and_action_stay_in_place (w : World) (name : string)
    (utd : bool) (kw : list (string * Z)) (h0 : heap) (d : gmap key tensor)
    (h : heap) (dd fe : bool) (md : mode) (env : option GymEnv)
    (m : gmap key buffer) (N : nat) :
  loads w name kw h0 d h dd fe md env → rep h d m →
  raw_ok md N m = true → env_wf env →
  returns (__init__ w name false fe utd dd kw) h0
    (λ rb h', ∃ ds,
       storage rb = Flat ds
       ∧ holds_rows (rows_out md N) h' ds ["observation"] (pre_observation env m)
       ∧ holds_rows (rows_out md N) h' ds ["action"] (pre_action env m)).
Proof.
  intros Hl Hrep Hok Henv.
  pose proof (loads_mode_env _ _ _ _ _ _ _ _ _ _ Hl) as Hmd.
  eapply returns_mono; [by eapply __init___finished|].
  intros rb h'; cbv beta. intros (ds & Hst & _ & _ & Hcol & _).
  exists ds. split; [done|].
  destruct (final_finished md utd env m N Hok Henv Hmd)
    as ((HO & HA & _) & Hrows).
  rewrite <- Hcol in HO, HA. split.
  - apply (cell_kept _ _ _ md); [done|].
    apply (finished_length md utd env m N Hok Henv Hmd h' ds Hcol _ _ HO).
  - apply (cell_kept _ _ _ md); [done|].
    apply (finished_length md utd env m N Hok Henv Hmd h' ds Hcol _ _ HA).
Qed.

Lemma observation_and_action_stay_in_place_witness :
  returns (__init__ ex_world "maze2d-open-v0" false true true false []) ∅
    (λ rb h', ∃ ds,
       storage rb = Flat ds
       ∧ holds_rows 4 h' ds ["observation"]
           (pre_observation (Some (gym_make ex_world "maze2d-open-v0")) ex_contents)
       ∧ holds_rows 4 h' ds ["action"]
           (pre_action (Some (gym_make ex_world "maze2d-open-v0")) ex_contents)).
Proof.
  apply (observation_and_action_stay_in_place ex_world "maze2d-open-v0" true []
           ∅ ex_raw ex_heap false true Derived
           (Some (gym_make ex_world "maze2d-open-v0")) ex_contents 5).
  - apply loads_from_env; reflexivity.
  - unfold rep. apply (bool_decide_unpack _). vm_compute. exact I.
  - vm_compute. reflexivity.
  - vm_compute. reflexivity.
Defined.

(** ** The flags are booleans *)

Lemma to_bool_is_flag (x : Z) : is_flag (to_bool x).
Proof. unfold to_bool, is_flag. destruct (x =? 0)%Z; auto. Qed.

Lemma flag_column_to_bool (b : buffer) : flag_column (map (map to_bool) b).
Proof.
  unfold flag_column. apply Forall_fmap, Forall_true. intros r. simpl.
  apply Forall_fmap, Forall_true. intros x. apply to_bool_is_flag.
Qed.

Lemma flag_column_kept (md : mode) (b : buffer) :
  flag_column b → flag_column (kept md b).
Proof.
  destruct md; simpl; [|done]. unfold init_rows, flag_column.
  apply Forall_take.
Qed.

Lemma flag_column_shift_rows (b : buffer) :
  flag_column b → flag_column (shift_rows b).
Proof.
  intros Hb. destruct b as [|r rest]; [done|]. simpl.
  apply Forall_cons. split.
  - unfold zeros_like. apply Forall_fmap, Forall_true. intros x. by left.
  - unfold init_rows. by apply Forall_take.
Qed.

(** X6.  In the finished table [done], [terminated] and [truncated], at
    the top level and under [next], hold booleans only: every entry is 0
    or 1, whatever numbers the raw flags were. *)
Theorem finished_flags_are_boolean (w : World) (name : string)
    (utd : bool) (kw : list (string * Z)) (h0 : heap) (d : gmap key tensor)
    (h : heap) (dd fe : bool) (md : mode) (env : option GymEnv)
    (m : gmap key buffer) (N : nat) :
  loads w name kw h0 d h dd fe md env → rep h d m →
  raw_ok md N m = true → env_wf env →
  returns (__init__ w name false fe utd dd kw) h0
    (λ rb h', ∃ ds,
       storage rb = Flat ds
       ∧ ∀ pfx flag b, pfx ∈ [[]; ["next"]] →
           flag ∈ ["done"; "terminated"; "truncated"] →
           column h' ds (pfx ++ [flag]) = Some b → flag_column b).
Proof.
  intros Hl Hrep Hok Henv.
  pose proof (loads_mode_env _ _ _ _ _ _ _ _ _ _ Hl) as Hmd.
  eapply returns_mono; [by eapply __init___finished|].
  intros rb h'; cbv beta. intros (ds & Hst & _ & _ & Hcol & _).
  exists ds. split; [done|].
  destruct (finished_next_columns md utd env m N Hok Henv Hmd h' ds Hcol)
    as (_ & HD & HT & HU & _).
  destruct (finished_top_columns md utd env m N Hok Henv Hmd h' ds Hcol)
    as (_ & HD' & HT' & HU').
  assert (FD : flag_column (kept md (pre_done utd m))).
  { apply flag_column_kept, flag_column_to_bool. }
  assert (FT : flag_column (kept md (pre_terminated m))).
  { apply flag_column_kept, flag_column_to_bool. }
  assert (FU : ∀ u, kept md <$> pre_truncated m = Some u → flag_column u).
  { unfold pre_truncated. destruct (raw_truncated m) as [U|]; [|done].
    simpl. intros u [= <-]. apply flag_column_kept, flag_column_to_bool. }
  intros pfx flag b Hp Hf.
  apply list_elem_of_In in Hp, Hf. simpl in Hp, Hf.
  destruct Hp as [<-|[<-|[]]]; destruct Hf as [<-|[<-|[<-|[]]]]; cbn [app].
  - rewrite HD'. intros [= <-]. by apply flag_column_shift_rows.
  - rewrite HT'. intros [= <-]. by apply flag_column_shift_rows.
  - rewrite HU'. destruct (kept md <$> pre_truncated m) as [u|]; [|done].
    simpl. intros [= <-]. by apply flag_column_shift_rows, FU.
  - rewrite HD. by intros [= <-].
  - rewrite HT. by intros [= <-].
  - rewrite HU. apply FU.
Qed.

Lemma finished_flags_are_boolean_witness :
  returns (__init__ ex_world "maze2d-open-v0" false true true true []) ∅
    (λ rb h', ∃ ds,
       storage rb = Flat ds
       ∧ ∀ pfx flag b, pfx ∈ [[]; ["next"]] →
           flag ∈ ["done"; "terminated"; "truncated"] →
           column h' ds (pfx ++ [flag]) = Some b → flag_column b).
Proof.
  apply (finished_flags_are_boolean ex_world "maze2d-open-v0" true []
           ∅ ex_raw ex_heap true true Derived None ex_contents 5).
  - eapply loads_download; reflexivity.
  - unfold rep. apply (bool_decide_unpack _). vm_compute. exact I.
  - vm_compute. reflexivity.
  - exact I.
Defined.

(** ** The specs attribute *)

(** X7.  The [specs] attribute holds the specs of the wrapped environment
    only when the dataset comes through the d4rl package; a directly
    downloaded dataset leaves [specs] at [None]. *)
Theorem specs_only_without_direct_download (w : World) (name : string)
    (utd : bool) (kw : list (string * Z)) (h0 : heap) (d : gmap key tensor)
    (h : heap) (dd fe : bool) (md : mode) (env : option GymEnv)
    (m : gmap key buffer) (N : nat) :
  loads w name kw h0 d h dd fe md env → rep h d m →
  raw_ok md N m = true → env_wf env →
  returns (__init__ w name false fe utd dd kw) h0
    (λ rb _, specs rb = if dd then None else Some (gym_make w name)).
Proof.
  intros Hl Hrep Hok Henv.
  eapply returns_mono; [by eapply __init___returns|].
  intros rb h'; cbv beta. intros (ds & _ & _ & _ & ->).
  by destruct Hl.
Qed.

Lemma specs_only_without_direct_download_witness :
  returns (__init__ ex_world "maze2d-open-v0" false true true true []) ∅
    (λ rb _, specs rb = None).
Proof.
  apply (specs_only_without_direct_download ex_world "maze2d-open-v0" true []
           ∅ ex_raw ex_heap true true Derived None ex_contents 5).
  - eapply loads_download; reflexivity.
  - unfold rep. apply (bool_decide_unpack _). vm_compute. exact I.
  - vm_compute. reflexivity.
  - exact I.
Defined.

(** ** Errors of the constructor *)

(** X8.  Extra environment arguments are for [d4rl.qlearning_dataset]
    alone: with [from_env=True] or [direct_download=True] a non-empty
    [env_kwargs] makes the constructor raise before any dataset is read (a
    RuntimeError, or the ImportError of a missing d4rl package when the
    download is not direct). *)
Theorem env_kwargs_are_rejected (w : World) (name : string)
    (split fe utd dd : bool) (kw : list (string * Z)) (h0 : heap) :
  kw ≠ [] → dd = true ∨ fe = true →
  __init__ w name split fe utd dd kw h0
  = Raise (if dd
           then RuntimeError "Cannot pass env_kwargs when `direct_download=True`."
           else if has_d4rl w
                then RuntimeError "env_kwargs cannot be passed with using from_env=True"
                else ImportError "Could not import d4rl").
Proof.
  intros Hkw Hmode. unfold __init__. apply raises_bind_now. unfold raises.
  destruct kw as [|kv kw]; [done|].
  destruct dd; cbn [negb]; [done|].
  destruct Hmode as [Hdd | Hfe]; [done|]. rewrite Hfe.
  by destruct (has_d4rl w).
Qed.

Lemma env_kwargs_are_rejected_witness :
  __init__ ex_world "maze2d-open-v0" false true true false
    [("terminate_on_end", 1%Z)] ∅
  = Raise (RuntimeError "env_kwargs cannot be passed with using from_env=True").
Proof.
  apply (env_kwargs_are_rejected ex_world "maze2d-open-v0" false true true false
           [("terminate_on_end", 1%Z)] ∅).
  - done.
  - by right.
Defined.

(** X9.  Without the d4rl package, every construction that is not a
    direct download raises ImportError, whatever the name, the flags and
    the extra arguments, and reads nothing. *)
Theorem missing_d4rl_raises_import_error (w : World) (name : string)
    (split fe utd : bool) (kw : list (string * Z)) (h0 : heap) :
  has_d4rl w = false →
  __init__ w name split fe utd false kw h0
  = Raise (ImportError "Could not import d4rl").
Proof.
  intros Hd. unfold __init__. apply raises_bind_now. unfold raises.
  cbn [negb]. by rewrite Hd.
Qed.

Lemma missing_d4rl_raises_import_error_witness :
  __init__ ex_world_bare "maze2d-open-v0" false false true false [] ∅
  = Raise (ImportError "Could not import d4rl").
Proof.
  apply (missing_d4rl_raises_import_error ex_world_bare "maze2d-open-v0"
           false false true [] ∅).
  reflexivity.
Defined.

(** ** Raw tables without a mandatory field *)

Lemma td_rename_key__absent {A : Type} (old : string) (new : key)
    (d : gmap key A) :
  td_in old d = false → ∃ msg, td_rename_key_ old new d = Raise (KeyError msg).
Proof. intros Hin. unfold td_rename_key_. rewrite Hin. eauto. Qed.

Lemma td_in_extract_metadata (name : string) (d : gmap key tensor) :
  String.eqb "metadata" name = false →
  td_in name (extract_metadata d).1 = td_in name d.
Proof.
  intros Hne. unfold extract_metadata.
  destruct (td_in "metadata" d); [|done]. simpl.
  by rewrite td_in_td_del, Hne.
Qed.

(** X10.  [_process_data_from_env] needs [observations] and [terminals]:
    on a raw table that lacks one of them it raises the KeyError of
    [rename_key_], whatever else the table holds, and before it reads any
    tensor. *)
Theorem process_data_needs_observations_and_terminals (utd : bool)
    (d : gmap key tensor) (env : option GymEnv) (h : heap) :
  td_in "observations" d = false ∨ td_in "terminals" d = false →
  ∃ msg, _process_data_from_env utd d env h = Raise (KeyError msg).
Proof.
  intros Hmiss. unfold _process_data_from_env.
  pose proof (td_in_extract_metadata "observations" d eq_refl) as HO.
  pose proof (td_in_extract_metadata "terminals" d eq_refl) as HT.
  destruct (extract_metadata d) as [d0 md]. cbn [fst] in HO, HT.
  destruct (td_in "observations" d) eqn:Hobs.
  - destruct Hmiss as [|Hterm]; [done|].
    assert (Hin : td_in "terminals" (td_rename "observations" ["observation"] d0)
                  = false).
    { rewrite td_in_td_rename_other by done. by rewrite HT. }
    destruct (td_rename_key__absent "terminals" ["terminated"] _ Hin)
      as [msg Hmsg].
    exists msg. unfold bind at 1. unfold lift at 1, td_rename_key_ at 1.
    rewrite HO. unfold bind at 1. unfold lift at 1. by rewrite Hmsg.
  - destruct (td_rename_key__absent "observations" ["observation"] d0)
      as [msg Hmsg]; [by rewrite HO|].
    exists msg. unfold bind at 1. unfold lift at 1. by rewrite Hmsg.
Qed.

Lemma process_data_needs_observations_and_terminals_witness :
  ∃ msg, _process_data_from_env true ex_steps None ex_heap
         = Raise (KeyError msg).
Proof.
  apply (process_data_needs_observations_and_terminals true ex_steps None
           ex_heap).
  left. vm_compute. reflexivity.
Defined.

(** ** The policy without truncation flags *)

Lemma set_done_contents_policy (m : gmap key buffer) :
  m !! ["truncated"] = None →
  set_done_contents true m = set_done_contents false m.
Proof.
  intros Hm. unfold set_done_contents, done_rows, raw_done. rewrite Hm.
  f_equal. rewrite <- (map_id (col ["terminated"] m)) at 2.
  apply map_ext. intros r. rewrite <- (map_id r) at 2.
  apply map_ext. intros x. apply Z.lor_0_r.
Qed.

Lemma final_contents_policy (md : mode) (env : option GymEnv)
    (m : gmap key buffer) :
  td_in "timeouts" m = false → td_in "truncated" m = false →
  final_contents md true env m = final_contents md false env m.
Proof.
  intros Hto Htr.
  pose proof (td_in_false_lookup _ _ [] Hto) as Hto'.
  pose proof (td_in_false_lookup _ _ [] Htr) as Htr'.
  unfold final_contents. destruct md.
  - unfold process_contents, normalize_contents. cbv zeta.
    rewrite set_done_contents_policy; [reflexivity|].
    rewrite lookup_rename_timeouts_contents.
    cbn [below String.eqb Ascii.eqb Bool.eqb andb drop].
    td_in_simpl. rewrite Hto. by td_lookup.
  - unfold direct_contents, direct_normalize_contents. cbv zeta.
    rewrite set_done_contents_policy; [reflexivity|].
    pose proof (direct_truncated m) as Hd. cbv zeta in Hd. rewrite Hd.
    unfold raw_truncated. by rewrite Hto.
Qed.

(** X11.  When the raw table has neither [timeouts] nor [truncated],
    [use_truncated_as_done] makes no difference: the two settings give
    finished tables with the same fields and the same rows. *)
Theorem policy_is_idle_without_truncation (w : World) (name : string)
    (kw : list (string * Z)) (h0 : heap) (d : gmap key tensor)
    (h : heap) (dd fe : bool) (md : mode) (env : option GymEnv)
    (m : gmap key buffer) (N : nat) :
  loads w name kw h0 d h dd fe md env → rep h d m →
  raw_ok md N m = true → env_wf env →
  td_in "timeouts" d = false → td_in "truncated" d = false →
  returns (__init__ w name false fe true dd kw) h0 (λ rb1 h1,
    returns (__init__ w name false fe false dd kw) h0 (λ rb2 h2,
      ∃ ds1 ds2, storage rb1 = Flat ds1 ∧ storage rb2 = Flat ds2
                 ∧ ∀ k, column h1 ds1 k = column h2 ds2 k)).
Proof.
  intros Hl Hrep Hok Henv Hto Htr.
  rewrite (rep_td_in _ _ _ _ Hrep) in Hto.
  rewrite (rep_td_in _ _ _ _ Hrep) in Htr.
  eapply returns_mono; [by eapply (__init___finished w name true)|].
  intros rb1 h1; cbv beta. intros (ds1 & Hst1 & _ & _ & Hcol1 & _).
  eapply returns_mono; [by eapply (__init___finished w name false)|].
  intros rb2 h2; cbv beta. intros (ds2 & Hst2 & _ & _ & Hcol2 & _).
  exists ds1, ds2. split; [done|]. split; [done|]. intros k.
  rewrite Hcol1, Hcol2. by rewrite final_contents_policy.
Qed.

Lemma policy_is_idle_without_truncation_witness :
  returns (__init__ ex_world_q "maze2d-open-v0" false false true false []) ∅
    (λ rb1 h1,
      returns (__init__ ex_world_q "maze2d-open-v0" false false false false [])
        ∅ (λ rb2 h2,
          ∃ ds1 ds2, storage rb1 = Flat ds1 ∧ storage rb2 = Flat ds2
                     ∧ ∀ k, column h1 ds1 k = column h2 ds2 k)).
Proof.
  apply (policy_is_idle_without_truncation ex_world_q "maze2d-open-v0" []
           ∅ ex_raw_q ex_heap_q false false Prebuilt
           (Some (gym_make ex_world_q "maze2d-open-v0")) ex_contents_q 5).
  - apply loads_direct; reflexivity.
  - unfold rep. apply (bool_decide_unpack _). vm_compute. exact I.
  - vm_compute. reflexivity.
  - vm_compute. reflexivity.
  - vm_compute. reflexivity.
  - vm_compute. reflexivity.
Defined.

(** ** The info entries *)

Lemma lookup_convert_contents_ne (k0 : key) (f : Z → Z) (m : gmap key buffer)
    (k : key) :
  below k0 k = false → convert_contents k0 f m !! k = m !! k.
Proof.
  intros Hb. unfold convert_contents. by rewrite lookup_td_set_leaf, Hb.
Qed.

Lemma lookup_format_done_contents_ne (m : gmap key buffer) (k : key) :
  below ["truncated"] k = false → below ["terminated"] k = false →
  below ["done"] k = false →
  format_done_contents m !! k = m !! k.
Proof.
  intros H1 H2 H3. rewrite lookup_format_done_contents, H1.
  by rewrite !lookup_convert_contents_ne.
Qed.

Lemma lookup_env_contents_ne (env : option GymEnv) (m : gmap key buffer)
    (k : key) :
  env_wf env → below ["observation"] k = false → below ["action"] k = false →
  below ["reward"] k = false →
  env_contents env m !! k = m !! k.
Proof.
  intros Henv H1 H2 H3. unfold env_contents. destruct env as [env|]; [|done].
  rewrite (env_ok_spec env Henv). cbn [foldl fst snd].
  by rewrite !lookup_convert_contents_ne.
Qed.

Lemma normalize_contents_no_infos (utd : bool) (env : option GymEnv)
    (m : gmap key buffer) (rest : key) :
  env_wf env → normalize_contents utd env m !! ("infos" :: rest) = None.
Proof.
  intros Henv. unfold normalize_contents. cbv zeta.
  unfold unsqueeze_contents. rewrite lookup_td_set_leaf.
  cbn [below String.eqb Ascii.eqb Bool.eqb andb].
  rewrite lookup_format_done_contents_ne by reflexivity.
  rewrite lookup_env_contents_ne by done.
  by rewrite lookup_rename_infos.
Qed.

Lemma finish_contents_infos (X : gmap key buffer) (rest : key) :
  fill_contents
    (shift_reward_done_contents
       (attach_next_contents (derive_next_contents X))) !! ("infos" :: rest)
  = init_rows <$> X !! ("infos" :: rest).
Proof. by td_lookup. Qed.

Lemma normalize_contents_info (utd : bool) (env : option GymEnv)
    (m : gmap key buffer) (rest : key) :
  env_wf env → td_in "infos" m = true →
  normalize_contents utd env m !! ("info" :: rest) = m !! ("infos" :: rest).
Proof.
  intros Henv Hin. unfold normalize_contents. cbv zeta.
  unfold unsqueeze_contents. rewrite lookup_td_set_leaf.
  cbn [below String.eqb Ascii.eqb Bool.eqb andb].
  rewrite lookup_format_done_contents_ne by reflexivity.
  rewrite lookup_env_contents_ne by done. rewrite lookup_rename_infos.
  cbn [below String.eqb Ascii.eqb Bool.eqb andb drop].
  td_in_simpl. rewrite Hin. by td_lookup.
Qed.

Lemma finish_contents_info (X : gmap key buffer) (rest : key) :
  fill_contents
    (shift_reward_done_contents
       (attach_next_contents (derive_next_contents X))) !! ("info" :: rest)
  = init_rows <$> X !! ("info" :: rest)
  ∧ fill_contents
      (shift_reward_done_contents
         (attach_next_contents (derive_next_contents X)))
      !! ("next" :: "info" :: rest)
    = drop 1 <$> X !! ("info" :: rest).
Proof. split; by td_lookup. Qed.

Lemma final_contents_info (utd : bool) (env : option GymEnv)
    (m : gmap key buffer) (rest : key) :
  env_wf env → td_in "infos" m = true →
  final_contents Derived utd env m !! ("info" :: rest)
  = init_rows <$> m !! ("infos" :: rest)
  ∧ final_contents Derived utd env m !! ("next" :: "info" :: rest)
    = drop 1 <$> m !! ("infos" :: rest).
Proof.
  intros Henv Hin. unfold final_contents, process_contents.
  destruct (finish_contents_info (normalize_contents utd env m) rest)
    as [-> ->].
  by rewrite normalize_contents_info.
Qed.

(** X12.  In derived mode the entries of the raw [infos] go the way of the
    observations: the finished table holds every one of them under [info]
    without its last row, and under [next], [info] without its first
    row, so that [next.info[t]] is the raw info of step [t+1]. *)
Theorem infos_become_info_and_next_info (w : World) (name : string)
    (utd : bool) (kw : list (string * Z)) (h0 : heap) (d : gmap key tensor)
    (h : heap) (dd fe : bool) (env : option GymEnv)
    (m : gmap key buffer) (N : nat) :
  loads w name kw h0 d h dd fe Derived env → rep h d m →
  raw_ok Derived N m = true → env_wf env →
  returns (__init__ w name false fe utd dd kw) h0
    (λ rb h', ∃ ds,
       storage rb = Flat ds
       ∧ td_in "infos" ds = false
       ∧ ∀ rest b, column h d ("infos" :: rest) = Some b →
           column h' ds ("info" :: rest) = Some (init_rows b)
           ∧ column h' ds ("next" :: "info" :: rest) = Some (drop 1 b)).
Proof.
  intros Hl Hrep Hok Henv.
  eapply returns_mono; [by eapply __init___finished|].
  intros rb h'; cbv beta. intros (ds & Hst & _ & Hrep' & Hcol & _).
  exists ds. split; [done|]. split.
  - rewrite (rep_td_in _ _ _ _ Hrep'). apply td_in_false.
    intros k [rest ->]%below_cons_inv.
    unfold final_contents, process_contents.
    by rewrite finish_contents_infos, normalize_contents_no_infos.
  - intros rest b. rewrite (column_rep h d m _ Hrep). intros Hb.
    assert (Hin : td_in "infos" m = true).
    { apply td_in_true. exists ("infos" :: rest), b. split; [done|].
      by rewrite below_single. }
    destruct (final_contents_info utd env m rest Henv Hin) as [H1 H2].
    by rewrite !Hcol, H1, H2, Hb.
Qed.

Lemma infos_become_info_and_next_info_witness :
  returns (__init__ ex_world "maze2d-open-v0" false true true true []) ∅
    (λ rb h', ∃ ds,
       storage rb = Flat ds
       ∧ td_in "infos" ds = false
       ∧ ∀ rest b, column ex_heap ex_raw ("infos" :: rest) = Some b →
           column h' ds ("info" :: rest) = Some (init_rows b)
           ∧ column h' ds ("next" :: "info" :: rest) = Some (drop 1 b)).
Proof.
  apply (infos_become_info_and_next_info ex_world "maze2d-open-v0" true []
           ∅ ex_raw ex_heap true true None ex_contents 5).
  - eapply loads_download; reflexivity.
  - unfold rep. apply (bool_decide_unpack _). vm_compute. exact I.
  - vm_compute. reflexivity.
  - exact I.
Defined.

(** ** The path of a cached archive *)

Lemma substring_0_all (s : string) :
  String.substring 0 (String.length s) s = s.
Proof. induction s as [|c s IH]; simpl; [done|]. by rewrite IH. Qed.

Lemma substring_0_0 (s : string) : String.substring 0 0 s = "".
Proof. by destruct s. Qed.

Lemma rfind_slash_None (s : string) :
  rfind_slash s = None → no_slash s = true.
Proof.
  induction s as [|c s IH]; simpl; [done|].
  destruct (rfind_slash s) as [i|]; [done|].
  destruct (is_slash c); [done|]. intros _. by rewrite IH.
Qed.

Lemma app_String (c : Ascii.ascii) (s t : string) :
  String c s +:+ t = String c (s +:+ t).
Proof. done. Qed.

Lemma endswith_slash_String (c : Ascii.ascii) (s : string) :
  endswith_slash s = true → endswith_slash (String c s) = true.
Proof. destruct s; simpl; [done|]. done. Qed.

(** The cut of [os.path.split]: the path is its two parts, the second
    has no slash, and the first is empty or ends with one. *)
Lemma last_slash_cut_aux (p : string) :
  let i := match rfind_slash p with Some j => S j | None => 0 end in
  let pre := String.substring 0 i p in
  let name := String.substring i (String.length p - i) p in
  p = pre +:+ name ∧ no_slash name = true
  ∧ match rfind_slash p with
    | Some _ => endswith_slash pre = true
    | None => pre = ""
    end.
Proof.
  induction p as [|c p IH]; [done|].
  cbn [rfind_slash]. cbv zeta in IH. destruct (rfind_slash p) as [j|] eqn:Hj.
  - cbv zeta. destruct IH as (Hp & Hn & Hpre).
    cbn [String.substring String.length Nat.sub]. rewrite app_String.
    split; [by rewrite <- Hp|]. split; [done|].
    by apply endswith_slash_String.
  - clear IH. pose proof (rfind_slash_None p Hj) as Hno.
    destruct (is_slash c) eqn:Hc; cbv zeta.
    + cbn [String.substring String.length Nat.sub].
      rewrite Nat.sub_0_r, substring_0_all, substring_0_0.
      split; [done|]. split; [done|]. simpl. exact Hc.
    + cbn [String.substring String.length Nat.sub].
      rewrite substring_0_all. split; [done|]. split; [|done].
      simpl. by rewrite Hc, Hno.
Qed.

Lemma last_slash_cut (p : string) :
  let i := match rfind_slash p with Some j => S j | None => 0 end in
  let pre := String.substring 0 i p in
  let name := String.substring i (String.length p - i) p in
  p = pre +:+ name ∧ no_slash name = true
  ∧ (pre = "" ∨ endswith_slash pre = true).
Proof.
  destruct (last_slash_cut_aux p) as (H1 & H2 & H3). cbv zeta.
  split; [done|]. split; [done|].
  destruct (rfind_slash p); [by right|by left].
Qed.

Lemma no_slash_startswith (s : string) :
  no_slash s = true → startswith_slash s = false.
Proof. destruct s as [|c s]; simpl; [done|]. by destruct (is_slash c). Qed.

(** X13.  The file of an archive in the cache is named by what follows
    the last slash of its URL, and lies in [DATASET_PATH]: the name has no
    slash, so [os.path.join] never drops the directory, whatever the
    URL. *)
Theorem filepath_from_url_stays_in_dataset_path (dataset_path url : string) :
  ∃ pre name,
    url = pre +:+ name ∧ no_slash name = true
    ∧ (pre = "" ∨ endswith_slash pre = true)
    ∧ _filepath_from_url dataset_path url
      = dataset_path
        +:+ (if String.eqb dataset_path "" || endswith_slash dataset_path
             then "" else "/")
        +:+ name.
Proof.
  destruct (last_slash_cut url) as (Hurl & Hno & Hpre).
  eexists _, _. split; [exact Hurl|]. split; [exact Hno|].
  split; [exact Hpre|].
  unfold _filepath_from_url, os_path_split. cbv zeta.
  unfold os_path_join. rewrite (no_slash_startswith _ Hno).
  by destruct (String.eqb dataset_path "" || endswith_slash dataset_path).
Qed.

(** ** Downloads *)

Lemma download_Done (net : string → string → gset string → outcome (gset string))
    (url : string) (disk : Disk) (p : string) (disk' : Disk) :
  _download_dataset_from_url net url disk = Done (p, disk') →
  p = _filepath_from_url (DATASET_PATH disk) url
  ∧ p ∈ files disk'
  ∧ DATASET_PATH disk' = DATASET_PATH disk
  ∧ (p ∈ files disk → disk' = disk)
  ∧ (p ∉ files disk →
     stdout disk' = stdout disk ++ ["Downloading dataset: " +:+ url +:+ " to " +:+ p]
     ∧ net url p (files disk) = Done (files disk')).
Proof.
  unfold _download_dataset_from_url. cbv zeta.
  set (path := _filepath_from_url (DATASET_PATH disk) url).
  destruct (bool_decide (path ∈ files disk)) eqn:Hin.
  - rewrite Hin. intros [= <- <-]. apply bool_decide_eq_true in Hin.
    by repeat split.
  - apply bool_decide_eq_false in Hin.
    destruct (net url path (files disk)) as [fs|e] eqn:Hnet; [|done].
    cbn [files]. destruct (bool_decide (path ∈ fs)) eqn:Hfs; [|done].
    apply bool_decide_eq_true in Hfs. intros [= <- <-]. by repeat split.
Qed.

(** X14.  When [_download_dataset_from_url] returns, it returns the path
    that [_filepath_from_url] gives and the file exists; a file that was
    there already leaves the disk untouched (nothing printed, nothing
    fetched), otherwise the download was announced on the standard output
    and the network created the file. *)
Theorem download_returns_an_existing_file
    (net : string → string → gset string → outcome (gset string))
    (url : string) (disk : Disk) (p : string) (disk' : Disk) :
  _download_dataset_from_url net url disk = Done (p, disk') →
  p = _filepath_from_url (DATASET_PATH disk) url
  ∧ p ∈ files disk'
  ∧ (p ∈ files disk → disk' = disk)
  ∧ (p ∉ files disk →
     stdout disk' = stdout disk ++ ["Downloading dataset: " +:+ url +:+ " to " +:+ p]
     ∧ net url p (files disk) = Done (files disk')).
Proof.
  intros H. destruct (download_Done net url disk p disk' H)
    as (H1 & H2 & _ & H3 & H4). done.
Qed.

Lemma download_returns_an_existing_file_witness :
  let url := "http://rail.eecs.berkeley.edu/datasets/offline_rl/maze2d/maze2d-umaze-sparse-v1.hdf5" in
  let p := "/cache/maze2d-umaze-sparse-v1.hdf5" in
  let disk' := {| DATASET_PATH := "/cache";
                  files := {[ p ]} ∪ files ex_disk;
                  stdout := ["Downloading dataset: " +:+ url +:+ " to " +:+ p] |} in
  p = _filepath_from_url (DATASET_PATH ex_disk) url
  ∧ p ∈ files disk'
  ∧ (p ∈ files ex_disk → disk' = ex_disk)
  ∧ (p ∉ files ex_disk →
     stdout disk' = stdout ex_disk ++ ["Downloading dataset: " +:+ url +:+ " to " +:+ p]
     ∧ ex_net url p (files ex_disk) = Done (files disk')).
Proof.
  intros url p disk'.
  apply (download_returns_an_existing_file ex_net url ex_disk p disk').
  vm_compute. reflexivity.
Defined.

(** X15.  A download that returned is not repeated: asking again for the
    same URL finds the file, returns the same path and leaves the disk as
    it is, whatever the network does by then (it is not consulted). *)
Theorem download_twice_hits_the_cache
    (net net' : string → string → gset string → outcome (gset string))
    (url : string) (disk : Disk) (p : string) (disk' : Disk) :
  _download_dataset_from_url net url disk = Done (p, disk') →
  _download_dataset_from_url net' url disk' = Done (p, disk').
Proof.
  intros H. destruct (download_Done net url disk p disk' H)
    as (Hp & Hin & Hpath & _).
  unfold _download_dataset_from_url. cbv zeta. rewrite Hpath, <- Hp.
  by rewrite !bool_decide_eq_true_2.
Qed.

Lemma download_twice_hits_the_cache_witness :
  let url := "http://rail.eecs.berkeley.edu/datasets/offline_rl/maze2d/maze2d-umaze-sparse-v1.hdf5" in
  let p := "/cache/maze2d-umaze-sparse-v1.hdf5" in
  let disk' := {| DATASET_PATH := "/cache";
                  files := {[ p ]} ∪ files ex_disk;
                  stdout := ["Downloading dataset: " +:+ url +:+ " to " +:+ p] |} in
  _download_dataset_from_url ex_net_down url disk' = Done (p, disk').
Proof.
  intros url p disk'.
  apply (download_twice_hits_the_cache ex_net ex_net_down url ex_disk p disk').
  vm_compute. reflexivity.
Defined.

(** X16.  [_download_dataset_from_url] fails in two ways only: with the
    error of the network, or, when the network returned and the file is
    still not there, with the IOError that names the URL. *)
Theorem download_failures
    (net : string → string → gset string → outcome (gset string))
    (url : string) (disk : Disk) (e : os_exn) :
  _download_dataset_from_url net url disk = Failed e →
  let p := _filepath_from_url (DATASET_PATH disk) url in
  (p ∉ files disk)
  ∧ (net url p (files disk) = Failed e
     ∨ ∃ fs, net url p (files disk) = Done fs ∧ (p ∉ fs)
             ∧ e = IOError ("Failed to download dataset from " +:+ url)).
Proof.
  unfold _download_dataset_from_url. cbv zeta.
  set (path := _filepath_from_url (DATASET_PATH disk) url).
  destruct (bool_decide (path ∈ files disk)) eqn:Hin.
  - by rewrite Hin.
  - apply bool_decide_eq_false in Hin. split; [done|].
    destruct (net url path (files disk)) as [fs|e'] eqn:Hnet.
    + cbn [files] in H. destruct (bool_decide (path ∈ fs)) eqn:Hfs; [done|].
      apply bool_decide_eq_false in Hfs. injection H as <-. right. eauto.
    + injection H as <-. by left.
Qed.

Lemma download_failures_witness :
  let url := "http://rail.eecs.berkeley.edu/datasets/offline_rl/maze2d/maze2d-umaze-sparse-v1.hdf5" in
  let e := IOError ("Failed to download dataset from " +:+ url) in
  let p := _filepath_from_url (DATASET_PATH ex_disk) url in
  (p ∉ files ex_disk)
  ∧ (ex_net_down url p (files ex_disk) = Failed e
     ∨ ∃ fs, ex_net_down url p (files ex_disk) = Done fs ∧ (p ∉ fs)
             ∧ e = IOError ("Failed to download dataset from " +:+ url)).
Proof.
  intros url e.
  apply (download_failures ex_net_down url ex_disk e).
  vm_compute. reflexivity.
Defined.

(** ** An empty dataset of transitions *)

Lemma _get_dataset_direct_empty (w : World) (utd : bool) (name : string)
    (env_kwargs : list (string * Z)) (h0 h : heap) (d : gmap key tensor)
    (m : gmap key buffer) :
  has_d4rl w = true → qlearning_dataset w name env_kwargs h0 = Ok (d, h) →
  rep h d m → transition_table 0 m = true → env_ok (gym_make w name) = true →
  raises (_get_dataset_direct w utd name env_kwargs) h0 index_error_empty.
Proof.
  intros Hd4rl Hq Hrep Htt Henv.
  destruct (transition_table_inv 0 m Htt) as (Hflat & NO & HNO & HlNO).
  destruct (flat_table_inv 0 m Hflat)
    as (O & A & R & T & HO & HA & HR & HT & HlO & HlA & HlR & HlT
        & Hrows & Hin & HU).
  set (env := gym_make w name) in *.
  destruct (direct_fields utd m O NO A R T HO HNO HA HR HT)
    as (F1 & F2 & F3 & F4 & F5 & F6 & F7 & F8).
  destruct (direct_env_fields utd env m 0 O NO A R T Hflat Henv HO HNO HA HR HT)
    as (Er & E1 & E2 & E3 & E4 & E5 & E6 & E7 & E8 & E9).
  destruct (direct_normalize_canonical utd env m 0 O NO A R T
              Hflat Henv HO HNO HA HR HT) as (Hcan & HcNO & Hcnt & Hcr).
  pose proof (direct_truncated m) as Htrunc. cbv zeta in Htrunc.
  assert (Ht : table h h (extract_metadata d).1 (td_del ["metadata"] m)).
  { by apply extract_metadata_table. }
  unfold _get_dataset_direct. rewrite Hd4rl. cbn [negb]. fold env.
  eapply raises_bind.
  { exact (returns_eq _ _ _ _ Hq). }
  intros ? ?; cbv beta; intros [-> ->].
  destruct (extract_metadata d) as [d0 md]. cbn [fst snd] in *.
  eapply raises_bind.
  { apply rename_returns; [done|]. apply (td_in_leaf _ _ O). by td_lookup. }
  intros d1 h1; cbv beta; intros Ht1.
  apply clear_next_table in Ht1.
  eapply raises_bind.
  { apply rename_returns; [done|]. apply (td_in_leaf _ _ NO). by td_lookup. }
  intros d2 h2; cbv beta; intros Ht2.
  eapply raises_bind.
  { apply rename_returns; [done|]. apply (td_in_leaf _ _ T). by td_lookup. }
  intros d3 h3; cbv beta; intros Ht3.
  eapply raises_bind; [by apply rename_timeouts_returns|].
  intros d4 h4; cbv beta; intros Ht4.
  eapply raises_bind.
  { eapply (set_done_returns _ _ _ _ utd T); [done| |].
    - td_lookup. by rewrite HT.
    - intros U. rewrite Htrunc. intros HmU. rewrite (HU U HmU). done. }
  intros d5 h5; cbv beta; intros Ht5.
  eapply raises_bind.
  { apply rename_returns; [done|]. apply (td_in_leaf _ _ R). by td_lookup. }
  intros d6 h6; cbv beta; intros Ht6.
  eapply raises_bind.
  { apply rename_returns; [done|]. apply (td_in_leaf _ _ A). by td_lookup. }
  intros d7 h7; cbv beta; intros Ht7.
  eapply raises_bind.
  { by eapply (match_dtypes_direct_returns _ _ _ _ env O NO A R). }
  intros d8 h8; cbv beta; intros Ht8.
  eapply raises_bind.
  { eapply format_done_returns; [done|exact E6|exact E5|].
    rewrite E8, E7. by destruct (raw_truncated m). }
  intros d9 h9; cbv beta; intros Ht9.
  eapply raises_bind.
  { eapply unsqueeze_returns; [done|]. rewrite lookup_format_done_contents.
    cbn [below String.eqb Ascii.eqb Bool.eqb andb]. unfold convert_contents.
    rewrite !lookup_td_set_leaf_ne by reflexivity. exact E4. }
  intros d10 h10; cbv beta; intros Ht10.
  change (table h h10 d10 (direct_normalize_contents utd env m)) in Ht10.
  apply attach_next_table in Ht10.
  apply rows_attach_next in Hcr.
  destruct (attach_transitions _ _ _ _ _ _ _ _ Hcan HcNO Hcnt)
    as [(_ & _ & HR' & _) _].
  eapply raises_bind; [by apply td_clone_returns|].
  intros d11 h11; cbv beta; intros ((_ & Hrep11) & _).
  destruct (rep_lookup _ _ _ _ _ Hrep11 HR') as (t & Hd11 & Hread).
  assert (Hnil : map (map (reward_spec env)) R = []).
  { apply nil_length_inv. by apply (rows_lookup 0) in HR'. }
  rewrite Hnil in Hread.
  apply raises_bind_now. unfold _shift_reward_done. apply raises_bind_now.
  by apply (shift_key_empty h11 d11 "reward" t).
Qed.

(** X17.  An empty dataset of transitions gives no table either: in
    pre-built mode the constructor goes through the whole normalisation
    of the empty columns and stops in [_shift_reward_done] with the
    IndexError of an index into an empty tensor. *)
Theorem prebuilt_mode_needs_a_transition (w : World) (name : string)
    (split utd : bool) (kw : list (string * Z)) (h0 : heap)
    (d : gmap key tensor) (h : heap) (m : gmap key buffer) :
  has_d4rl w = true → qlearning_dataset w name kw h0 = Ok (d, h) →
  rep h d m → transition_table 0 m = true → env_ok (gym_make w name) = true →
  __init__ w name split false utd false kw h0
  = Raise (IndexError "index 0 is out of bounds for dimension 0 with size 0").
Proof.
  intros Hd4 Hq Hrep Htt Henv. unfold __init__.
  apply raises_bind_now. cbn [negb]. rewrite Hd4. cbn [negb].
  by apply (_get_dataset_direct_empty w utd name kw h0 h d m).
Qed.

Lemma prebuilt_mode_needs_a_transition_witness :
  __init__ ex_world_none "maze2d-open-v0" false false true false [] ∅
  = Raise (IndexError "index 0 is out of bounds for dimension 0 with size 0").
Proof.
  apply (prebuilt_mode_needs_a_transition ex_world_none "maze2d-open-v0"
           false true [] ∅ ex_raw_none ex_heap_none
           (omap (read ex_heap_none) ex_raw_none)).
  - reflexivity.
  - reflexivity.
  - unfold rep. apply (bool_decide_unpack _). vm_compute. exact I.
  - vm_compute. reflexivity.
  - vm_compute. reflexivity.
Defined.

(** ** The raw names do not survive *)

Lemma lookup_direct_env_contents_ne (env : GymEnv) (m : gmap key buffer)
    (k : key) :
  env_ok env = true → below ["observation"] k = false →
  below ["next"; "observation"] k = false →
  below ["action"] k = false → below ["reward"] k = false →
  direct_env_contents env m !! k = m !! k.
Proof.
  intros Henv H1 H2 H3 H4. unfold direct_env_contents.
  rewrite (env_ok_spec env Henv). cbn [foldl fst snd].
  by rewrite !lookup_convert_contents_ne.
Qed.

Lemma normalize_contents_no_raw (utd : bool) (env : option GymEnv)
    (m : gmap key buffer) (n : string) (rest : key) :
  env_wf env → n ∈ raw_names →
  normalize_contents utd env m !! (n :: rest) = None.
Proof.
  intros Henv Hn. apply list_elem_of_In in Hn. simpl in Hn.
  unfold normalize_contents, unsqueeze_contents. cbv zeta.
  destruct Hn as [<-|[<-|[<-|[<-|[<-|[]]]]]];
    rewrite lookup_td_set_leaf;
    cbn [below String.eqb Ascii.eqb Bool.eqb andb];
    rewrite lookup_format_done_contents_ne by reflexivity;
    rewrite lookup_env_contents_ne by done;
    by td_lookup.
Qed.

Lemma direct_normalize_contents_no_raw (utd : bool) (env : GymEnv)
    (m : gmap key buffer) (n : string) (rest : key) :
  env_ok env = true → n ∈ raw_names →
  direct_normalize_contents utd env m !! (n :: rest) = None.
Proof.
  intros Henv Hn. apply list_elem_of_In in Hn. simpl in Hn.
  unfold direct_normalize_contents, unsqueeze_contents. cbv zeta.
  destruct Hn as [<-|[<-|[<-|[<-|[<-|[]]]]]];
    rewrite lookup_td_set_leaf;
    cbn [below String.eqb Ascii.eqb Bool.eqb andb];
    rewrite lookup_format_done_contents_ne by reflexivity;
    rewrite lookup_direct_env_contents_ne by done;
    by td_lookup.
Qed.

Lemma finish_contents_raw (X : gmap key buffer) (n : string) (rest : key) :
  n ∈ raw_names →
  fill_contents
    (shift_reward_done_contents
       (attach_next_contents (derive_next_contents X))) !! (n :: rest)
  = init_rows <$> X !! (n :: rest)
  ∧ fill_contents (shift_reward_done_contents (attach_next_contents X))
      !! (n :: rest)
    = X !! (n :: rest).
Proof.
  intros Hn. apply list_elem_of_In in Hn. simpl in Hn.
  destruct Hn as [<-|[<-|[<-|[<-|[<-|[]]]]]]; split; by td_lookup.
Qed.

Lemma final_contents_no_raw (md : mode) (utd : bool) (env : option GymEnv)
    (m : gmap key buffer) (n : string) (rest : key) :
  env_wf env → (md = Prebuilt → is_Some env) → n ∈ raw_names →
  final_contents md utd env m !! (n :: rest) = None.
Proof.
  intros Henv Hmd Hn. unfold final_contents. destruct md.
  - unfold process_contents.
    destruct (finish_contents_raw (normalize_contents utd env m) n rest Hn)
      as [-> _].
    by rewrite normalize_contents_no_raw.
  - destruct (Hmd eq_refl) as [e ->]. unfold direct_contents.
    change (env_of (Some e)) with e.
    destruct (finish_contents_raw (direct_normalize_contents utd e m) n rest Hn)
      as [_ ->].
    by rewrite direct_normalize_contents_no_raw.
Qed.

(** X18.  The raw names do not survive the construction: whatever the
    mode, the finished table has no field [observations], [actions],
    [rewards], [terminals] or [timeouts]; they were renamed. *)
Theorem raw_names_are_renamed (w : World) (name : string)
    (utd : bool) (kw : list (string * Z)) (h0 : heap) (d : gmap key tensor)
    (h : heap) (dd fe : bool) (md : mode) (env : option GymEnv)
    (m : gmap key buffer) (N : nat) :
  loads w name kw h0 d h dd fe md env → rep h d m →
  raw_ok md N m = true → env_wf env →
  returns (__init__ w name false fe utd dd kw) h0
    (λ rb h', ∃ ds, storage rb = Flat ds
                    ∧ ∀ n, n ∈ raw_names → td_in n ds = false).
Proof.
  intros Hl Hrep Hok Henv.
  pose proof (loads_mode_env _ _ _ _ _ _ _ _ _ _ Hl) as Hmd.
  eapply returns_mono; [by eapply __init___finished|].
  intros rb h'; cbv beta. intros (ds & Hst & _ & Hrep' & _).
  exists ds. split; [done|]. intros n Hn.
  rewrite (rep_td_in _ _ _ _ Hrep'). apply td_in_false.
  intros k [rest ->]%below_cons_inv. by apply final_contents_no_raw.
Qed.

Lemma raw_names_are_renamed_witness :
  returns (__init__ ex_world "maze2d-open-v0" false true true true []) ∅
    (λ rb h', ∃ ds, storage rb = Flat ds
                    ∧ ∀ n, n ∈ raw_names → td_in n ds = false).
Proof.
  apply (raw_names_are_renamed ex_world "maze2d-open-v0" true []
           ∅ ex_raw ex_heap true true Derived None ex_contents 5).
  - eapply loads_download; reflexivity.
  - unfold rep. apply (bool_decide_unpack _). vm_compute. exact I.
  - vm_compute. reflexivity.
  - exact I.
Defined.

(** ** What a direct download does not look at *)

(** X19.  A direct download needs neither the d4rl package nor gym, and
    pays no attention to [from_env]: two constructions that read the same
    archives give the same result, whatever else differs between the two
    machines and whatever [from_env] is. *)
Theorem direct_download_ignores_d4rl_and_from_env (w w' : World)
    (name : string) (split fe fe' utd : bool) (kw : list (string * Z))
    (h0 : heap) :
  from_h5 w = from_h5 w' →
  __init__ w name split fe utd true kw h0
  = __init__ w' name split fe' utd true kw h0.
Proof.
  intros Hh5. unfold __init__. cbn [negb].
  unfold _get_dataset_direct_download. by rewrite Hh5.
Qed.

Lemma direct_download_ignores_d4rl_and_from_env_witness :
  __init__ ex_world "maze2d-open-v0" false true true true [] ∅
  = __init__ ex_world_bare "maze2d-open-v0" false false true true [] ∅.
Proof.
  apply (direct_download_ignores_d4rl_and_from_env ex_world ex_world_bare
           "maze2d-open-v0" false true false true [] ∅).
  reflexivity.
Defined.

(** ** What the policy changes *)

(** X20.  [use_truncated_as_done] decides [done], [next.done] and, through
    them, which next observations are zeroed, and nothing else: the two
    settings give the same observation, action, reward, terminated and
    truncated, at the top level and under [next]. *)
Theorem policy_changes_done_only (w : World) (name : string)
    (kw : list (string * Z)) (h0 : heap) (d : gmap key tensor)
    (h : heap) (dd fe : bool) (md : mode) (env : option GymEnv)
    (m : gmap key buffer) (N : nat) :
  loads w name kw h0 d h dd fe md env → rep h d m →
  raw_ok md N m = true → env_wf env →
  returns (__init__ w name false fe true dd kw) h0 (λ rb1 h1,
    returns (__init__ w name false fe false dd kw) h0 (λ rb2 h2,
      ∃ ds1 ds2,
        storage rb1 = Flat ds1 ∧ storage rb2 = Flat ds2
        ∧ ∀ k, k ∈ [["observation"]; ["action"]; ["reward"]; ["terminated"];
                    ["truncated"]; ["next"; "reward"]; ["next"; "terminated"];
                    ["next"; "truncated"]] →
               column h1 ds1 k = column h2 ds2 k)).
Proof.
  intros Hl Hrep Hok Henv.
  pose proof (loads_mode_env _ _ _ _ _ _ _ _ _ _ Hl) as Hmd.
  eapply returns_mono; [by eapply (__init___finished w name true)|].
  intros rb1 h1; cbv beta. intros (ds1 & Hst1 & _ & _ & Hcol1 & _).
  eapply returns_mono; [by eapply (__init___finished w name false)|].
  intros rb2 h2; cbv beta. intros (ds2 & Hst2 & _ & _ & Hcol2 & _).
  exists ds1, ds2. split; [done|]. split; [done|].
  destruct (final_finished md true env m N Hok Henv Hmd)
    as ((HO & HA & HR & HT & _ & HU & _ & HNR & HNT & _ & HNU) & _).
  destruct (final_finished md false env m N Hok Henv Hmd)
    as ((HO' & HA' & HR' & HT' & _ & HU' & _ & HNR' & HNT' & _ & HNU') & _).
  intros k Hk. rewrite Hcol1, Hcol2.
  apply list_elem_of_In in Hk. simpl in Hk.
  destruct Hk as [<-|[<-|[<-|[<-|[<-|[<-|[<-|[<-|[]]]]]]]]]; congruence.
Qed.

Lemma policy_changes_done_only_witness :
  returns (__init__ ex_world "maze2d-open-v0" false true true true []) ∅
    (λ rb1 h1,
      returns (__init__ ex_world "maze2d-open-v0" false true false true []) ∅
        (λ rb2 h2,
          ∃ ds1 ds2,
            storage rb1 = Flat ds1 ∧ storage rb2 = Flat ds2
            ∧ ∀ k, k ∈ [["observation"]; ["action"]; ["reward"];
                        ["terminated"]; ["truncated"]; ["next"; "reward"];
                        ["next"; "terminated"]; ["next"; "truncated"]] →
                   column h1 ds1 k = column h2 ds2 k)).
Proof.
  apply (policy_changes_done_only ex_world "maze2d-open-v0" []
           ∅ ex_raw ex_heap true true Derived None ex_contents 5).
  - eapply loads_download; reflexivity.
  - unfold rep. apply (bool_decide_unpack _). vm_compute. exact I.
  - vm_compute. reflexivity.
  - exact I.
Defined.
